(** * Identity and access-control core of the Smart Traffic backend

    A shallow embedding of the authentication controller (refresh-token
    variant), the admin controller, the [requireRole] and permission
    middleware, the [RefreshToken] model and the owner bootstrap, together
    with the properties the specification states about them.

    Conventions of the embedding.
    - A MongoDB collection is a list of documents in insertion order;
      [findOne]/[findById] return the first match, [save] of a loaded
      document rewrites the first document carrying its [_id].
    - A request handler runs in the monad [M]: it threads the database and a
      schedule of write failures, and stops early on [next(err)] or on a
      rejected promise.  The database is kept as it is when a handler stops:
      the sources use no transaction.
    - [req.body] is a JSON object whose members are strings.
    - One clock reading [now] (milliseconds) is used per request. *)

From Stdlib Require Import ZArith List String Ascii Bool Lia Arith DecimalString.
Import ListNotations.

Set Implicit Arguments.

Open Scope string_scope.
Open Scope Z_scope.

(* ================================================================== *)
(** ** JavaScript values used by the handlers *)

Module Js.

(** Truthiness of a possibly [undefined] string. *)
Definition truthy (v : option string) : bool :=
  match v with
  | Some s => negb (s =? "")%string
  | None => false
  end.

(** [Array.prototype.includes] on an array of strings. *)
Definition includes (xs : list string) (x : string) : bool :=
  existsb (String.eqb x) xs.

Definition lower_ascii (c : ascii) : ascii :=
  let n := nat_of_ascii c in
  if ((65 <=? n) && (n <=? 90))%nat then ascii_of_nat (n + 32) else c.

(** [String.prototype.toLowerCase], on ASCII letters. *)
Fixpoint toLowerCase (s : string) : string :=
  match s with
  | EmptyString => EmptyString
  | String c r => String (lower_ascii c) (toLowerCase r)
  end.

(** [s.startsWith(p)] *)
Definition startsWith (s p : string) : bool := String.prefix p s.

(** [s.split(c)] for a one-character separator. *)
Fixpoint split (c : ascii) (s : string) : list string :=
  match s with
  | EmptyString => [EmptyString]
  | String a r =>
      if Ascii.eqb a c then EmptyString :: split c r
      else match split c r with
           | [] => [String a EmptyString]
           | w :: ws => String a w :: ws
           end
  end.

Definition hexDigit (n : nat) : ascii :=
  match n with
  | 0%nat => "0" | 1%nat => "1" | 2%nat => "2" | 3%nat => "3"
  | 4%nat => "4" | 5%nat => "5" | 6%nat => "6" | 7%nat => "7"
  | 8%nat => "8" | 9%nat => "9" | 10%nat => "a" | 11%nat => "b"
  | 12%nat => "c" | 13%nat => "d" | 14%nat => "e" | _ => "f"
  end%char.

(** [Buffer.prototype.toString('hex')] *)
Fixpoint toHex (bs : list Byte.byte) : string :=
  match bs with
  | [] => EmptyString
  | b :: r =>
      let n := Byte.to_nat b in
      String (hexDigit (n / 16)) (String (hexDigit (n mod 16)) (toHex r))
  end.

(** [crypto.randomBytes(n)]: the first [n] bytes of the entropy source
    handed to the request. *)
Definition randomBytes (n : nat) (src : nat -> Byte.byte) : list Byte.byte :=
  map src (seq 0 n).

(** JSON values sent by [res.json]; an ObjectId is sent as a number. *)
#[warnings="-register-all"]
Inductive Json :=
| JNum (n : Z)
| JBool (b : bool)
| JStr (s : string)
| JObj (members : list (string * Json)).

(** Own-property lookup [o[k]] on an object literal. *)
Fixpoint assoc {A} (k : string) (o : list (string * A)) : option A :=
  match o with
  | [] => None
  | (k', v) :: r => if (k' =? k)%string then Some v else assoc k r
  end.

Definition member (k : string) (j : Json) : option Json :=
  match j with
  | JObj ms => assoc k ms
  | _ => None
  end.

(** A member that [JSON.stringify] drops when the value is [undefined]. *)
Definition optMember (k : string) (v : option string) : list (string * Json) :=
  match v with
  | Some s => [(k, JStr s)]
  | None => []
  end.

End Js.

Import Js.

(** [req.body]: destructuring reads a member or [undefined]. *)
Definition Body := list (string * string).

Definition field (b : Body) (k : string) : option string := assoc k b.

(* ================================================================== *)
(** ** Documents *)

Inductive Role := owner | admin | operator | viewer.

Definition role_name (r : Role) : string :=
  match r with
  | owner => "owner"
  | admin => "admin"
  | operator => "operator"
  | viewer => "viewer"
  end.

Definition role_of_string (s : string) : option Role :=
  if (s =? "owner")%string then Some owner
  else if (s =? "admin")%string then Some admin
  else if (s =? "operator")%string then Some operator
  else if (s =? "viewer")%string then Some viewer
  else None.

Definition is_owner (r : Role) : bool :=
  match r with owner => true | _ => false end.

Module User.

(** Modelled from the spec: the User schema (models/User.js) is not among
    the sources.  The fields are those of section 3 of the specification
    and those the controllers read and write. *)
Record t := mk {
  _id : nat;
  name : string;
  email : string;
  password : string;                    (* stored hash *)
  role : Role;
  avatar : option string;
  isActive : bool;
  lastLogin : option Z;
  resetPasswordToken : option string;
  resetPasswordExpire : option Z
}.

Definition set_role (r : Role) (u : t) : t :=
  mk (_id u) (name u) (email u) (password u) r (avatar u) (isActive u)
     (lastLogin u) (resetPasswordToken u) (resetPasswordExpire u).

Definition set_isActive (b : bool) (u : t) : t :=
  mk (_id u) (name u) (email u) (password u) (role u) (avatar u) b
     (lastLogin u) (resetPasswordToken u) (resetPasswordExpire u).

Definition set_lastLogin (d : Z) (u : t) : t :=
  mk (_id u) (name u) (email u) (password u) (role u) (avatar u) (isActive u)
     (Some d) (resetPasswordToken u) (resetPasswordExpire u).

Definition set_password (h : string) (u : t) : t :=
  mk (_id u) (name u) (email u) h (role u) (avatar u) (isActive u)
     (lastLogin u) (resetPasswordToken u) (resetPasswordExpire u).

Definition set_reset (tok : option string) (exp : option Z) (u : t) : t :=
  mk (_id u) (name u) (email u) (password u) (role u) (avatar u) (isActive u)
     (lastLogin u) tok exp.

End User.

Module RefreshToken.

(** RefreshTokenSchema *)
Record t := mk {
  _id : nat;
  token : string;
  userId : nat;
  expiresAt : Z;
  createdByIp : option string;
  revokedAt : option Z;
  revokedByIp : option string;
  replacedByToken : option string;
  isActive : bool
}.

(** virtual('isExpired'): [Date.now() >= this.expiresAt] *)
Definition isExpired (now : Z) (r : t) : bool := expiresAt r <=? now.

(** virtual('isValid'): [this.isActive && !this.isExpired && !this.revokedAt] *)
Definition isValid (now : Z) (r : t) : bool :=
  isActive r && negb (isExpired now r)
  && match revokedAt r with Some _ => false | None => true end.

Definition set_replacedByToken (s : string) (r : t) : t :=
  mk (_id r) (token r) (userId r) (expiresAt r) (createdByIp r)
     (revokedAt r) (revokedByIp r) (Some s) (isActive r).

(** The three assignments of [revoke], before its [this.save()];
    also the update document of [revokeAllForUser]. *)
Definition revoked (now : Z) (ip : string) (r : t) : t :=
  mk (_id r) (token r) (userId r) (expiresAt r) (createdByIp r)
     (Some now) (Some ip) (replacedByToken r) false.

End RefreshToken.

Record Db := mkDb {
  users : list User.t;
  refreshTokens : list RefreshToken.t
}.

(* ================================================================== *)
(** ** External primitives *)

(** Payload of an access token: [{ id, email, role }]. *)
Record JwtPayload := mkPayload {
  jwt_id : nat;
  jwt_email : string;
  jwt_role : string
}.

(** The ways [jwt.verify] throws. *)
Inductive JwtError := Malformed | InvalidSignature | Expired.

(** The primitives consumed from libraries: token signing and verification
    under [JWT_SECRET] (verification depends on the clock), password hashing
    and comparison, and SHA-256 in hexadecimal. *)
Class Primitives := {
  jwt_sign : JwtPayload -> string;
  jwt_verify : Z -> string -> JwtError + JwtPayload;
  bcrypt_hash : string -> string;
  bcrypt_compare : string -> string -> bool;
  sha256_hex : string -> string
}.

(** What a request brings besides its body: the clock, the client address
    ([getIpAddress(req)]) and the entropy read by [crypto.randomBytes]. *)
Record Env := mkEnv {
  now : Z;
  ip : string;
  entropy : nat -> Byte.byte
}.

(* ================================================================== *)
(** ** The handler monad *)

(** [new ErrorResponse(message, statusCode)] *)
Record ErrorResponse := mkErr {
  message : string;
  statusCode : Z
}.

(** How a handler ends: [res.status(s).json(b)], [next(err)] with an
    [ErrorResponse], or a rejected promise that [asyncHandler] forwards to
    [next]. *)
Inductive Outcome :=
| Sent (status : Z) (body : Json)
| Next (e : ErrorResponse)
| Threw (error : string).

(** The database and the schedule of write failures still to come: the
    head tells whether the next write fails; an exhausted schedule means
    that no further write fails. *)
Record St := mkSt {
  db : Db;
  faults : list bool
}.

Inductive Step (A : Type) :=
| Go (a : A)
| Halt (o : Outcome).

Arguments Go {A} a.
Arguments Halt {A} o.

Definition M (A : Type) : Type := St -> Step A * St.

Definition ret {A} (a : A) : M A := fun st => (Go a, st).

Definition bind {A B} (m : M A) (k : A -> M B) : M B :=
  fun st =>
    match m st with
    | (Go a, st') => k a st'
    | (Halt o, st') => (Halt o, st')
    end.

Declare Scope handler_scope.
Delimit Scope handler_scope with handler.
Bind Scope handler_scope with M.

Notation "x <- m ;; k" := (bind m (fun x => k))
  (at level 61, m at next level, right associativity) : handler_scope.
Notation "m ;; k" := (bind m (fun _ => k))
  (at level 61, right associativity) : handler_scope.

Open Scope handler_scope.

(** [return next(new ErrorResponse(msg, code))] *)
Definition next_err {A} (msg : string) (code : Z) : M A :=
  fun st => (Halt (Next (mkErr msg code)), st).

(** A thrown exception or rejected promise. *)
Definition throw {A} (error : string) : M A :=
  fun st => (Halt (Threw error), st).

(** [if (c) return next(new ErrorResponse(msg, code))] *)
Definition reject_if (c : bool) (msg : string) (code : Z) : M unit :=
  if c then next_err msg code else ret tt.

Definition getDb : M Db := fun st => (Go (db st), st).

Definition putDb (d : Db) : M unit := fun st => (Go tt, mkSt d (faults st)).

(** One write round trip: it consumes the head of the failure schedule. *)
Definition commit : M unit :=
  fun st =>
    match faults st with
    | [] => (Go tt, st)
    | false :: fs => (Go tt, mkSt (db st) fs)
    | true :: fs => (Halt (Threw "MongoError"), mkSt (db st) fs)
    end.

(** Running a handler to its end. *)
Definition run (h : M Outcome) (st : St) : Outcome * St :=
  match h st with
  | (Go o, st') => (o, st')
  | (Halt o, st') => (o, st')
  end.

(** A fresh ObjectId for a collection whose ids are [ids]. *)
Definition ObjectId (ids : list nat) : nat := S (fold_right Nat.max 0%nat ids).

(** Replace the first document that satisfies [p]. *)
Fixpoint replace_first {A} (p : A -> bool) (d : A) (l : list A) : list A :=
  match l with
  | [] => []
  | x :: r => if p x then d :: r else x :: replace_first p d r
  end.

(** Remove the first document that satisfies [p]. *)
Fixpoint remove_first {A} (p : A -> bool) (l : list A) : list A :=
  match l with
  | [] => []
  | x :: r => if p x then r else x :: remove_first p r
  end.

(* ================================================================== *)
(** ** Collections *)

Module Users.
Section WithPrimitives.
Context {P : Primitives}.

(** [User.findOne({ email })] *)
Definition findOne (email : string) : M (option User.t) :=
  d <- getDb ;;
  ret (find (fun u => (User.email u =? email)%string) (users d)).

(** [User.findById(id)] *)
Definition findById (id : nat) : M (option User.t) :=
  d <- getDb ;;
  ret (find (fun u => (User._id u =? id)%nat) (users d)).

(** The filter [{ resetPasswordToken: hashedToken,
    resetPasswordExpire: { $gt: Date.now() } }] *)
Definition resetMatches (hashedToken : string) (now : Z) (u : User.t) : bool :=
  match User.resetPasswordToken u, User.resetPasswordExpire u with
  | Some h, Some exp => (h =? hashedToken)%string && (now <? exp)
  | _, _ => false
  end.

(** [User.findOne] with that filter *)
Definition findOneByResetToken (hashedToken : string) (now : Z) : M (option User.t) :=
  d <- getDb ;;
  ret (find (resetMatches hashedToken now) (users d)).

(** [User.create({ name, email, password, role })].
    Modelled from the spec: the schema is not among the sources; name and
    password are taken as required, the role must be one of the four role
    names, the email is unique, the password is stored hashed and the
    active flag defaults to true. *)
Definition create (name : option string) (email : string)
    (password : option string) (role : string) : M User.t :=
  match name, password, role_of_string role with
  | Some n, Some p, Some r =>
      commit ;;
      d <- getDb ;;
      if existsb (fun u => (User.email u =? email)%string) (users d)
      then throw "E11000 duplicate key"
      else
        let u := User.mk (ObjectId (map User._id (users d))) n email
                   (bcrypt_hash p) r None true None None None in
        putDb (mkDb (users d ++ [u]) (refreshTokens d)) ;;
        ret u
  | _, _, _ => throw "ValidationError"
  end.

(** [user.save()] on a loaded document. *)
Definition save (u : User.t) : M unit :=
  commit ;;
  d <- getDb ;;
  putDb (mkDb (replace_first (fun x => (User._id x =? User._id u)%nat) u (users d))
              (refreshTokens d)).

(** [User.findByIdAndDelete(id)] *)
Definition findByIdAndDelete (id : nat) : M unit :=
  commit ;;
  d <- getDb ;;
  putDb (mkDb (remove_first (fun x => (User._id x =? id)%nat) (users d))
              (refreshTokens d)).

(** [User.countDocuments({ role: 'owner', isActive: true })] *)
Definition countActiveOwners : M nat :=
  d <- getDb ;;
  ret (List.length (filter (fun u => is_owner (User.role u) && User.isActive u) (users d))).

(** [user.getSignedJwtToken()]: signs [{ id, email, role }]. *)
Definition getSignedJwtToken (u : User.t) : string :=
  jwt_sign (mkPayload (User._id u) (User.email u) (role_name (User.role u))).

(** [user.matchPassword(entered)] *)
Definition matchPassword (u : User.t) (entered : string) : bool :=
  bcrypt_compare entered (User.password u).

End WithPrimitives.
End Users.

Module RefreshTokens.

(** [RefreshToken.findOne({ token })] *)
Definition findOne (token : string) : M (option RefreshToken.t) :=
  d <- getDb ;;
  ret (find (fun r => (RefreshToken.token r =? token)%string) (refreshTokens d)).

(** [doc.save()] on a document built by [new RefreshToken(...)]: an insert,
    refused when the unique index on [token] already holds the value. *)
Definition insert (r : RefreshToken.t) : M unit :=
  commit ;;
  d <- getDb ;;
  if existsb (fun x => (RefreshToken.token x =? RefreshToken.token r)%string)
       (refreshTokens d)
  then throw "E11000 duplicate key"
  else putDb (mkDb (users d) (refreshTokens d ++ [r])).

(** [doc.save()] on a loaded document. *)
Definition save (r : RefreshToken.t) : M unit :=
  commit ;;
  d <- getDb ;;
  putDb (mkDb (users d)
           (replace_first
              (fun x => (RefreshToken._id x =? RefreshToken._id r)%nat) r
              (refreshTokens d))).

(** [RefreshTokenSchema.methods.revoke] *)
Definition revoke (env : Env) (r : RefreshToken.t) : M unit :=
  save (RefreshToken.revoked (now env) (ip env) r).

(** The filter [{ userId, isActive: true }] of [revokeAllForUser]. *)
Definition matches (userId : nat) (r : RefreshToken.t) : bool :=
  (RefreshToken.userId r =? userId)%nat && RefreshToken.isActive r.

(** [RefreshTokenSchema.statics.revokeAllForUser]: an [updateMany];
    the result is [modifiedCount]. *)
Definition revokeAllForUser (env : Env) (userId : nat) : M nat :=
  commit ;;
  d <- getDb ;;
  putDb (mkDb (users d)
           (map (fun r => if matches userId r
                          then RefreshToken.revoked (now env) (ip env) r
                          else r)
                (refreshTokens d))) ;;
  ret (List.length (filter (matches userId) (refreshTokens d))).

End RefreshTokens.

(* ================================================================== *)
(** ** middleware/auth.js *)

Module Auth.
Section WithPrimitives.
Context {P : Primitives}.

(** The token of an [Authorization] header:
    [if (h && h.startsWith('Bearer')) token = h.split(' ')[1]]. *)
Definition bearerToken (authorization : option string) : option string :=
  match authorization with
  | Some h =>
      if truthy (Some h) && startsWith h "Bearer"
      then nth_error (split " " h) 1
      else None
  | None => None
  end.

(** [exports.requireRole(...roles)].  The result is [req.user] when the
    middleware calls [next()].  Everything thrown under its [try] ends in
    the 401 of its [catch]. *)
Definition requireRole (roles : list string) (authorization : option string)
    (now : Z) : M User.t :=
  match bearerToken authorization with
  | None => next_err "Not authorized to access this route" 401
  | Some token =>
      if negb (truthy (Some token))
      then next_err "Not authorized to access this route" 401
      else
        match jwt_verify now token with
        | inl _ => next_err "Not authorized to access this route" 401
        | inr decoded =>
            user <- Users.findById (jwt_id decoded) ;;
            match user with
            | None => next_err "User not found" 404
            | Some u =>
                if negb (User.isActive u)
                then next_err "User account is deactivated" 403
                else if negb (includes roles (role_name (User.role u)))
                then next_err ("User role '" ++ role_name (User.role u)
                               ++ "' is not authorized to access this route") 403
                else ret u
            end
        end
  end.

(** [exports.protect] *)
Definition protect (authorization : option string) (now : Z) : M User.t :=
  match bearerToken authorization with
  | None => next_err "Not authorized to access this route" 401
  | Some token =>
      if negb (truthy (Some token))
      then next_err "Not authorized to access this route" 401
      else
        match jwt_verify now token with
        | inl _ => next_err "Not authorized to access this route" 401
        | inr decoded =>
            user <- Users.findById (jwt_id decoded) ;;
            match user with
            | None => next_err "User not found" 404
            | Some u =>
                if negb (User.isActive u)
                then next_err "User account is deactivated" 403
                else ret u
            end
        end
  end.

End WithPrimitives.
End Auth.

(* ================================================================== *)
(** ** middleware/permissions.js *)

Module Permissions.

Definition PERMISSIONS : list (string * list (string * bool)) :=
  [ ("admin",
      [ ("viewDashboard", true); ("viewMap", true); ("viewAnalytics", true);
        ("modifySignals", true); ("overrideSignals", true);
        ("manageEmergencies", true); ("manageUsers", true);
        ("viewSettings", true); ("modifySettings", true) ]);
    ("operator",
      [ ("viewDashboard", true); ("viewMap", true); ("viewAnalytics", true);
        ("modifySignals", true); ("overrideSignals", false);
        ("manageEmergencies", true); ("manageUsers", false);
        ("viewSettings", true); ("modifySettings", false) ]);
    ("viewer",
      [ ("viewDashboard", true); ("viewMap", true); ("viewAnalytics", true);
        ("modifySignals", false); ("overrideSignals", false);
        ("manageEmergencies", false); ("manageUsers", false);
        ("viewSettings", false); ("modifySettings", false) ]) ].

(** [hasPermission(permission)] applied to a request whose [req.user] is
    [user]; [Go tt] is [next()]. *)
Definition hasPermission (permission : string) (user : option User.t) : M unit :=
  match user with
  | None => next_err "Not authorized to access this route" 401
  | Some u =>
      let userRole := role_name (User.role u) in
      match assoc userRole PERMISSIONS with
      | None => next_err "Invalid role" 403
      | Some userPermissions =>
          match assoc permission userPermissions with
          | Some true => ret tt
          | _ => next_err ("Role '" ++ userRole
                           ++ "' does not have permission to " ++ permission) 403
          end
      end
  end.

(** [getUserPermissions(req, res)] *)
Definition getUserPermissions (user : option User.t) : M Outcome :=
  match user with
  | None =>
      ret (Sent 401 (JObj [ ("success", JBool false);
                            ("message", JStr "Not authorized") ]))
  | Some u =>
      let userRole := role_name (User.role u) in
      let permissions :=
        match assoc userRole PERMISSIONS with
        | Some ps => map (fun kv => (fst kv, JBool (snd kv))) ps
        | None => []
        end in
      ret (Sent 200 (JObj [ ("success", JBool true);
                            ("data", JObj [ ("role", JStr userRole);
                                            ("permissions", JObj permissions) ]) ]))
  end.

End Permissions.

(* ================================================================== *)
(** ** controllers/authControllerV2.js (mounted on /api/auth) *)

Module AuthControllerV2.
Section WithPrimitives.
Context {P : Primitives}.

(** [generateRefreshToken(userId, ip)]: a new, unsaved document with a
    random 40-byte token in hexadecimal, expiring seven days from now. *)
Definition generateRefreshToken (env : Env) (userId : nat) : M RefreshToken.t :=
  d <- getDb ;;
  ret (RefreshToken.mk
         (ObjectId (map RefreshToken._id (refreshTokens d)))
         (toHex (randomBytes 40 (entropy env)))
         userId
         (now env + 604800000)
         (Some (ip env))
         None None None true).

(** [v.toLowerCase()], a TypeError when [v] is [undefined]. *)
Definition lowered (v : option string) : M string :=
  match v with
  | Some s => ret (toLowerCase s)
  | None => throw "TypeError"
  end.

Definition validRoles : list string := ["admin"; "operator"; "viewer"].

(** [user: { id, name, email, role }] of the responses *)
Definition userSummary (u : User.t) : list (string * Json) :=
  [ ("id", JNum (Z.of_nat (User._id u)));
    ("name", JStr (User.name u));
    ("email", JStr (User.email u));
    ("role", JStr (role_name (User.role u))) ].

(** [exports.register] *)
Definition register (env : Env) (body : Body) : M Outcome :=
  let name := field body "name" in
  let email := field body "email" in
  let password := field body "password" in
  let role := field body "role" in
  lowerEmail <- lowered email ;;
  existingUser <- Users.findOne lowerEmail ;;
  match existingUser with
  | Some _ => next_err "User already exists with this email" 400
  | None =>
      reject_if
        (truthy role
         && negb (match role with Some r => includes validRoles r | None => false end))
        "Invalid role specified" 400 ;;
      user <- Users.create name lowerEmail password
                (match role with
                 | Some r => if truthy role then r else "viewer"
                 | None => "viewer"
                 end) ;;
      let accessToken := Users.getSignedJwtToken user in
      refreshToken <- generateRefreshToken env (User._id user) ;;
      RefreshTokens.insert refreshToken ;;
      ret (Sent 201
             (JObj [ ("success", JBool true);
                     ("message", JStr "Registration successful");
                     ("data", JObj [ ("user", JObj (userSummary user));
                                     ("accessToken", JStr accessToken);
                                     ("refreshToken",
                                      JStr (RefreshToken.token refreshToken)) ]) ]))
  end.

(** [exports.login] *)
Definition login (env : Env) (body : Body) : M Outcome :=
  let email := field body "email" in
  let password := field body "password" in
  match email, password with
  | Some e, Some p =>
      reject_if (negb (truthy email) || negb (truthy password))
        "Please provide email and password" 400 ;;
      found <- Users.findOne (toLowerCase e) ;;
      match found with
      | None => next_err "Invalid credentials" 401
      | Some user =>
          reject_if (negb (User.isActive user))
            "Account is deactivated. Please contact administrator" 403 ;;
          reject_if (negb (Users.matchPassword user p)) "Invalid credentials" 401 ;;
          let user := User.set_lastLogin (now env) user in
          Users.save user ;;
          let accessToken := Users.getSignedJwtToken user in
          refreshToken <- generateRefreshToken env (User._id user) ;;
          RefreshTokens.insert refreshToken ;;
          ret (Sent 200
                 (JObj [ ("success", JBool true);
                         ("message", JStr "Login successful");
                         ("data",
                          JObj [ ("user", JObj (userSummary user
                                                ++ optMember "avatar" (User.avatar user)));
                                 ("accessToken", JStr accessToken);
                                 ("refreshToken",
                                  JStr (RefreshToken.token refreshToken)) ]) ]))
      end
  | _, _ => next_err "Please provide email and password" 400
  end.

(** [exports.refreshToken] *)
Definition refreshToken (env : Env) (body : Body) : M Outcome :=
  let token := field body "refreshToken" in
  match token with
  | None => next_err "Refresh token is required" 400
  | Some tok =>
      reject_if (negb (truthy token)) "Refresh token is required" 400 ;;
      found <- RefreshTokens.findOne tok ;;
      match found with
      | None => next_err "Invalid refresh token" 401
      | Some refreshToken =>
          reject_if (negb (RefreshToken.isValid (now env) refreshToken))
            "Refresh token is expired or revoked" 401 ;;
          owner <- Users.findById (RefreshToken.userId refreshToken) ;;
          match owner with
          | None => next_err "User not found or inactive" 401
          | Some user =>
              reject_if (negb (User.isActive user)) "User not found or inactive" 401 ;;
              let newAccessToken := Users.getSignedJwtToken user in
              newRefreshToken <- generateRefreshToken env (User._id user) ;;
              let refreshToken :=
                RefreshToken.set_replacedByToken
                  (RefreshToken.token newRefreshToken) refreshToken in
              RefreshTokens.revoke env refreshToken ;;
              RefreshTokens.insert newRefreshToken ;;
              ret (Sent 200
                     (JObj [ ("success", JBool true);
                             ("message", JStr "Token refreshed successfully");
                             ("data",
                              JObj [ ("user", JObj (userSummary user));
                                     ("accessToken", JStr newAccessToken);
                                     ("refreshToken",
                                      JStr (RefreshToken.token newRefreshToken)) ]) ]))
          end
      end
  end.

(** [exports.logout] *)
Definition logout (env : Env) (body : Body) : M Outcome :=
  let token := field body "refreshToken" in
  match token with
  | Some tok =>
      (if truthy token
       then
         found <- RefreshTokens.findOne tok ;;
         match found with
         | Some refreshToken => RefreshTokens.revoke env refreshToken
         | None => ret tt
         end
       else ret tt) ;;
      ret (Sent 200 (JObj [ ("success", JBool true);
                            ("message", JStr "Logged out successfully") ]))
  | None =>
      ret (Sent 200 (JObj [ ("success", JBool true);
                            ("message", JStr "Logged out successfully") ]))
  end.

(** [exports.logoutAll]; [reqUser] is [req.user]. *)
Definition logoutAll (env : Env) (reqUser : User.t) : M Outcome :=
  count <- RefreshTokens.revokeAllForUser env (User._id reqUser) ;;
  ret (Sent 200
         (JObj [ ("success", JBool true);
                 ("message",
                  JStr ("Logged out from "
                        ++ NilZero.string_of_uint (Nat.to_uint count)
                        ++ " device(s)")) ])).

(** [exports.changePassword] *)
Definition changePassword (env : Env) (reqUser : User.t) (body : Body) : M Outcome :=
  let currentPassword := field body "currentPassword" in
  let newPassword := field body "newPassword" in
  match currentPassword, newPassword with
  | Some cur, Some new =>
      reject_if (negb (truthy currentPassword) || negb (truthy newPassword))
        "Please provide current and new password" 400 ;;
      found <- Users.findById (User._id reqUser) ;;
      match found with
      | None => throw "TypeError"
      | Some user =>
          reject_if (negb (Users.matchPassword user cur))
            "Current password is incorrect" 401 ;;
          let user := User.set_password (bcrypt_hash new) user in
          Users.save user ;;
          RefreshTokens.revokeAllForUser env (User._id user) ;;
          ret (Sent 200
                 (JObj [ ("success", JBool true);
                         ("message",
                          JStr "Password changed successfully. Please login again.") ]))
      end
  | _, _ => next_err "Please provide current and new password" 400
  end.

(** [exports.forgotPassword] *)
Definition forgotPassword (env : Env) (body : Body) : M Outcome :=
  let email := field body "email" in
  match email with
  | None => next_err "Please provide email" 400
  | Some e =>
      reject_if (negb (truthy email)) "Please provide email" 400 ;;
      found <- Users.findOne (toLowerCase e) ;;
      match found with
      | None =>
          ret (Sent 200
                 (JObj [ ("success", JBool true);
                         ("message",
                          JStr "If an account exists with this email, a password reset link has been sent") ]))
      | Some user =>
          let resetToken := toHex (randomBytes 32 (entropy env)) in
          let user :=
            User.set_reset (Some (sha256_hex resetToken))
              (Some (now env + 10 * 60 * 1000)) user in
          Users.save user ;;
          ret (Sent 200
                 (JObj [ ("success", JBool true);
                         ("message", JStr "Password reset token generated");
                         ("data", JObj [ ("resetToken", JStr resetToken) ]) ]))
      end
  end.

(** [exports.resetPassword] *)
Definition resetPassword (env : Env) (body : Body) : M Outcome :=
  let resetToken := field body "resetToken" in
  let newPassword := field body "newPassword" in
  match resetToken, newPassword with
  | Some tok, Some new =>
      reject_if (negb (truthy resetToken) || negb (truthy newPassword))
        "Please provide reset token and new password" 400 ;;
      let hashedToken := sha256_hex tok in
      found <- Users.findOneByResetToken hashedToken (now env) ;;
      match found with
      | None => next_err "Invalid or expired reset token" 400
      | Some user =>
          let user :=
            User.set_reset None None (User.set_password (bcrypt_hash new) user) in
          Users.save user ;;
          RefreshTokens.revokeAllForUser env (User._id user) ;;
          ret (Sent 200
                 (JObj [ ("success", JBool true);
                         ("message",
                          JStr "Password reset successful. Please login with your new password.") ]))
      end
  | _, _ => next_err "Please provide reset token and new password" 400
  end.

End WithPrimitives.
End AuthControllerV2.

(* ================================================================== *)
(** ** controllers/authController.js (not mounted) *)

Module AuthController.
Section WithPrimitives.
Context {P : Primitives}.

(** [exports.register], up to the creation of the user; the response is
    built by [sendTokenResponse], which is not among the sources.  The
    route runs [registerValidation] first, so the email is present. *)
Definition register (body : Body) : M User.t :=
  let name := field body "name" in
  let email := field body "email" in
  let password := field body "password" in
  match email with
  | None => throw "ValidationError"
  | Some e =>
      existingUser <- Users.findOne e ;;
      match existingUser with
      | Some _ => next_err "User with this email already exists" 400
      | None => Users.create name e password "viewer"
      end
  end.

End WithPrimitives.
End AuthController.

(* ================================================================== *)
(** ** controllers/adminController.js *)

Module AdminController.
Section WithPrimitives.
Context {P : Primitives}.

Definition assignableRoles : list string := ["admin"; "operator"; "viewer"].

(** The [user] member of the admin responses ([createdAt], a timestamp
    kept by the schema, is left out). *)
Definition userView (u : User.t) : list (string * Json) :=
  [ ("_id", JNum (Z.of_nat (User._id u)));
    ("name", JStr (User.name u));
    ("email", JStr (User.email u));
    ("role", JStr (role_name (User.role u)));
    ("isActive", JBool (User.isActive u)) ].

(** [exports.createUser] *)
Definition createUser (body : Body) : M Outcome :=
  let name := field body "name" in
  let email := field body "email" in
  let password := field body "password" in
  let role := field body "role" in
  match name, email, password, role with
  | Some n, Some e, Some p, Some r =>
      reject_if (negb (truthy name) || negb (truthy email)
                 || negb (truthy password) || negb (truthy role))
        "Please provide name, email, password, and role" 400 ;;
      reject_if (String.length p <? 8)%nat
        "Password must be at least 8 characters" 400 ;;
      reject_if (negb (includes assignableRoles r))
        "Role must be admin, operator, or viewer" 400 ;;
      existingUser <- Users.findOne (toLowerCase e) ;;
      match existingUser with
      | Some _ => next_err "User with this email already exists" 409
      | None =>
          user <- Users.create name (toLowerCase e) password r ;;
          ret (Sent 201
                 (JObj [ ("success", JBool true);
                         ("message", JStr "User created successfully");
                         ("data", JObj [ ("user", JObj (userView user)) ]) ]))
      end
  | _, _, _, _ => next_err "Please provide name, email, password, and role" 400
  end.

(** [exports.changeUserRole]; [userId] is [req.params.userId]. *)
Definition changeUserRole (userId : nat) (body : Body) : M Outcome :=
  let role := field body "role" in
  match role with
  | None => next_err "Please provide a role" 400
  | Some r =>
      reject_if (negb (truthy role)) "Please provide a role" 400 ;;
      reject_if (negb (includes assignableRoles r))
        "Role must be admin, operator, or viewer" 400 ;;
      found <- Users.findById userId ;;
      match found with
      | None => next_err "User not found" 404
      | Some user =>
          reject_if (is_owner (User.role user))
            "Cannot change the role of an owner" 400 ;;
          (if negb (r =? "owner")%string
           then
             ownerCount <- Users.countActiveOwners ;;
             reject_if ((ownerCount <=? 1)%nat && is_owner (User.role user))
               "Cannot demote the last owner" 403
           else ret tt) ;;
          match role_of_string r with
          | None => throw "ValidationError"
          | Some newRole =>
              let user := User.set_role newRole user in
              Users.save user ;;
              ret (Sent 200
                     (JObj [ ("success", JBool true);
                             ("message", JStr "Role updated successfully");
                             ("data", JObj [ ("user", JObj (userView user)) ]) ]))
          end
      end
  end.

(** [exports.deleteUser]; [reqUser] is [req.user], [userId] is
    [req.params.id]. *)
Definition deleteUser (reqUser : User.t) (userId : nat) : M Outcome :=
  found <- Users.findById userId ;;
  match found with
  | None => next_err "User not found" 404
  | Some user =>
      reject_if (is_owner (User.role user)) "Cannot delete an owner account" 403 ;;
      reject_if (User._id user =? User._id reqUser)%nat
        "Cannot delete your own account" 403 ;;
      Users.findByIdAndDelete userId ;;
      ret (Sent 200
             (JObj [ ("success", JBool true);
                     ("message", JStr "User deleted successfully");
                     ("data", JObj [ ("deletedUserId", JNum (Z.of_nat userId)) ]) ]))
  end.

(** [exports.activateUser]; [isActive] is [req.body.isActive], a JSON
    boolean or [undefined]. *)
Definition activateUser (userId : nat) (isActive : option bool) : M Outcome :=
  found <- Users.findById userId ;;
  match found with
  | None => next_err "User not found" 404
  | Some user =>
      let user :=
        User.set_isActive (match isActive with Some b => b | None => true end) user in
      Users.save user ;;
      ret (Sent 200
             (JObj [ ("success", JBool true);
                     ("message",
                      JStr (if User.isActive user
                            then "User activated successfully"
                            else "User deactivated successfully"));
                     ("data", JObj [ ("user", JObj (userView user)) ]) ]))
  end.

End WithPrimitives.
End AdminController.

(* ================================================================== *)
(** ** utils/bootstrapOwner.js *)

Module Bootstrap.
Section WithPrimitives.
Context {P : Primitives}.

(** [bootstrapOwner], given [process.env.OWNER_EMAIL] and
    [process.env.OWNER_DEFAULT_PASSWORD]; its [catch] rethrows.  The
    result is the value the function resolves to. *)
Definition bootstrapOwner (OWNER_EMAIL OWNER_DEFAULT_PASSWORD : option string)
    : M (option User.t) :=
  match OWNER_EMAIL with
  | None => ret None
  | Some ownerEmail =>
      if negb (truthy OWNER_EMAIL) then ret None
      else
        found <- Users.findOne ownerEmail ;;
        match found with
        | Some owner_doc =>
            if negb (is_owner (User.role owner_doc))
            then
              let promoted := User.set_isActive true (User.set_role owner owner_doc) in
              Users.save promoted ;;
              ret (Some promoted)
            else ret (Some owner_doc)
        | None =>
            let defaultPassword :=
              if truthy OWNER_DEFAULT_PASSWORD then OWNER_DEFAULT_PASSWORD
              else Some "Owner@123456" in
            created <- Users.create (Some "System Owner") ownerEmail
                         defaultPassword "owner" ;;
            ret (Some created)
        end
  end.

(** Running the start-up routine on a database. *)
Definition boot (OWNER_EMAIL OWNER_DEFAULT_PASSWORD : option string) (st : St) : St :=
  snd (bootstrapOwner OWNER_EMAIL OWNER_DEFAULT_PASSWORD st).

End WithPrimitives.
End Bootstrap.

(* ================================================================== *)
(** ** The API as a transition system *)

(** The requests that reach a handler writing to the database. *)
Inductive Request :=
| Register (body : Body)
| Login (body : Body)
| Refresh (body : Body)
| Logout (body : Body)
| LogoutAll (reqUser : User.t)
| ChangePassword (reqUser : User.t) (body : Body)
| ForgotPassword (body : Body)
| ResetPassword (body : Body)
| CreateUser (body : Body)
| ChangeUserRole (userId : nat) (body : Body)
| DeleteUser (reqUser : User.t) (userId : nat)
| ActivateUser (userId : nat) (isActive : option bool).

Definition handle {P : Primitives} (env : Env) (rq : Request) : M Outcome :=
  match rq with
  | Register body => AuthControllerV2.register env body
  | Login body => AuthControllerV2.login env body
  | Refresh body => AuthControllerV2.refreshToken env body
  | Logout body => AuthControllerV2.logout env body
  | LogoutAll reqUser => AuthControllerV2.logoutAll env reqUser
  | ChangePassword reqUser body => AuthControllerV2.changePassword env reqUser body
  | ForgotPassword body => AuthControllerV2.forgotPassword env body
  | ResetPassword body => AuthControllerV2.resetPassword env body
  | CreateUser body => AdminController.createUser body
  | ChangeUserRole userId body => AdminController.changeUserRole userId body
  | DeleteUser reqUser userId => AdminController.deleteUser reqUser userId
  | ActivateUser userId isActive => AdminController.activateUser userId isActive
  end.

(** A handler run on a database under a schedule of write failures. *)
Definition exec (h : M Outcome) (fs : list bool) (d : Db) : Outcome * Db :=
  (fst (run h (mkSt d fs)), db (snd (run h (mkSt d fs)))).

(** [later d d']: the database [d'] is [d] after any number of requests,
    start-ups, and writes of code that touches the user collection only
    (profile updates). *)
Inductive later {P : Primitives} : Db -> Db -> Prop :=
| later_now : forall d, later d d
| later_request : forall d d' env fs rq,
    later d d' -> later d (snd (exec (handle env rq) fs d'))
| later_boot : forall d d' e p fs,
    later d d' -> later d (db (Bootstrap.boot e p (mkSt d' fs)))
| later_users : forall d d' us,
    later d d' -> later d (mkDb us (refreshTokens d')).

(** The refresh token of a response that carries a token pair. *)
Definition issued (o : Outcome) : option string :=
  match o with
  | Sent _ body =>
      match member "data" body with
      | Some data =>
          match member "refreshToken" data with
          | Some (JStr s) => Some s
          | _ => None
          end
      | None => None
      end
  | _ => None
  end.

(** [res.status(200)] or [res.status(201)] *)
Definition succeeded (o : Outcome) : bool :=
  match o with
  | Sent s _ => (s =? 200) || (s =? 201)
  | _ => false
  end.

(** No write of the request is refused by the database. *)
Definition writes_accepted (fs : list bool) : bool := forallb negb fs.

Definition tokenIs (t : string) (r : RefreshToken.t) : bool :=
  (RefreshToken.token r =? t)%string.

Definition userIs (id : nat) (u : User.t) : bool := (User._id u =? id)%nat.

(** The users whose role is owner. *)
Definition owners (d : Db) : list User.t :=
  filter (fun u => is_owner (User.role u)) (users d).

(** The statement "a rotation does not revoke the presented token when
    persisting its successor fails": whenever the presented record is valid
    and the handler ends in a persistence error, the presented record is
    still what it was. *)
Definition rotation_fails_closed {P : Primitives} : Prop :=
  forall env body fs d t r error,
    field body "refreshToken" = Some t ->
    find (tokenIs t) (refreshTokens d) = Some r ->
    RefreshToken.isValid (now env) r = true ->
    fst (exec (AuthControllerV2.refreshToken env body) fs d) = Threw error ->
    find (tokenIs t) (refreshTokens (snd (exec (AuthControllerV2.refreshToken env body) fs d)))
    = Some r.

(** The token string that [generateRefreshToken] draws in a request. *)
Definition drawnToken (env : Env) : string := toHex (randomBytes 40 (entropy env)).

(** The presented record as [refreshToken] saves it: linked to its
    successor and revoked. *)
Definition rotated (env : Env) (r : RefreshToken.t) : RefreshToken.t :=
  RefreshToken.revoked (now env) (ip env)
    (RefreshToken.set_replacedByToken (drawnToken env) r).

(** The token [t] has a record in the collection, every record has its
    own [_id], and the record found for [t] is not active. *)
Definition spent (t : string) (l : list RefreshToken.t) : Prop :=
  NoDup (map RefreshToken._id l)
  /\ exists r, find (tokenIs t) l = Some r /\ RefreshToken.isActive r = false.

(** The credential of a request is missing, or [jwt.verify] throws on it:
    malformed token, wrong signature, expired token. *)
Definition bad_credential {P : Primitives} (authorization : option string)
    (now : Z) : Prop :=
  match Auth.bearerToken authorization with
  | None => True
  | Some token => token = "" \/ exists e : JwtError, jwt_verify now token = inl e
  end.

(* ================================================================== *)
(** ** Sample data *)

Module Sample.

(** Stand-ins for the library primitives, to run the handlers. *)
#[export] Instance primitives : Primitives := {|
  jwt_sign := fun p => "jwt." ++ jwt_email p ++ "." ++ jwt_role p;
  jwt_verify := fun _ t =>
    if (t =? "jwt.owner")%string then inr (mkPayload 1 "root@x.com" "owner")
    else if (t =? "jwt.viewer")%string then inr (mkPayload 2 "v@x.com" "viewer")
    else if (t =? "jwt.old")%string then inl Expired
    else if (t =? "jwt.forged")%string then inl InvalidSignature
    else inl Malformed;
  bcrypt_hash := fun p => "hash:" ++ p;
  bcrypt_compare := fun entered h => (("hash:" ++ entered) =? h)%string;
  sha256_hex := fun s => "sha256:" ++ s
|}.

Definition env0 : Env := mkEnv 1000 "10.0.0.1" (fun _ => Byte.xab).

Definition env1 : Env := mkEnv 2000 "10.0.0.2" (fun _ => Byte.xcd).

Definition root : User.t :=
  User.mk 1 "Root" "root@x.com" "hash:rootpass" owner None true None None None.

Definition vera : User.t :=
  User.mk 2 "Vera" "v@x.com" "hash:verapass" viewer None true None None None.

(** An owner account that has been deactivated. *)
Definition dormant : User.t :=
  User.mk 1 "Root" "root@x.com" "hash:rootpass" owner None false None None None.

Definition session (id : nat) (tok : string) (uid : nat) : RefreshToken.t :=
  RefreshToken.mk id tok uid 900000 (Some "10.0.0.9") None None None true.

(** A session that was rotated earlier. *)
Definition rotated_session : RefreshToken.t :=
  RefreshToken.mk 3 "t-old" 2 900000 (Some "10.0.0.9") (Some 500) (Some "10.0.0.7")
    (Some "t-vera") false.

Definition db0 : Db :=
  mkDb [root; vera] [session 1 "t-root" 1; session 2 "t-vera" 2; rotated_session].

(** A database whose configured owner has been deactivated. *)
Definition db_dormant : Db := mkDb [dormant; vera] [].

End Sample.

(* ================================================================== *)
(** ** Routes *)

Module Routes.
Section WithPrimitives.
Context {P : Primitives}.

(** [router.get('/permissions', protect, getUserPermissions)] *)
Definition getPermissions (authorization : option string) (now : Z) : M Outcome :=
  user <- Auth.protect authorization now ;;
  Permissions.getUserPermissions (Some user).

(** [router.delete('/users/:id', requireRole('owner'), deleteUser)] *)
Definition deleteUser (authorization : option string) (now : Z) (userId : nat)
    : M Outcome :=
  user <- Auth.requireRole ["owner"] authorization now ;;
  AdminController.deleteUser user userId.

End WithPrimitives.
End Routes.

(* ================================================================== *)
(** ** The rest of middleware/auth.js, and config/socket.js *)

Module Authorize.

(** [exports.authorize(...roles)] on a request whose [req.user] is [user];
    the result is that user when the middleware calls [next()]. *)
Definition authorize (roles : list string) (user : User.t) : M User.t :=
  if negb (includes roles (role_name (User.role user)))
  then next_err ("User role '" ++ role_name (User.role user)
                 ++ "' is not authorized to access this route") 403
  else ret user.

(** [router.use(protect, authorize(...roles))], the two middleware in a row. *)
Definition protected {P : Primitives} (roles : list string)
    (authorization : option string) (now : Z) : M User.t :=
  user <- Auth.protect authorization now ;;
  authorize roles user.

End Authorize.

Module Socket.

(** How [socketAuth] calls [next]: without an error, [socket.user] being
    set, or with [new Error(reason)]. *)
Inductive Handshake :=
| Accepted (user : User.t)
| Refused (reason : string).

(** [socketAuth(socket, next)]; [token] is [socket.handshake.auth.token]. *)
Definition socketAuth {P : Primitives} (token : option string) (now : Z) (d : Db)
    : Handshake :=
  match token with
  | None => Refused "Authentication error: No token provided"
  | Some t =>
      if negb (truthy token) then Refused "Authentication error: No token provided"
      else
        match jwt_verify now t with
        | inl _ => Refused "Authentication error: Invalid token"
        | inr decoded =>
            match find (fun u => (User._id u =? jwt_id decoded)%nat) (users d) with
            | None => Refused "Authentication error: Invalid user"
            | Some user =>
                if negb (User.isActive user)
                then Refused "Authentication error: Invalid user"
                else Accepted user
            end
        end
  end.

End Socket.

(* ================================================================== *)
(** ** The rest of middleware/permissions.js *)

Module PermissionSets.

(** [userPermissions[permission]] as a condition *)
Definition granted (userPermissions : list (string * bool)) (permission : string)
    : bool :=
  match assoc permission userPermissions with
  | Some true => true
  | _ => false
  end.

(** [hasAnyPermission(permissions)] *)
Definition hasAnyPermission (permissions : list string) (user : option User.t)
    : M unit :=
  match user with
  | None => next_err "Not authorized to access this route" 401
  | Some u =>
      let userRole := role_name (User.role u) in
      match assoc userRole Permissions.PERMISSIONS with
      | None => next_err "Invalid role" 403
      | Some userPermissions =>
          let hasAny := existsb (granted userPermissions) permissions in
          if negb hasAny
          then next_err ("Role '" ++ userRole
                         ++ "' does not have required permissions") 403
          else ret tt
      end
  end.

(** [hasAllPermissions(permissions)] *)
Definition hasAllPermissions (permissions : list string) (user : option User.t)
    : M unit :=
  match user with
  | None => next_err "Not authorized to access this route" 401
  | Some u =>
      let userRole := role_name (User.role u) in
      match assoc userRole Permissions.PERMISSIONS with
      | None => next_err "Invalid role" 403
      | Some userPermissions =>
          let hasAll := forallb (granted userPermissions) permissions in
          if negb hasAll
          then next_err ("Role '" ++ userRole
                         ++ "' does not have all required permissions") 403
          else ret tt
      end
  end.

End PermissionSets.

(* ================================================================== *)
(** ** The rest of models/RefreshToken.js *)

Module Housekeeping.

(** The filter [{ expiresAt: { $lt: new Date() } }] *)
Definition stale (now : Z) (r : RefreshToken.t) : bool :=
  RefreshToken.expiresAt r <? now.

(** [RefreshTokenSchema.statics.cleanupExpired]: a [deleteMany]; the
    result is [deletedCount]. *)
Definition cleanupExpired (now : Z) : M nat :=
  commit ;;
  d <- getDb ;;
  putDb (mkDb (users d)
           (filter (fun r => negb (stale now r)) (refreshTokens d))) ;;
  ret (List.length (filter (stale now) (refreshTokens d))).

End Housekeeping.

(* ================================================================== *)
(** ** The profile handlers of controllers/authControllerV2.js *)

Module Profile.
Section WithPrimitives.
Context {P : Primitives}.

(** The update document [{ name, avatar }] once its [undefined] members
    are deleted, applied to a user. *)
Definition updated (name avatar : option string) (u : User.t) : User.t :=
  User.mk (User._id u)
    (match name with Some n => n | None => User.name u end)
    (User.email u) (User.password u) (User.role u)
    (match avatar with Some a => Some a | None => User.avatar u end)
    (User.isActive u) (User.lastLogin u)
    (User.resetPasswordToken u) (User.resetPasswordExpire u).

(** [User.findByIdAndUpdate(id, fieldsToUpdate, { new: true, runValidators: true })] *)
Definition findByIdAndUpdate (id : nat) (name avatar : option string)
    : M (option User.t) :=
  commit ;;
  d <- getDb ;;
  match find (fun u => (User._id u =? id)%nat) (users d) with
  | None => ret None
  | Some u =>
      putDb (mkDb (replace_first (fun x => (User._id x =? id)%nat)
                     (updated name avatar u) (users d))
                  (refreshTokens d)) ;;
      ret (Some (updated name avatar u))
  end.

(** [exports.updateProfile]; reading [user._id] of no user is a TypeError. *)
Definition updateProfile (reqUser : User.t) (body : Body) : M Outcome :=
  found <- findByIdAndUpdate (User._id reqUser) (field body "name")
             (field body "avatar") ;;
  match found with
  | None => throw "TypeError"
  | Some user =>
      ret (Sent 200
             (JObj [ ("success", JBool true);
                     ("message", JStr "Profile updated successfully");
                     ("data",
                      JObj [ ("user",
                              JObj (AuthControllerV2.userSummary user
                                    ++ optMember "avatar" (User.avatar user))) ]) ]))
  end.

End WithPrimitives.
End Profile.

(** A string without a blank. *)
Fixpoint no_blank (s : string) : bool :=
  match s with
  | EmptyString => true
  | String c r => negb (Ascii.eqb c " ") && no_blank r
  end.

(** The access token a request presents, as a header. *)
Definition bearer (token : string) : option string := Some ("Bearer " ++ token).

(** The token [t] has a record in a collection of distinct ids, and the
    record found for it is not valid at time [now]: it is inactive,
    revoked or expired. *)
Definition lapsed (now : Z) (t : string) (l : list RefreshToken.t) : Prop :=
  NoDup (map RefreshToken._id l)
  /\ exists r, find (tokenIs t) l = Some r /\ RefreshToken.isValid now r = false.


Definition emailIs (e : string) (u : User.t) : bool := (User.email u =? e)%string.

(* ================================================================== *)
(** ** utils/cache.js *)

Module Cache.

(** What a cache entry holds: [null], [undefined] or data. *)
Inductive Value :=
| Null
| Undefined
| Data (v : Json).

(** [v === null] *)
Definition isNull (v : Value) : bool :=
  match v with
  | Null => true
  | _ => false
  end.

(** [{ value, expiresAt }] *)
Record Item := mkItem {
  value : Value;
  expiresAt : Z
}.

(** [this.cache]: a [Map], its entries in insertion order. *)
Definition t : Type := list (string * Item).

Definition keyIs (k : string) (e : string * Item) : bool := (fst e =? k)%string.

(** The keys of a [Map] are distinct. *)
Definition wf (c : t) : Prop := NoDup (map fst c).

(** [Map.prototype.set]: a key that is present keeps its place. *)
Definition Map_set (k : string) (x : Item) (m : t) : t :=
  if existsb (keyIs k) m then replace_first (keyIs k) (k, x) m else (m ++ [(k, x)])%list.

(** [Map.prototype.delete] *)
Definition Map_delete (k : string) (m : t) : t := remove_first (keyIs k) m.

(** The parameter [ttl = 60], in seconds. *)
Definition seconds (ttl : option Z) : Z :=
  match ttl with
  | Some s => s
  | None => 60
  end.

(** [set(key, value, ttl = 60)]; [now] is [Date.now()]. *)
Definition set (now : Z) (key : string) (v : Value) (ttl : option Z) (c : t) : t :=
  Map_set key (mkItem v (now + seconds ttl * 1000)) c.

(** [get(key)]: the result and the cache it leaves.  An entry is an
    object, so [!item] holds of an absent key only. *)
Definition get (now : Z) (key : string) (c : t) : Value * t :=
  match assoc key c with
  | None => (Null, c)
  | Some item =>
      if expiresAt item <? now
      then (Null, Map_delete key c)
      else (value item, c)
  end.

(** [has(key)]: [this.get(key) !== null] *)
Definition has (now : Z) (key : string) (c : t) : bool * t :=
  (negb (isNull (fst (get now key c))), snd (get now key c)).

(** [delete(key)] *)
Definition delete (key : string) (c : t) : t := Map_delete key c.

(** [clear()] *)
Definition clear (c : t) : t := [].

(** [size()] *)
Definition size (c : t) : nat := List.length c.

(** [cleanExpired()]: the entries are visited in order, the expired ones
    deleted. *)
Definition cleanExpired (now : Z) (c : t) : t :=
  fold_left
    (fun m e => if expiresAt (snd e) <? now then Map_delete (fst e) m else m)
    c c.

(** [getOrSet(key, fn, ttl = 60)].  [fn] runs on a world [W] and resolves
    to a value or rejects; [now] is the time of the lookup and [now'] the
    time at which [fn] has resolved.  Nothing else touches the cache while
    [fn] is awaited. *)
Definition getOrSet {W : Type} (now now' : Z) (key : string)
    (fn : W -> option Value * W) (ttl : option Z) (c : t) (w : W)
    : option Value * t * W :=
  if isNull (fst (get now key c))
  then
    match fn w with
    | (Some v, w') => (Some v, set now' key v ttl (snd (get now key c)), w')
    | (None, w') => (None, snd (get now key c), w')
    end
  else (Some (fst (get now key c)), snd (get now key c), w).

End Cache.

(* ================================================================== *)
(** * Properties *)

Unset Implicit Arguments.

(** Unfolding of the monad and of the collection operations; the string
    functions stay folded. *)
Ltac unfold_monad :=
  cbv beta iota delta
    [bind ret next_err throw reject_if getDb putDb commit run exec
     Users.findOne Users.findById Users.findOneByResetToken Users.create
     Users.save Users.findByIdAndDelete Users.countActiveOwners
     RefreshTokens.findOne RefreshTokens.insert RefreshTokens.save
     RefreshTokens.revoke RefreshTokens.revokeAllForUser];
  cbn [db faults users refreshTokens fst snd negb andb orb].

(** Case analysis on an innermost scrutinee of the goal. *)
Ltac split_match :=
  match goal with
  | |- context [match ?x with _ => _ end] =>
      lazymatch x with
      | context [match _ with _ => _ end] => fail
      | _ => destruct x eqn:?
      end
  end.

(** ** Permissions *)

Lemma role_name_inj : forall r1 r2, role_name r1 = role_name r2 -> r1 = r2.
Proof. intros [] []; simpl; intros H; try reflexivity; discriminate H. Qed.

Lemma role_of_string_name : forall r, role_of_string (role_name r) = Some r.
Proof. intros []; reflexivity. Qed.

Lemma protect_reads_only :
  forall (P : Primitives) authorization now st,
    snd (Auth.protect authorization now st) = st.
Proof.
  intros. unfold Auth.protect. unfold_monad.
  destruct st as [d fs]. repeat (split_match; try reflexivity).
Qed.

(** C9. The permission table has no entry for the owner role: for a
    principal whose role is owner, [hasPermission] answers 403
    "Invalid role" whatever the permission, and the permissions endpoint
    answers with an empty permissions object. *)
Theorem owner_has_no_permission_entry :
  forall (P : Primitives),
    assoc "owner" Permissions.PERMISSIONS = None
    /\ forall (u : User.t) (st : St),
        User.role u = owner ->
        (forall permission,
            Permissions.hasPermission permission (Some u) st
            = (Halt (Next (mkErr "Invalid role" 403)), st))
        /\ run (Permissions.getUserPermissions (Some u)) st
           = (Sent 200
                (JObj [ ("success", JBool true);
                        ("data", JObj [ ("role", JStr "owner");
                                        ("permissions", JObj []) ]) ]), st)
        /\ (forall authorization now,
               fst (Auth.protect authorization now st) = Go u ->
               run (Routes.getPermissions authorization now) st
               = (Sent 200
                    (JObj [ ("success", JBool true);
                            ("data", JObj [ ("role", JStr "owner");
                                            ("permissions", JObj []) ]) ]), st)).
Proof.
  intros P. split; [reflexivity|].
  intros u st Hrole. repeat split.
  - intros permission. unfold Permissions.hasPermission. rewrite Hrole. reflexivity.
  - unfold Permissions.getUserPermissions. rewrite Hrole. reflexivity.
  - intros authorization now Hgo.
    pose proof (protect_reads_only P authorization now st) as Hst.
    unfold Routes.getPermissions, run, bind.
    destruct (Auth.protect authorization now st) as [res st'].
    simpl in Hgo, Hst. subst res st'.
    unfold Permissions.getUserPermissions. rewrite Hrole. reflexivity.
Qed.

Lemma owner_has_no_permission_entry_witness :
  (forall permission,
      Permissions.hasPermission permission (Some Sample.root) (mkSt Sample.db0 [])
      = (Halt (Next (mkErr "Invalid role" 403)), mkSt Sample.db0 []))
  /\ run (Routes.getPermissions (P := Sample.primitives) (Some "Bearer jwt.owner") 0)
         (mkSt Sample.db0 [])
     = (Sent 200
          (JObj [ ("success", JBool true);
                  ("data", JObj [ ("role", JStr "owner");
                                  ("permissions", JObj []) ]) ]), mkSt Sample.db0 []).
Proof.
  destruct (owner_has_no_permission_entry Sample.primitives) as [_ H].
  destruct (H Sample.root (mkSt Sample.db0 []) eq_refl) as [H1 [_ H3]].
  split; [exact H1|].
  apply H3. reflexivity.
Defined.

(** ** requireRole *)

Lemma truthy_some : forall s, truthy (Some s) = negb (s =? "")%string.
Proof. reflexivity. Qed.

Lemma truthy_nonempty : forall s, truthy (Some s) = true -> s <> "".
Proof.
  intros s H Hs. subst s. discriminate H.
Qed.

Lemma nonempty_truthy : forall s, s <> "" -> truthy (Some s) = true.
Proof.
  intros s H. rewrite truthy_some. destruct (String.eqb_spec s ""); [contradiction|reflexivity].
Qed.

(** C8. Through [requireRole], a missing, malformed, expired or wrongly
    signed bearer token is answered with 401, never 403; a 403 is answered
    only once the token has been verified and the user record found, the
    account being inactive or its role not among the allowed ones. *)
Theorem requireRole_401_before_403 :
  forall (P : Primitives) roles authorization now st,
    snd (Auth.requireRole roles authorization now st) = st
    /\ (bad_credential authorization now ->
        fst (Auth.requireRole roles authorization now st)
        = Halt (Next (mkErr "Not authorized to access this route" 401)))
    /\ (forall e,
           fst (Auth.requireRole roles authorization now st) = Halt (Next e) ->
           statusCode e = 403 ->
           exists token decoded u,
             Auth.bearerToken authorization = Some token
             /\ token <> ""
             /\ jwt_verify now token = inr decoded
             /\ find (userIs (jwt_id decoded)) (users (db st)) = Some u
             /\ (User.isActive u = false
                 \/ includes roles (role_name (User.role u)) = false)).
Proof.
  intros P roles authorization now st.
  unfold Auth.requireRole, bad_credential, userIs.
  destruct (Auth.bearerToken authorization) as [token|]; unfold_monad.
  2:{ split; [reflexivity|split]; [reflexivity|].
      intros e He Hcode. inversion He; subst e. discriminate Hcode. }
  destruct (truthy (Some token)) eqn:Htok; simpl.
  2:{ split; [reflexivity|split]; [reflexivity|].
      intros e He Hcode. inversion He; subst e. discriminate Hcode. }
  apply truthy_nonempty in Htok.
  destruct (jwt_verify now token) as [err|decoded] eqn:Hverify.
  { split; [reflexivity|split]; [reflexivity|].
    intros e He Hcode. inversion He; subst e. discriminate Hcode. }
  assert (Hgood : token = "" \/ (exists e : JwtError, @inr JwtError _ decoded = inl e)
                  -> False).
  { intros [H|[e H]]; [contradiction|discriminate]. }
  destruct st as [d fs]. cbn [db].
  destruct (find (fun u => (User._id u =? jwt_id decoded)%nat) (users d))
    as [u|] eqn:Hfind; cbn [db].
  2:{ split; [reflexivity|split]; [intros Hbad; destruct (Hgood Hbad)|].
      intros e He Hcode. inversion He; subst e. discriminate Hcode. }
  destruct (User.isActive u) eqn:Hactive; simpl.
  - destruct (includes roles (role_name (User.role u))) eqn:Hrole; simpl.
    + split; [reflexivity|split]; [intros Hbad; destruct (Hgood Hbad)|].
      intros e He Hcode. discriminate He.
    + split; [reflexivity|split]; [intros Hbad; destruct (Hgood Hbad)|].
      intros e He Hcode. exists token, decoded, u. repeat split; auto.
  - split; [reflexivity|split]; [intros Hbad; destruct (Hgood Hbad)|].
    intros e He Hcode. exists token, decoded, u. repeat split; auto.
Qed.

Lemma requireRole_401_before_403_witness :
  fst (Auth.requireRole (P := Sample.primitives) ["owner"] (Some "Bearer jwt.old") 0
         (mkSt Sample.db0 []))
  = Halt (Next (mkErr "Not authorized to access this route" 401))
  /\ exists token decoded u,
      Auth.bearerToken (Some "Bearer jwt.viewer") = Some token
      /\ token <> ""
      /\ jwt_verify (Primitives := Sample.primitives) 0 token = inr decoded
      /\ find (userIs (jwt_id decoded)) (users Sample.db0) = Some u
      /\ (User.isActive u = false
          \/ includes ["owner"] (role_name (User.role u)) = false).
Proof.
  split.
  - apply (proj1 (proj2 (requireRole_401_before_403 Sample.primitives ["owner"]
                           (Some "Bearer jwt.old") 0 (mkSt Sample.db0 [])))).
    right. exists Expired. reflexivity.
  - apply (proj2 (proj2 (requireRole_401_before_403 Sample.primitives ["owner"]
                           (Some "Bearer jwt.viewer") 0 (mkSt Sample.db0 [])))
             (mkErr "User role 'viewer' is not authorized to access this route" 403)).
    + reflexivity.
    + reflexivity.
Defined.

(** ** revokeAllForUser *)

Lemma matches_false :
  forall userId r,
    RefreshToken.userId r <> userId \/ RefreshToken.isActive r = false ->
    RefreshTokens.matches userId r = false.
Proof.
  intros userId r [H|H]; unfold RefreshTokens.matches.
  - apply Nat.eqb_neq in H. rewrite H. reflexivity.
  - rewrite H. apply andb_false_r.
Qed.

(** C10. [revokeAllForUser(userId, ip)] rewrites only the refresh-token
    records of that user whose active flag is set: the records of other
    users and the already inactive records of the same user, with their
    revocation fields, stay what they were, and so does the user
    collection.  [logoutAll] has exactly this effect. *)
Theorem revokeAllForUser_frame :
  forall env userId st,
    users (db (snd (RefreshTokens.revokeAllForUser env userId st))) = users (db st)
    /\ List.length (refreshTokens (db (snd (RefreshTokens.revokeAllForUser env userId st))))
       = List.length (refreshTokens (db st))
    /\ (forall i r,
           nth_error (refreshTokens (db st)) i = Some r ->
           RefreshToken.userId r <> userId \/ RefreshToken.isActive r = false ->
           nth_error (refreshTokens (db (snd (RefreshTokens.revokeAllForUser env userId st)))) i
           = Some r)
    /\ (forall i r r',
           nth_error (refreshTokens (db st)) i = Some r ->
           nth_error (refreshTokens (db (snd (RefreshTokens.revokeAllForUser env userId st)))) i
           = Some r' ->
           r' <> r ->
           RefreshToken.userId r = userId /\ RefreshToken.isActive r = true
           /\ r' = RefreshToken.revoked (now env) (ip env) r)
    /\ (forall (P : Primitives) reqUser,
           User._id reqUser = userId ->
           snd (run (AuthControllerV2.logoutAll env reqUser) st)
           = snd (RefreshTokens.revokeAllForUser env userId st)).
Proof.
  intros env userId [d fs].
  assert (Hcases :
            snd (RefreshTokens.revokeAllForUser env userId (mkSt d fs))
            = mkSt d (tl fs)
            \/ snd (RefreshTokens.revokeAllForUser env userId (mkSt d fs))
               = mkSt (mkDb (users d)
                         (map (fun r => if RefreshTokens.matches userId r
                                        then RefreshToken.revoked (now env) (ip env) r
                                        else r) (refreshTokens d)))
                      (tl fs)).
  { unfold_monad. destruct fs as [|[|] fs]; cbn; auto. }
  cbn [db] in *.
  split; [|split; [|split; [|split]]].
  - destruct Hcases as [-> | ->]; reflexivity.
  - destruct Hcases as [-> | ->]; cbn [db refreshTokens]; [reflexivity|].
    apply length_map.
  - intros i r Hi Hr. destruct Hcases as [-> | ->]; cbn [db refreshTokens] in *; [exact Hi|].
    rewrite nth_error_map, Hi. cbn. rewrite (matches_false _ _ Hr). reflexivity.
  - intros i r r' Hi Hi' Hne.
    destruct Hcases as [Hc | Hc]; rewrite Hc in Hi'; cbn [db refreshTokens] in Hi'.
    + congruence.
    + rewrite nth_error_map, Hi in Hi'. cbn in Hi'.
      destruct (RefreshTokens.matches userId r) eqn:E; [|congruence].
      unfold RefreshTokens.matches in E. apply andb_true_iff in E.
      destruct E as [E1 E2]. apply Nat.eqb_eq in E1.
      repeat split; congruence.
  - intros P reqUser Hid. unfold AuthControllerV2.logoutAll. rewrite Hid.
    unfold run, bind.
    destruct (RefreshTokens.revokeAllForUser env userId (mkSt d fs)) as [[n|o] st'];
      reflexivity.
Qed.

Lemma revokeAllForUser_frame_witness :
  nth_error
    (refreshTokens (db (snd (RefreshTokens.revokeAllForUser Sample.env0 2
                               (mkSt Sample.db0 []))))) 2
  = Some Sample.rotated_session
  /\ nth_error
       (refreshTokens (db (snd (RefreshTokens.revokeAllForUser Sample.env0 2
                                  (mkSt Sample.db0 []))))) 0
     = Some (Sample.session 1 "t-root" 1).
Proof.
  split.
  - apply (proj1 (proj2 (proj2 (revokeAllForUser_frame Sample.env0 2 (mkSt Sample.db0 []))))).
    + reflexivity.
    + right. reflexivity.
  - apply (proj1 (proj2 (proj2 (revokeAllForUser_frame Sample.env0 2 (mkSt Sample.db0 []))))).
    + reflexivity.
    + left. cbn. discriminate.
Defined.

(** ** Owners and the admin controller *)

Lemma assignable_not_owner :
  forall r role,
    includes AdminController.assignableRoles r = true ->
    role_of_string r = Some role ->
    is_owner role = false.
Proof.
  intros r role Hin Hrole.
  unfold includes, AdminController.assignableRoles in Hin. cbn [existsb] in Hin.
  destruct (String.eqb_spec r "admin") as [->|_]; [inversion Hrole; reflexivity|].
  destruct (String.eqb_spec r "operator") as [->|_]; [inversion Hrole; reflexivity|].
  destruct (String.eqb_spec r "viewer") as [->|_]; [inversion Hrole; reflexivity|].
  discriminate Hin.
Qed.

Lemma owners_replace_first :
  forall (p : User.t -> bool) (u u' : User.t) (l : list User.t),
    find p l = Some u ->
    is_owner (User.role u) = false ->
    is_owner (User.role u') = false ->
    filter (fun x => is_owner (User.role x)) (replace_first p u' l)
    = filter (fun x => is_owner (User.role x)) l.
Proof.
  intros p u u' l. induction l as [|x l IH]; intros Hfind Hu Hu'; [discriminate|].
  cbn in Hfind |- *. destruct (p x).
  - inversion Hfind; subst x. cbn. rewrite Hu, Hu'. reflexivity.
  - cbn. rewrite (IH Hfind Hu Hu'). reflexivity.
Qed.

Lemma owners_append :
  forall (l : list User.t) (u : User.t),
    is_owner (User.role u) = false ->
    filter (fun x => is_owner (User.role x)) (l ++ [u])
    = filter (fun x => is_owner (User.role x)) l.
Proof.
  intros l u Hu. rewrite filter_app. cbn. rewrite Hu. apply app_nil_r.
Qed.

Lemma find_userIs_id :
  forall id l u, find (fun x => (User._id x =? id)%nat) l = Some u -> User._id u = id.
Proof.
  intros id l u H. apply find_some in H. destruct H as [_ H].
  apply Nat.eqb_eq in H. exact H.
Qed.

(** Closing a goal about the database left by a handler that stopped or
    failed before writing. *)
Ltac unchanged := cbn [db users refreshTokens fst snd]; try reflexivity.

Lemma createUser_owners :
  forall (P : Primitives) body st,
    owners (db (snd (run (AdminController.createUser body) st))) = owners (db st).
Proof.
  intros P body [d fs]. unfold AdminController.createUser, owners.
  unfold_monad.
  repeat (split_match; unchanged).
  all: apply owners_append; cbn.
  all: match goal with
       | H : negb (includes _ ?r) = false |- _ =>
           apply negb_false_iff in H; eapply assignable_not_owner; eassumption
       end.
Qed.

Lemma changeUserRole_owners :
  forall (P : Primitives) userId body st,
    owners (db (snd (run (AdminController.changeUserRole userId body) st)))
    = owners (db st).
Proof.
  intros P userId body [d fs]. unfold AdminController.changeUserRole, owners.
  unfold_monad.
  repeat (split_match; unchanged).
  all: cbn [User._id User.set_role].
  all: match goal with
       | Hfind : find _ (users _) = Some ?u,
         Hinc : negb (includes _ ?r) = false,
         Hown : is_owner (User.role ?u) = false |- _ =>
           rewrite (find_userIs_id _ _ _ Hfind);
           apply (owners_replace_first _ _ _ _ Hfind Hown);
           apply negb_false_iff in Hinc; cbn;
           eapply assignable_not_owner; eassumption
       end.
Qed.

(** C5. No administrative operation creates an owner or changes an
    owner's role: [createUser] answers 400 when the requested role is
    owner, [changeUserRole] answers 400 when the requested role is owner or
    the target is an owner, and both leave the users whose role is owner
    exactly as they were. *)
Theorem admin_never_makes_or_changes_owner :
  forall (P : Primitives) body st,
    (field body "role" = Some "owner" ->
     exists msg, run (AdminController.createUser body) st = (Next (mkErr msg 400), st))
    /\ (forall userId,
           field body "role" = Some "owner"
           \/ (exists u, find (userIs userId) (users (db st)) = Some u
                         /\ User.role u = owner) ->
           exists msg,
             run (AdminController.changeUserRole userId body) st
             = (Next (mkErr msg 400), st))
    /\ owners (db (snd (run (AdminController.createUser body) st))) = owners (db st)
    /\ (forall userId,
           owners (db (snd (run (AdminController.changeUserRole userId body) st)))
           = owners (db st)).
Proof.
  intros P body st. split; [|split; [|split]].
  - intros Hrole. unfold AdminController.createUser. rewrite Hrole.
    destruct (field body "name") as [n|]; [|eexists; reflexivity].
    destruct (field body "email") as [e|]; [|eexists; reflexivity].
    destruct (field body "password") as [p|]; [|eexists; reflexivity].
    unfold_monad.
    destruct (_ || _ || _ || _); [eexists; reflexivity|].
    destruct (String.length p <? 8)%nat; eexists; reflexivity.
  - intros userId Hcase. unfold AdminController.changeUserRole.
    destruct (field body "role") as [r|] eqn:Hfield; [|eexists; reflexivity].
    unfold_monad.
    destruct (truthy (Some r)); [|eexists; reflexivity]. cbn [negb].
    destruct (includes AdminController.assignableRoles r) eqn:Hr;
      [|eexists; reflexivity].
    cbn [negb].
    destruct Hcase as [Howner | [u [Hfind Hu]]].
    + inversion Howner; subst r. discriminate Hr.
    + unfold userIs in Hfind. rewrite Hfind, Hu. eexists; reflexivity.
  - apply (createUser_owners P).
  - intros userId. apply (changeUserRole_owners P).
Qed.

Lemma admin_never_makes_or_changes_owner_witness :
  (exists msg,
      run (AdminController.createUser (P := Sample.primitives)
             [("name", "Eve"); ("email", "eve@x.com"); ("password", "longenough");
              ("role", "owner")]) (mkSt Sample.db0 [])
      = (Next (mkErr msg 400), mkSt Sample.db0 []))
  /\ (exists msg,
         run (AdminController.changeUserRole 1
                [("role", "viewer")]) (mkSt Sample.db0 [])
         = (Next (mkErr msg 400), mkSt Sample.db0 [])).
Proof.
  split.
  - apply (proj1 (admin_never_makes_or_changes_owner Sample.primitives
                    [("name", "Eve"); ("email", "eve@x.com");
                     ("password", "longenough"); ("role", "owner")]
                    (mkSt Sample.db0 []))).
    reflexivity.
  - apply (proj1 (proj2 (admin_never_makes_or_changes_owner Sample.primitives
                           [("role", "viewer")] (mkSt Sample.db0 [])))).
    right. exists Sample.root. split; reflexivity.
Defined.

(** ** Self-registration *)

(** The unmounted controller stores the viewer role whatever the body
    says. *)
Lemma authController_register_forces_viewer :
  forall (P : Primitives) body st u,
    fst (AuthController.register body st) = Go u ->
    User.role u = viewer.
Proof.
  intros P body [d fs] u. unfold AuthController.register. unfold_monad.
  change (role_of_string "viewer") with (Some viewer).
  repeat (split_match; cbn [fst snd db]; try discriminate).
  all: intros H; inversion H; reflexivity.
Qed.

Lemma role_of_string_sound :
  forall s r, role_of_string s = Some r -> role_name r = s.
Proof.
  intros s r H. unfold role_of_string in H.
  repeat match type of H with
         | context [String.eqb s ?c] =>
             destruct (String.eqb_spec s c); [subst s; inversion H; reflexivity|]
         end.
  discriminate H.
Qed.

(** C1. The mounted [register] does not ignore the role of the body: a
    registration that succeeds with a non-empty [role] member appends a
    user whose role is that member (admin for [role: "admin"]) and reports
    it in the response; a registration with [role: "owner"] never
    succeeds and creates nobody. *)
Theorem register_honours_body_role :
  forall (P : Primitives) env body st r,
    field body "role" = Some r ->
    r <> "" ->
    (succeeded (fst (run (AuthControllerV2.register env body) st)) = true ->
     exists u accessToken,
       users (db (snd (run (AuthControllerV2.register env body) st)))
       = (users (db st) ++ [u])%list
       /\ role_name (User.role u) = r
       /\ fst (run (AuthControllerV2.register env body) st)
          = Sent 201
              (JObj [ ("success", JBool true);
                      ("message", JStr "Registration successful");
                      ("data",
                       JObj [ ("user", JObj (AuthControllerV2.userSummary u));
                              ("accessToken", JStr accessToken);
                              ("refreshToken", JStr (drawnToken env)) ]) ]))
    /\ (r = "owner" ->
        succeeded (fst (run (AuthControllerV2.register env body) st)) = false
        /\ db (snd (run (AuthControllerV2.register env body) st)) = db st).
Proof.
  intros P env body [d fs] r Hrole Hr.
  unfold AuthControllerV2.register, AuthControllerV2.lowered,
    AuthControllerV2.generateRefreshToken.
  rewrite Hrole, (nonempty_truthy _ Hr).
  split.
  - unfold_monad.
    repeat (split_match; cbn [fst snd db users succeeded]; try discriminate).
    all: intros _; eexists; eexists.
    all: split; [reflexivity|split; [|reflexivity]].
    all: cbn [User.role]; apply role_of_string_sound; assumption.
  - intros ->. unfold_monad.
    destruct (field body "email") as [e|]; [|split; reflexivity].
    cbn [fst snd db users].
    destruct (find _ (users d)); split; reflexivity.
Qed.

Lemma register_honours_body_role_witness :
  (exists u accessToken,
      users (db (snd (run (AuthControllerV2.register (P := Sample.primitives)
                             Sample.env0
                             [("name", "Mallory"); ("email", "M@x.com");
                              ("password", "secret12"); ("role", "admin")])
                        (mkSt Sample.db0 []))))
      = (users Sample.db0 ++ [u])%list
      /\ role_name (User.role u) = "admin"
      /\ fst (run (AuthControllerV2.register (P := Sample.primitives) Sample.env0
                     [("name", "Mallory"); ("email", "M@x.com");
                      ("password", "secret12"); ("role", "admin")])
                (mkSt Sample.db0 []))
         = Sent 201
             (JObj [ ("success", JBool true);
                     ("message", JStr "Registration successful");
                     ("data",
                      JObj [ ("user", JObj (AuthControllerV2.userSummary u));
                             ("accessToken", JStr accessToken);
                             ("refreshToken", JStr (drawnToken Sample.env0)) ]) ]))
  /\ succeeded
       (fst (run (AuthControllerV2.register (P := Sample.primitives) Sample.env0
                    [("name", "Mallory"); ("email", "M@x.com");
                     ("password", "secret12"); ("role", "owner")])
               (mkSt Sample.db0 [])))
     = false.
Proof.
  split.
  - apply (proj1 (register_honours_body_role Sample.primitives Sample.env0
                    [("name", "Mallory"); ("email", "M@x.com");
                     ("password", "secret12"); ("role", "admin")]
                    (mkSt Sample.db0 []) "admin" eq_refl ltac:(discriminate))).
    reflexivity.
  - apply (proj2 (register_honours_body_role Sample.primitives Sample.env0
                    [("name", "Mallory"); ("email", "M@x.com");
                     ("password", "secret12"); ("role", "owner")]
                    (mkSt Sample.db0 []) "owner" eq_refl ltac:(discriminate))).
    reflexivity.
Defined.

(** The stored document and the two responses, evaluated. *)
Example register_admin_role_is_stored :
  let admin_body :=
    [("name", "Mallory"); ("email", "M@x.com"); ("password", "secret12");
     ("role", "admin")] in
  let owner_body :=
    [("name", "Mallory"); ("email", "M@x.com"); ("password", "secret12");
     ("role", "owner")] in
  let result :=
    exec (AuthControllerV2.register (P := Sample.primitives) Sample.env0 admin_body)
      [] Sample.db0 in
  succeeded (fst result) = true
  /\ find (fun u => (User.email u =? "m@x.com")%string) (users (snd result))
     = Some (User.mk 3 "Mallory" "m@x.com" "hash:secret12" admin None true
               None None None)
  /\ exec (AuthControllerV2.register (P := Sample.primitives) Sample.env0 owner_body)
       [] Sample.db0
     = (Next (mkErr "Invalid role specified" 400), Sample.db0).
Proof.
  cbv zeta. repeat split; vm_compute; reflexivity.
Qed.

(** ** Collections with distinct ids *)

Section Documents.
Variable A : Type.
Variable key : A -> nat.

Lemma ObjectId_bound : forall ids n, In n ids -> (n < ObjectId ids)%nat.
Proof.
  unfold ObjectId. induction ids as [|m ids IH]; intros n Hin; [destruct Hin|].
  cbn [fold_right]. destruct Hin as [->|Hin]; [lia|].
  specialize (IH n Hin). lia.
Qed.

Lemma ObjectId_fresh : forall ids, ~ In (ObjectId ids) ids.
Proof.
  intros ids Hin. apply ObjectId_bound in Hin. lia.
Qed.

Lemma replace_first_keys :
  forall (a' : A) (l : list A),
    map key (replace_first (fun x => (key x =? key a')%nat) a' l) = map key l.
Proof.
  intros a' l. induction l as [|x l IH]; [reflexivity|].
  cbn. destruct (Nat.eqb_spec (key x) (key a')) as [E|E]; cbn.
  - rewrite E. reflexivity.
  - rewrite IH. reflexivity.
Qed.

Lemma replace_first_length :
  forall (p : A -> bool) (a' : A) (l : list A),
    List.length (replace_first p a' l) = List.length l.
Proof.
  intros p a' l. induction l as [|x l IH]; [reflexivity|].
  cbn. destruct (p x); cbn; [reflexivity|]. rewrite IH. reflexivity.
Qed.

Lemma find_replace_first_hit :
  forall (q : A -> bool) (a a' : A) (l : list A),
    NoDup (map key l) ->
    find q l = Some a ->
    key a' = key a ->
    q a' = true ->
    find q (replace_first (fun x => (key x =? key a')%nat) a' l) = Some a'.
Proof.
  intros q a a' l. induction l as [|x l IH]; intros Hnd Hfind Hkey Hq;
    [discriminate|].
  cbn [map] in Hnd. inversion Hnd as [|k ks Hnotin Hnd']; subst.
  cbn in Hfind |- *. destruct (q x) eqn:Hqx.
  - inversion Hfind; subst x. rewrite Hkey, Nat.eqb_refl. cbn. rewrite Hq. reflexivity.
  - destruct (Nat.eqb_spec (key x) (key a')) as [E|E].
    + exfalso. apply Hnotin. rewrite E, Hkey. apply in_map.
      apply find_some in Hfind. tauto.
    + cbn. rewrite Hqx. apply IH; assumption.
Qed.

Lemma find_replace_first_miss :
  forall (q : A -> bool) (a a' : A) (l : list A),
    NoDup (map key l) ->
    In a l ->
    key a' = key a ->
    q a = false ->
    q a' = false ->
    find q (replace_first (fun x => (key x =? key a')%nat) a' l) = find q l.
Proof.
  intros q a a' l. induction l as [|x l IH]; intros Hnd Hin Hkey Hqa Hqa';
    [reflexivity|].
  cbn [map] in Hnd. inversion Hnd as [|k ks Hnotin Hnd']; subst.
  cbn. destruct (Nat.eqb_spec (key x) (key a')) as [E|E].
  - destruct Hin as [->|Hin].
    + cbn. rewrite Hqa, Hqa'. reflexivity.
    + exfalso. apply Hnotin. rewrite E, Hkey. apply in_map. exact Hin.
  - destruct Hin as [->|Hin]; [congruence|].
    cbn. destruct (q x); [reflexivity|]. apply IH; assumption.
Qed.

Lemma find_key_absent :
  forall (k : nat) (l : list A),
    ~ In k (map key l) -> find (fun x => (key x =? k)%nat) l = None.
Proof.
  intros k l. induction l as [|x l IH]; intros Hnotin; [reflexivity|].
  cbn in Hnotin |- *. destruct (Nat.eqb_spec (key x) k) as [E|E].
  - exfalso. apply Hnotin. left. exact E.
  - apply IH. intros Hin. apply Hnotin. right. exact Hin.
Qed.

Lemma remove_first_by_key :
  forall (k : nat) (a : A) (l : list A),
    NoDup (map key l) ->
    find (fun x => (key x =? k)%nat) l = Some a ->
    find (fun x => (key x =? k)%nat) (remove_first (fun x => (key x =? k)%nat) l) = None
    /\ ~ In a (remove_first (fun x => (key x =? k)%nat) l)
    /\ (List.length (remove_first (fun x => (key x =? k)%nat) l) + 1
        = List.length l)%nat.
Proof.
  intros k a l. induction l as [|x l IH]; intros Hnd Hfind; [discriminate|].
  cbn [map] in Hnd. inversion Hnd as [|k' ks Hnotin Hnd']; subst.
  cbn in Hfind |- *. destruct (Nat.eqb_spec (key x) k) as [E|E].
  - inversion Hfind; subst x. repeat split.
    + apply find_key_absent. rewrite <- E. exact Hnotin.
    + intros Hin. apply Hnotin. apply in_map. exact Hin.
    + lia.
  - destruct (IH Hnd' Hfind) as [H1 [H2 H3]]. repeat split.
    + cbn. destruct (Nat.eqb_spec (key x) k); [contradiction|]. exact H1.
    + intros [->|Hin]; [|exact (H2 Hin)].
      apply find_some in Hfind. destruct Hfind as [_ Hk].
      apply Nat.eqb_eq in Hk. contradiction.
    + cbn. lia.
Qed.

End Documents.

(** ** forgotPassword *)

Lemma writes_accepted_head :
  forall fs, writes_accepted fs = true -> fs = [] \/ exists fs', fs = false :: fs'.
Proof.
  intros [|[|] fs] H; [left; reflexivity|discriminate H|right; eexists; reflexivity].
Qed.

(** C4. [forgotPassword] answers an email of a registered user and an
    email of no user differently, whatever the database does with the
    write: the first answer is never the generic acknowledgement of the
    second.  When the write is accepted the first answer carries the
    message "Password reset token generated" and the reset token itself. *)
Theorem forgotPassword_reveals_account :
  forall (P : Primitives) env fs fs' d body body' e e' u,
    field body "email" = Some e ->
    field body' "email" = Some e' ->
    find (fun x => (User.email x =? toLowerCase e)%string) (users d) = Some u ->
    find (fun x => (User.email x =? toLowerCase e')%string) (users d) = None ->
    fst (exec (AuthControllerV2.forgotPassword env body) fs d)
    <> fst (exec (AuthControllerV2.forgotPassword env body') fs' d)
    /\ (e <> "" -> e' <> "" -> writes_accepted fs = true ->
        fst (exec (AuthControllerV2.forgotPassword env body) fs d)
        = Sent 200
            (JObj [ ("success", JBool true);
                    ("message", JStr "Password reset token generated");
                    ("data",
                     JObj [ ("resetToken",
                             JStr (toHex (randomBytes 32 (entropy env)))) ]) ])
        /\ fst (exec (AuthControllerV2.forgotPassword env body') fs' d)
           = Sent 200
               (JObj [ ("success", JBool true);
                       ("message",
                        JStr "If an account exists with this email, a password reset link has been sent") ])).
Proof.
  intros P env fs fs' d body body' e e' u He He' Hu Hnone.
  unfold AuthControllerV2.forgotPassword. rewrite He, He'.
  split.
  - destruct (truthy (Some e)) eqn:Te; destruct (truthy (Some e')) eqn:Te';
      unfold_monad; rewrite ?Hu, ?Hnone.
    + destruct fs as [|[|] fs]; cbn [fst]; discriminate.
    + destruct fs as [|[|] fs]; cbn [fst]; discriminate.
    + cbn [fst]. discriminate.
    + exfalso.
      rewrite truthy_some in Te, Te'.
      apply negb_false_iff in Te, Te'.
      apply String.eqb_eq in Te, Te'. subst e e'. congruence.
  - intros Hne Hne' Hfs.
    rewrite (nonempty_truthy _ Hne), (nonempty_truthy _ Hne').
    unfold_monad. rewrite Hu, Hnone.
    destruct (writes_accepted_head _ Hfs) as [-> | [fs0 ->]]; split; reflexivity.
Qed.

Lemma forgotPassword_reveals_account_witness :
  fst (exec (AuthControllerV2.forgotPassword (P := Sample.primitives) Sample.env0
               [("email", "v@x.com")]) [] Sample.db0)
  <> fst (exec (AuthControllerV2.forgotPassword (P := Sample.primitives) Sample.env0
                  [("email", "nobody@x.com")]) [] Sample.db0).
Proof.
  apply (proj1 (forgotPassword_reveals_account Sample.primitives Sample.env0 [] []
                  Sample.db0 [("email", "v@x.com")] [("email", "nobody@x.com")]
                  "v@x.com" "nobody@x.com" Sample.vera
                  eq_refl eq_refl eq_refl eq_refl)).
Defined.

(** ** Bootstrap *)

(** An existing account that is not an owner is promoted and activated,
    when the database accepts the write. *)
Lemma bootstrap_promotes_existing :
  forall (P : Primitives) ownerEmail defaultPassword d fs u,
    ownerEmail <> "" ->
    NoDup (map User._id (users d)) ->
    find (fun x => (User.email x =? ownerEmail)%string) (users d) = Some u ->
    User.role u <> owner ->
    hd false fs = false ->
    find (fun x => (User.email x =? ownerEmail)%string)
      (users (db (Bootstrap.boot (Some ownerEmail) defaultPassword (mkSt d fs))))
    = Some (User.set_isActive true (User.set_role owner u)).
Proof.
  intros P ownerEmail defaultPassword d fs u Hne Hnd Hfind Hrole Hfs.
  unfold Bootstrap.boot, Bootstrap.bootstrapOwner.
  rewrite (nonempty_truthy _ Hne). cbn [negb]. unfold_monad. rewrite Hfind.
  assert (Hno : is_owner (User.role u) = false)
    by (destruct (User.role u); [contradiction|reflexivity..]).
  rewrite Hno. cbn [negb].
  assert (Hgoal :
            find (fun x => (User.email x =? ownerEmail)%string)
              (replace_first
                 (fun x => (User._id x
                            =? User._id (User.set_isActive true (User.set_role owner u)))%nat)
                 (User.set_isActive true (User.set_role owner u)) (users d))
            = Some (User.set_isActive true (User.set_role owner u))).
  { apply (find_replace_first_hit User.t User._id _ u); auto.
    cbn. apply find_some in Hfind. tauto. }
  destruct fs as [|[|] fs]; [exact Hgoal|discriminate Hfs|exact Hgoal].
Qed.

(** C7. When the configured owner email belongs to an account whose role
    is already owner, [bootstrapOwner] writes nothing: an owner account
    that was deactivated is still deactivated after the run. *)
Theorem bootstrap_keeps_owner_deactivated :
  forall (P : Primitives) ownerEmail defaultPassword st u,
    ownerEmail <> "" ->
    find (fun x => (User.email x =? ownerEmail)%string) (users (db st)) = Some u ->
    User.role u = owner ->
    User.isActive u = false ->
    Bootstrap.bootstrapOwner (Some ownerEmail) defaultPassword st = (Go (Some u), st)
    /\ exists v,
        find (fun x => (User.email x =? ownerEmail)%string)
          (users (db (Bootstrap.boot (Some ownerEmail) defaultPassword st))) = Some v
        /\ User.role v = owner /\ User.isActive v = false.
Proof.
  intros P ownerEmail defaultPassword st u Hne Hfind Hrole Hactive.
  assert (Hrun : Bootstrap.bootstrapOwner (Some ownerEmail) defaultPassword st
                 = (Go (Some u), st)).
  { unfold Bootstrap.bootstrapOwner.
    rewrite (nonempty_truthy _ Hne). cbn [negb]. unfold_monad.
    rewrite Hfind, Hrole. reflexivity. }
  split; [exact Hrun|].
  exists u. unfold Bootstrap.boot. rewrite Hrun. cbn [snd]. auto.
Qed.

(** An owner is deactivated through the admin API: [activateUser] with
    [isActive: false] has no role restriction. *)
Example owner_can_be_deactivated :
  exec (AdminController.activateUser 1 (Some false)) [] Sample.db0
  = (Sent 200
       (JObj [ ("success", JBool true);
               ("message", JStr "User deactivated successfully");
               ("data", JObj [ ("user", JObj (AdminController.userView Sample.dormant)) ]) ]),
     mkDb [Sample.dormant; Sample.vera] (refreshTokens Sample.db0)).
Proof. reflexivity. Qed.

Lemma bootstrap_keeps_owner_deactivated_witness :
  exists v,
    find (fun x => (User.email x =? "root@x.com")%string)
      (users (db (Bootstrap.boot (P := Sample.primitives) (Some "root@x.com") None
                    (mkSt Sample.db_dormant [])))) = Some v
    /\ User.role v = owner /\ User.isActive v = false.
Proof.
  apply (proj2 (bootstrap_keeps_owner_deactivated Sample.primitives "root@x.com" None
                  (mkSt Sample.db_dormant []) Sample.dormant
                  ltac:(discriminate) eq_refl eq_refl eq_refl)).
Defined.

(** ** deleteUser *)

(** C6. [deleteUser] answers 403 when the target is an owner and when the
    target is the requester; otherwise, when the database accepts the
    write, it answers 200 and the target's record is gone from the user
    collection: the record is removed, not deactivated. *)
Theorem deleteUser_removes_the_record :
  forall reqUser userId st target,
    find (userIs userId) (users (db st)) = Some target ->
    (User.role target = owner ->
     run (AdminController.deleteUser reqUser userId) st
     = (Next (mkErr "Cannot delete an owner account" 403), st))
    /\ (User.role target <> owner ->
        User._id target = User._id reqUser ->
        run (AdminController.deleteUser reqUser userId) st
        = (Next (mkErr "Cannot delete your own account" 403), st))
    /\ (User.role target <> owner ->
        User._id target <> User._id reqUser ->
        hd false (faults st) = false ->
        NoDup (map User._id (users (db st))) ->
        succeeded (fst (run (AdminController.deleteUser reqUser userId) st)) = true
        /\ find (userIs userId)
             (users (db (snd (run (AdminController.deleteUser reqUser userId) st))))
           = None
        /\ ~ In target
               (users (db (snd (run (AdminController.deleteUser reqUser userId) st))))
        /\ (List.length
              (users (db (snd (run (AdminController.deleteUser reqUser userId) st)))) + 1
            = List.length (users (db st)))%nat).
Proof.
  intros reqUser userId [d fs] target Hfind. unfold userIs in *. cbn [db] in Hfind.
  unfold AdminController.deleteUser. unfold_monad. rewrite Hfind.
  split; [|split].
  - intros Hrole. rewrite Hrole. reflexivity.
  - intros Hrole Hid.
    assert (Hno : is_owner (User.role target) = false)
      by (destruct (User.role target); [contradiction|reflexivity..]).
    rewrite Hno, Hid, Nat.eqb_refl. reflexivity.
  - intros Hrole Hid Hfs Hnd.
    assert (Hno : is_owner (User.role target) = false)
      by (destruct (User.role target); [contradiction|reflexivity..]).
    apply Nat.eqb_neq in Hid. rewrite Hno, Hid.
    cbn [faults db] in Hfs, Hnd.
    destruct (remove_first_by_key User.t User._id userId target (users d) Hnd Hfind)
      as [H1 [H2 H3]].
    destruct fs as [|[|] fs]; [|discriminate Hfs|];
      cbn [fst snd db users]; repeat split; assumption.
Qed.

Lemma deleteUser_removes_the_record_witness :
  find (userIs 2)
    (users (db (snd (run (AdminController.deleteUser Sample.root 2)
                       (mkSt Sample.db0 [])))))
  = None.
Proof.
  apply (proj2 (proj2 (deleteUser_removes_the_record Sample.root 2 (mkSt Sample.db0 [])
                         Sample.vera eq_refl))).
  - discriminate.
  - cbn. discriminate.
  - reflexivity.
  - cbn. repeat constructor; cbn; intuition discriminate.
Defined.

(** ** Spent refresh tokens stay spent *)

Lemma existsb_replace_first :
  forall (A : Type) (key : A -> nat) (q : A -> bool) (a a' : A) (l : list A),
    NoDup (map key l) ->
    In a l ->
    key a' = key a ->
    q a' = q a ->
    existsb q (replace_first (fun x => (key x =? key a')%nat) a' l) = existsb q l.
Proof.
  intros A key q a a' l. induction l as [|x l IH]; intros Hnd Hin Hkey Hq;
    [reflexivity|].
  cbn [map] in Hnd. inversion Hnd as [|k ks Hnotin Hnd']; subst.
  cbn. destruct (Nat.eqb_spec (key x) (key a')) as [E|E].
  - destruct Hin as [->|Hin].
    + cbn. rewrite Hq. reflexivity.
    + exfalso. apply Hnotin. rewrite E, Hkey. apply in_map. exact Hin.
  - destruct Hin as [->|Hin]; [congruence|].
    cbn. rewrite IH; auto.
Qed.

Lemma find_app_left :
  forall (A : Type) (q : A -> bool) (l l' : list A) (a : A),
    find q l = Some a -> find q (l ++ l') = Some a.
Proof.
  intros A q l l' a. induction l as [|x l IH]; intros H; [discriminate|].
  cbn in H |- *. destruct (q x); [exact H|]. apply IH. exact H.
Qed.

Lemma spent_insert :
  forall t l r,
    spent t l ->
    ~ In (RefreshToken._id r) (map RefreshToken._id l) ->
    spent t (l ++ [r]).
Proof.
  intros t l r [Hnd [r0 [Hfind Hr0]]] Hfresh. split.
  - rewrite map_app. cbn.
    apply NoDup_app; [exact Hnd | repeat constructor; intros [] |].
    intros k Hk [<-|[]]. exact (Hfresh Hk).
  - exists r0. split; [|exact Hr0]. apply find_app_left. exact Hfind.
Qed.

Lemma spent_save :
  forall t t' l r0 r',
    spent t l ->
    find (tokenIs t') l = Some r0 ->
    RefreshToken._id r' = RefreshToken._id r0 ->
    RefreshToken.token r' = RefreshToken.token r0 ->
    RefreshToken.isActive r' = false ->
    spent t (replace_first
               (fun x => (RefreshToken._id x =? RefreshToken._id r')%nat) r' l).
Proof.
  intros t t' l r0 r' [Hnd [r [Hfind Hr]]] Hfind' Hid Htok Hact. split.
  - rewrite (replace_first_keys RefreshToken.t RefreshToken._id). exact Hnd.
  - destruct (tokenIs t r0) eqn:Hhit.
    + exists r'. split; [|exact Hact].
      apply (find_replace_first_hit RefreshToken.t RefreshToken._id _ r0); auto.
      * pose proof (find_some _ _ Hfind') as [Hin Ht'].
        unfold tokenIs in Hhit, Ht'.
        apply String.eqb_eq in Hhit, Ht'.
        assert (E : t' = t) by congruence. rewrite <- E. exact Hfind'.
      * unfold tokenIs in *. rewrite Htok. exact Hhit.
    + exists r. split; [|exact Hr].
      rewrite (find_replace_first_miss RefreshToken.t RefreshToken._id _ r0); auto.
      * apply find_some in Hfind'. tauto.
      * unfold tokenIs in *. rewrite Htok. exact Hhit.
Qed.

Lemma find_map_same :
  forall (A : Type) (q : A -> bool) (f : A -> A) (l : list A),
    (forall x, q (f x) = q x) ->
    find q (map f l) = option_map f (find q l).
Proof.
  intros A q f l Hq. induction l as [|x l IH]; [reflexivity|].
  cbn. rewrite Hq. destruct (q x); [reflexivity|exact IH].
Qed.

Lemma spent_revokeAll :
  forall t l now ip userId,
    spent t l ->
    spent t (map (fun r => if RefreshTokens.matches userId r
                           then RefreshToken.revoked now ip r else r) l).
Proof.
  intros t l now ip userId [Hnd [r [Hfind Hr]]]. split.
  - rewrite map_map.
    erewrite map_ext; [exact Hnd|].
    intros x. cbn. destruct (RefreshTokens.matches userId x); reflexivity.
  - rewrite find_map_same.
    + rewrite Hfind. cbn. eexists. split; [reflexivity|].
      destruct (RefreshTokens.matches userId r); [reflexivity|exact Hr].
    + intros x. unfold tokenIs.
      destruct (RefreshTokens.matches userId x); reflexivity.
Qed.

(** A spent token is answered with 401. *)
Lemma spent_refresh_401 :
  forall (P : Primitives) t env fs d body,
    spent t (refreshTokens d) ->
    t <> "" ->
    field body "refreshToken" = Some t ->
    exec (AuthControllerV2.refreshToken env body) fs d
    = (Next (mkErr "Refresh token is expired or revoked" 401), d).
Proof.
  intros P t env fs d body [_ [r [Hfind Hr]]] Hne Hfield.
  unfold AuthControllerV2.refreshToken. rewrite Hfield.
  rewrite (nonempty_truthy _ Hne). unfold_monad.
  unfold tokenIs in Hfind. rewrite Hfind.
  unfold RefreshToken.isValid. rewrite Hr. reflexivity.
Qed.

Ltac unfold_handlers :=
  unfold AuthControllerV2.register, AuthControllerV2.login,
    AuthControllerV2.refreshToken, AuthControllerV2.logout,
    AuthControllerV2.logoutAll, AuthControllerV2.changePassword,
    AuthControllerV2.forgotPassword, AuthControllerV2.resetPassword,
    AuthControllerV2.generateRefreshToken, AuthControllerV2.lowered,
    AdminController.createUser, AdminController.changeUserRole,
    AdminController.deleteUser, AdminController.activateUser.

(** The collection reached at a leaf of a handler is the old one after
    inserts, saves of revoked records and bulk revocations. *)
Ltac spent_leaf :=
  cbn [db users refreshTokens fst snd];
  repeat first
    [ assumption
    | apply spent_revokeAll
    | apply spent_insert;
      [ | rewrite ?(replace_first_keys RefreshToken.t RefreshToken._id);
          apply ObjectId_fresh ]
    | eapply spent_save; [ | eassumption | reflexivity | reflexivity | reflexivity ] ].

Lemma handle_keeps_spent :
  forall (P : Primitives) t env rq fs d,
    spent t (refreshTokens d) ->
    spent t (refreshTokens (snd (exec (handle env rq) fs d))).
Proof.
  intros P t env rq fs d Hspent.
  destruct rq; cbn [handle]; unfold_handlers; unfold_monad.
  all: repeat (split_match; cbn [db users refreshTokens fst snd]; try assumption).
  all: spent_leaf.
Qed.

Lemma boot_keeps_tokens :
  forall (P : Primitives) e p st,
    refreshTokens (db (Bootstrap.boot e p st)) = refreshTokens (db st).
Proof.
  intros P e p [d fs]. unfold Bootstrap.boot, Bootstrap.bootstrapOwner.
  unfold_monad.
  repeat (split_match; cbn [db users refreshTokens fst snd]; try reflexivity).
Qed.

Lemma later_keeps_spent :
  forall (P : Primitives) t d d',
    later d d' -> spent t (refreshTokens d) -> spent t (refreshTokens d').
Proof.
  intros P t d d' Hlater. induction Hlater as [d|d d' env fs rq _ IH|d d' e p fs _ IH|d d' us _ IH];
    intros Hspent.
  - exact Hspent.
  - apply handle_keeps_spent. apply IH. exact Hspent.
  - rewrite boot_keeps_tokens. cbn [db]. apply IH. exact Hspent.
  - cbn [refreshTokens]. apply IH. exact Hspent.
Qed.

Lemma rotated_is_spent :
  forall t l r env,
    NoDup (map RefreshToken._id l) ->
    find (tokenIs t) l = Some r ->
    find (tokenIs t)
      (replace_first
         (fun x => (RefreshToken._id x =? RefreshToken._id (rotated env r))%nat)
         (rotated env r) l)
    = Some (rotated env r).
Proof.
  intros t l r env Hnd Hfind.
  apply (find_replace_first_hit RefreshToken.t RefreshToken._id _ r); auto.
  apply find_some in Hfind. exact (proj2 Hfind).
Qed.

Lemma isValid_true :
  forall now r,
    RefreshToken.isActive r = true ->
    RefreshToken.revokedAt r = None ->
    now < RefreshToken.expiresAt r ->
    RefreshToken.isValid now r = true.
Proof.
  intros now r Hact Hrev Hexp. unfold RefreshToken.isValid, RefreshToken.isExpired.
  rewrite Hact, Hrev. cbn. apply Z.leb_gt in Hexp. rewrite Hexp. reflexivity.
Qed.

Lemma toHex_nonempty :
  forall n src, toHex (randomBytes (S n) src) <> "".
Proof.
  intros n src. unfold randomBytes. cbn [seq map toHex]. discriminate.
Qed.

(** A rotation that succeeds leaves the presented token spent and
    answers with the token it drew. *)
Lemma refresh_success_spends :
  forall (P : Primitives) env body fs d t,
    NoDup (map RefreshToken._id (refreshTokens d)) ->
    field body "refreshToken" = Some t ->
    succeeded (fst (exec (AuthControllerV2.refreshToken env body) fs d)) = true ->
    t <> ""
    /\ spent t (refreshTokens (snd (exec (AuthControllerV2.refreshToken env body) fs d)))
    /\ issued (fst (exec (AuthControllerV2.refreshToken env body) fs d))
       = Some (drawnToken env).
Proof.
  intros P env body fs d t Hnd Hfield.
  unfold AuthControllerV2.refreshToken, AuthControllerV2.generateRefreshToken.
  rewrite Hfield.
  destruct (truthy (Some t)) eqn:Ht; unfold_monad; [|discriminate].
  apply truthy_nonempty in Ht.
  repeat (split_match; cbn [db users refreshTokens fst snd succeeded]; try discriminate).
  all: intros _; split; [exact Ht|split; [|reflexivity]].
  all: apply spent_insert;
    [ | rewrite (replace_first_keys RefreshToken.t RefreshToken._id);
        apply ObjectId_fresh ].
  all: match goal with
       | H : find _ (refreshTokens _) = Some ?r |- _ =>
           split;
           [ rewrite (replace_first_keys RefreshToken.t RefreshToken._id); exact Hnd
           | eexists; split;
             [ apply (rotated_is_spent t _ r env Hnd H) | reflexivity ] ]
       end.
Qed.

(** A valid record of an active user is rotated, when the database takes
    both writes and the drawn token is new. *)
Lemma refresh_valid_succeeds :
  forall (P : Primitives) env body fs d t r u,
    field body "refreshToken" = Some t ->
    t <> "" ->
    find (tokenIs t) (refreshTokens d) = Some r ->
    RefreshToken.isValid (now env) r = true ->
    find (userIs (RefreshToken.userId r)) (users d) = Some u ->
    User.isActive u = true ->
    writes_accepted fs = true ->
    existsb (tokenIs (drawnToken env))
      (replace_first
         (fun x => (RefreshToken._id x =? RefreshToken._id (rotated env r))%nat)
         (rotated env r) (refreshTokens d)) = false ->
    fst (exec (AuthControllerV2.refreshToken env body) fs d)
    = Sent 200
        (JObj [ ("success", JBool true);
                ("message", JStr "Token refreshed successfully");
                ("data",
                 JObj [ ("user", JObj (AuthControllerV2.userSummary u));
                        ("accessToken", JStr (Users.getSignedJwtToken u));
                        ("refreshToken", JStr (drawnToken env)) ]) ]).
Proof.
  intros P env body fs d t r u Hfield Hne Hfind Hvalid Huser Hactive Hfs Hfresh.
  unfold AuthControllerV2.refreshToken, AuthControllerV2.generateRefreshToken.
  rewrite Hfield, (nonempty_truthy _ Hne). unfold_monad.
  unfold tokenIs in Hfind. rewrite Hfind. unfold_monad. rewrite Hvalid. unfold_monad.
  unfold userIs in Huser. rewrite Huser. unfold_monad. rewrite Hactive. unfold_monad.
  unfold tokenIs, rotated, drawnToken in Hfresh.
  destruct fs as [|[|] [|[|] fs]]; try discriminate Hfs;
    cbn [faults db users refreshTokens fst snd RefreshToken.token];
    rewrite Hfresh; reflexivity.
Qed.

(** C2. Once [refresh(T0)] has succeeded and returned the refresh token
    T1, every later [refresh(T0)] is answered with 401; and later
    [refresh(T1)] succeeds whenever the record of T1 is active, not
    revoked and not expired and its user exists and is active (the
    database taking the two writes of the rotation, the token drawn for
    the successor being new).  The collection is one whose records have
    distinct ids. *)
Theorem refresh_rotation_single_use :
  forall (P : Primitives) env fs d body T0 T1,
    NoDup (map RefreshToken._id (refreshTokens d)) ->
    field body "refreshToken" = Some T0 ->
    succeeded (fst (exec (AuthControllerV2.refreshToken env body) fs d)) = true ->
    issued (fst (exec (AuthControllerV2.refreshToken env body) fs d)) = Some T1 ->
    forall d',
      later (snd (exec (AuthControllerV2.refreshToken env body) fs d)) d' ->
      (forall env' fs' body',
          field body' "refreshToken" = Some T0 ->
          exists msg,
            fst (exec (AuthControllerV2.refreshToken env' body') fs' d')
            = Next (mkErr msg 401))
      /\ (forall env' fs' body' r u,
             field body' "refreshToken" = Some T1 ->
             find (tokenIs T1) (refreshTokens d') = Some r ->
             RefreshToken.isActive r = true ->
             RefreshToken.revokedAt r = None ->
             now env' < RefreshToken.expiresAt r ->
             find (userIs (RefreshToken.userId r)) (users d') = Some u ->
             User.isActive u = true ->
             writes_accepted fs' = true ->
             existsb (tokenIs (drawnToken env')) (refreshTokens d') = false ->
             succeeded (fst (exec (AuthControllerV2.refreshToken env' body') fs' d'))
             = true
             /\ issued (fst (exec (AuthControllerV2.refreshToken env' body') fs' d'))
                = Some (drawnToken env')).
Proof.
  intros P env fs d body T0 T1 Hnd Hfield Hok Hissued d' Hlater.
  destruct (refresh_success_spends P env body fs d T0 Hnd Hfield Hok)
    as [Hne [Hspent Hdrawn]].
  pose proof (later_keeps_spent P T0 _ _ Hlater Hspent) as Hspent'.
  split.
  - intros env' fs' body' Hfield'.
    rewrite (spent_refresh_401 P T0 env' fs' d' body' Hspent' Hne Hfield').
    eexists. reflexivity.
  - intros env' fs' body' r u Hfield' Hfind Hact Hrev Hexp Huser Huact Hfs Hfresh.
    assert (HT1 : T1 = drawnToken env) by congruence.
    assert (Hne1 : T1 <> "") by (rewrite HT1; apply toHex_nonempty).
    assert (Hfresh' :
              existsb (tokenIs (drawnToken env'))
                (replace_first
                   (fun x => (RefreshToken._id x =? RefreshToken._id (rotated env' r))%nat)
                   (rotated env' r) (refreshTokens d')) = false).
    { rewrite (existsb_replace_first RefreshToken.t RefreshToken._id _ r);
        [exact Hfresh | exact (proj1 Hspent') | | reflexivity | reflexivity].
      apply find_some in Hfind. exact (proj1 Hfind). }
    rewrite (refresh_valid_succeeds P env' body' fs' d' T1 r u Hfield' Hne1 Hfind
               (isValid_true _ _ Hact Hrev Hexp) Huser Huact Hfs Hfresh').
    split; reflexivity.
Qed.

Lemma refresh_rotation_single_use_witness :
  (exists msg,
      fst (exec (AuthControllerV2.refreshToken (P := Sample.primitives) Sample.env1
                   [("refreshToken", "t-vera")]) []
             (snd (exec (AuthControllerV2.refreshToken (P := Sample.primitives)
                           Sample.env0 [("refreshToken", "t-vera")]) [] Sample.db0)))
      = Next (mkErr msg 401))
  /\ succeeded
       (fst (exec (AuthControllerV2.refreshToken (P := Sample.primitives) Sample.env1
                     [("refreshToken", drawnToken Sample.env0)]) []
               (snd (exec (AuthControllerV2.refreshToken (P := Sample.primitives)
                             Sample.env0 [("refreshToken", "t-vera")]) [] Sample.db0))))
     = true.
Proof.
  assert (Hnd : NoDup (map RefreshToken._id (refreshTokens Sample.db0))).
  { cbn. repeat constructor; cbn; intuition discriminate. }
  destruct (refresh_rotation_single_use Sample.primitives Sample.env0 [] Sample.db0
              [("refreshToken", "t-vera")] "t-vera" (drawnToken Sample.env0)
              Hnd eq_refl eq_refl eq_refl _ (later_now _)) as [Hold Hnew].
  split.
  - apply Hold. reflexivity.
  - eapply (Hnew Sample.env1 [] [("refreshToken", drawnToken Sample.env0)]
              (RefreshToken.mk 4 (drawnToken Sample.env0) 2 604801000
                 (Some "10.0.0.1") None None None true) Sample.vera);
      try reflexivity.
Defined.

(** ** Rotation and persistence failures *)

(** C3 as stated fails: the database accepts the revocation, refuses the
    insert of the successor, and the presented record is left revoked. *)
Lemma rotation_does_not_fail_closed :
  ~ rotation_fails_closed (P := Sample.primitives).
Proof.
  intros H.
  specialize (H Sample.env0 [("refreshToken", "t-vera")] [false; true] Sample.db0
                "t-vera" (Sample.session 2 "t-vera" 2) "MongoError"
                eq_refl eq_refl eq_refl eq_refl).
  vm_compute in H. discriminate H.
Qed.

(** C3 (amended). [refreshToken] revokes the presented record before it
    persists the successor.  When the record is valid and its user
    active: if the database refuses the revocation write, the handler
    fails and the database is unchanged; if it accepts the revocation and
    the insert of the successor fails (refused write, or token already
    present), the handler fails, the presented record stays revoked and
    linked to the drawn token, and no record is added. *)
Theorem rotation_revokes_before_persisting :
  forall (P : Primitives) env body fs d t r u,
    NoDup (map RefreshToken._id (refreshTokens d)) ->
    field body "refreshToken" = Some t ->
    t <> "" ->
    find (tokenIs t) (refreshTokens d) = Some r ->
    RefreshToken.isValid (now env) r = true ->
    find (userIs (RefreshToken.userId r)) (users d) = Some u ->
    User.isActive u = true ->
    (hd false fs = true ->
     exists error,
       exec (AuthControllerV2.refreshToken env body) fs d = (Threw error, d))
    /\ (hd false fs = false ->
        hd false (tl fs) = true
        \/ existsb (tokenIs (drawnToken env)) (refreshTokens d) = true ->
        exists error,
          fst (exec (AuthControllerV2.refreshToken env body) fs d) = Threw error
          /\ find (tokenIs t)
               (refreshTokens (snd (exec (AuthControllerV2.refreshToken env body) fs d)))
             = Some (rotated env r)
          /\ List.length
               (refreshTokens (snd (exec (AuthControllerV2.refreshToken env body) fs d)))
             = List.length (refreshTokens d)
          /\ users (snd (exec (AuthControllerV2.refreshToken env body) fs d)) = users d).
Proof.
  intros P env body fs d t r u Hnd Hfield Hne Hfind Hvalid Huser Hactive.
  pose proof (rotated_is_spent t _ r env Hnd Hfind) as Hrot.
  assert (Hdup :
            existsb (tokenIs (drawnToken env))
              (replace_first
                 (fun x => (RefreshToken._id x =? RefreshToken._id (rotated env r))%nat)
                 (rotated env r) (refreshTokens d))
            = existsb (tokenIs (drawnToken env)) (refreshTokens d)).
  { apply (existsb_replace_first RefreshToken.t RefreshToken._id _ r);
      [exact Hnd | | reflexivity | reflexivity].
    apply find_some in Hfind. exact (proj1 Hfind). }
  pose proof (replace_first_length RefreshToken.t
                (fun x => (RefreshToken._id x =? RefreshToken._id (rotated env r))%nat)
                (rotated env r) (refreshTokens d)) as Hlen.
  unfold AuthControllerV2.refreshToken, AuthControllerV2.generateRefreshToken.
  rewrite Hfield, (nonempty_truthy _ Hne). unfold_monad.
  unfold tokenIs in Hfind. rewrite Hfind. unfold_monad. rewrite Hvalid. unfold_monad.
  unfold userIs in Huser. rewrite Huser. unfold_monad. rewrite Hactive. unfold_monad.
  unfold tokenIs, rotated, drawnToken in *.
  split.
  - intros Hfs. destruct fs as [|[|] fs]; try discriminate Hfs.
    cbn [faults db fst snd]. eexists. reflexivity.
  - intros Hfs Hsecond. destruct fs as [|[|] fs]; try discriminate Hfs.
    + destruct Hsecond as [Hsecond|Hsecond]; [discriminate Hsecond|].
      cbn [faults db users refreshTokens fst snd RefreshToken.token].
      rewrite Hdup, Hsecond. cbn [fst snd db users refreshTokens].
      eexists. repeat split; [exact Hrot|exact Hlen].
    + destruct fs as [|[|] fs];
        cbn [faults db users refreshTokens fst snd RefreshToken.token hd tl] in *.
      * destruct Hsecond as [Hsecond|Hsecond]; [discriminate Hsecond|].
        rewrite Hdup, Hsecond. cbn [fst snd db users refreshTokens].
        eexists. repeat split; [exact Hrot|exact Hlen].
      * eexists. repeat split; [exact Hrot|exact Hlen].
      * destruct Hsecond as [Hsecond|Hsecond]; [discriminate Hsecond|].
        rewrite Hdup, Hsecond. cbn [fst snd db users refreshTokens].
        eexists. repeat split; [exact Hrot|exact Hlen].
Qed.

Lemma rotation_revokes_before_persisting_witness :
  exists error,
    fst (exec (AuthControllerV2.refreshToken (P := Sample.primitives) Sample.env0
                 [("refreshToken", "t-vera")]) [false; true] Sample.db0)
    = Threw error
    /\ find (tokenIs "t-vera")
         (refreshTokens
            (snd (exec (AuthControllerV2.refreshToken (P := Sample.primitives)
                          Sample.env0 [("refreshToken", "t-vera")])
                    [false; true] Sample.db0)))
       = Some (rotated Sample.env0 (Sample.session 2 "t-vera" 2)).
Proof.
  assert (Hnd : NoDup (map RefreshToken._id (refreshTokens Sample.db0))).
  { cbn. repeat constructor; cbn; intuition discriminate. }
  destruct (proj2 (rotation_revokes_before_persisting Sample.primitives Sample.env0
                     [("refreshToken", "t-vera")] [false; true] Sample.db0 "t-vera"
                     (Sample.session 2 "t-vera" 2) Sample.vera
                     Hnd eq_refl ltac:(discriminate) eq_refl eq_refl eq_refl eq_refl)
              eq_refl (or_introl eq_refl)) as [error [H1 [H2 _]]].
  exists error. split; assumption.
Defined.

(** ** The delete route *)

Lemma requireRole_pass :
  forall (P : Primitives) roles authorization now st u,
    fst (Auth.requireRole roles authorization now st) = Go u ->
    snd (Auth.requireRole roles authorization now st) = st
    /\ find (userIs (User._id u)) (users (db st)) = Some u
    /\ User.isActive u = true
    /\ includes roles (role_name (User.role u)) = true.
Proof.
  intros P roles authorization now [d fs] u. unfold Auth.requireRole, userIs.
  unfold_monad.
  repeat (split_match; cbn [fst snd db]; try discriminate).
  intros H. inversion H; subst u. clear H.
  repeat split.
  - match goal with
    | Hfind : find _ (users d) = Some _ |- _ =>
        rewrite (find_userIs_id _ _ _ Hfind); exact Hfind
    end.
  - match goal with
    | H : negb (User.isActive _) = false |- _ => apply negb_false_iff in H; exact H
    end.
  - match goal with
    | H : negb (includes _ _) = false |- _ => apply negb_false_iff in H; exact H
    end.
Qed.

(** Behind [requireRole('owner')] the requester is an owner, so a request
    to delete oneself is refused as the deletion of an owner. *)
Lemma route_refuses_self_deletion :
  forall (P : Primitives) authorization now st u,
    fst (Auth.requireRole ["owner"] authorization now st) = Go u ->
    run (Routes.deleteUser authorization now (User._id u)) st
    = (Next (mkErr "Cannot delete an owner account" 403), st).
Proof.
  intros P authorization now st u Hpass.
  destruct (requireRole_pass P _ _ _ _ _ Hpass) as [Hst [Hfind [_ Hrole]]].
  unfold Routes.deleteUser, run, bind.
  destruct (Auth.requireRole ["owner"] authorization now st) as [res st'].
  cbn [fst snd] in Hpass, Hst. subst res st'.
  unfold AdminController.deleteUser. unfold_monad.
  unfold userIs in Hfind. rewrite Hfind.
  assert (Howner : is_owner (User.role u) = true)
    by (destruct (User.role u); [reflexivity|discriminate Hrole..]).
  rewrite Howner. reflexivity.
Qed.

(* ================================================================== *)
(** * Further properties of the middleware *)

(** [requireRole(...roles)] is [protect] followed by [authorize(...roles)]:
    the same verdict, the same [req.user], the same error. *)
Theorem requireRole_is_protect_then_authorize :
  forall (P : Primitives) roles authorization now st,
    Auth.requireRole roles authorization now st
    = Authorize.protected roles authorization now st.
Proof.
  intros P roles authorization now [d fs].
  unfold Authorize.protected, Authorize.authorize, Auth.requireRole, Auth.protect.
  unfold_monad.
  repeat (split_match; cbn [fst snd db]; try reflexivity; try discriminate).
Qed.

Lemma split_no_blank :
  forall t, no_blank t = true -> split " " t = [t].
Proof.
  induction t as [|c t IH]; intros H; [reflexivity|].
  cbn in H. apply andb_true_iff in H. destruct H as [Hc Ht].
  cbn [split]. apply negb_true_iff in Hc. rewrite Hc, (IH Ht). reflexivity.
Qed.

Lemma bearerToken_bearer :
  forall t, no_blank t = true -> Auth.bearerToken (bearer t) = Some t.
Proof.
  intros t H. unfold Auth.bearerToken, bearer.
  change (truthy (Some ("Bearer " ++ t)) && startsWith ("Bearer " ++ t) "Bearer")
    with true.
  cbn [andb]. change (split " " ("Bearer " ++ t)) with ("Bearer" :: split " " t).
  rewrite (split_no_blank t H). reflexivity.
Qed.

(** The socket handshake and the HTTP middleware accept the same
    credentials: a token without a blank is accepted by [socketAuth] for
    a user exactly when [protect] accepts the header "Bearer <token>" for
    that user. *)
Theorem socketAuth_agrees_with_protect :
  forall (P : Primitives) t now d fs u,
    no_blank t = true ->
    (Socket.socketAuth (Some t) now d = Socket.Accepted u
     <-> fst (Auth.protect (bearer t) now (mkSt d fs)) = Go u).
Proof.
  intros P t now d fs u Ht.
  unfold Socket.socketAuth, Auth.protect. rewrite (bearerToken_bearer t Ht).
  unfold_monad.
  destruct (truthy (Some t)); cbn [negb fst];
    [|split; intros H; discriminate H].
  destruct (jwt_verify now t) as [e|decoded]; cbn [fst];
    [split; intros H; discriminate H|].
  cbn [db].
  destruct (find _ (users d)) as [user|]; cbn [fst];
    [|split; intros H; discriminate H].
  destruct (User.isActive user); cbn [negb fst];
    split; intros H; try discriminate H; inversion H; reflexivity.
Qed.

Lemma socketAuth_agrees_with_protect_witness :
  Socket.socketAuth (P := Sample.primitives) (Some "jwt.viewer") 0 Sample.db0
  = Socket.Accepted Sample.vera.
Proof.
  apply (proj2 (socketAuth_agrees_with_protect Sample.primitives "jwt.viewer" 0
                  Sample.db0 [] Sample.vera eq_refl)).
  reflexivity.
Defined.

(** Through the route [DELETE /users/:id] the guard "Cannot delete your
    own account" never answers: the requester let in by
    [requireRole('owner')] is an owner, so a request for the requester's
    own id is refused as the deletion of an owner. *)
Theorem route_self_guard_never_answers :
  forall (P : Primitives) authorization now st userId,
    fst (run (Routes.deleteUser authorization now userId) st)
    <> Next (mkErr "Cannot delete your own account" 403).
Proof.
  intros P authorization now st userId.
  unfold Routes.deleteUser, run, bind.
  destruct (Auth.requireRole ["owner"] authorization now st) as [res st'] eqn:Hreq.
  destruct res as [u|o].
  - assert (Hpass : fst (Auth.requireRole ["owner"] authorization now st) = Go u)
      by (rewrite Hreq; reflexivity).
    destruct (requireRole_pass P _ _ _ _ _ Hpass) as [Hst [Hfind [_ Hrole]]].
    rewrite Hreq in Hst. cbn [snd] in Hst. subst st'.
    assert (Howner : is_owner (User.role u) = true)
      by (destruct (User.role u); [reflexivity|discriminate Hrole..]).
    destruct st as [d fs]. cbn [db] in Hfind. unfold userIs in Hfind.
    unfold AdminController.deleteUser. unfold_monad.
    destruct (find (fun x => (User._id x =? userId)%nat) (users d))
      as [target|] eqn:Htarget; cbn [fst]; [|discriminate].
    destruct (is_owner (User.role target)) eqn:Htowner; cbn [fst]; [discriminate|].
    destruct (Nat.eqb_spec (User._id target) (User._id u)) as [E|E]; cbn [fst].
    + exfalso.
      rewrite <- E, (find_userIs_id _ _ _ Htarget), Htarget in Hfind.
      inversion Hfind; subst target. congruence.
    + destruct fs as [|[|] fs]; cbn [fst]; discriminate.
  - cbn [fst].
    unfold Auth.requireRole in Hreq. destruct st as [d fs].
    revert Hreq. unfold_monad.
    repeat (split_match; cbn [fst snd db]; try discriminate).
    all: intros H; inversion H; subst; cbn [append]; discriminate.
Qed.

(* ================================================================== *)
(** * Further properties of the permission table *)

Lemma table_role :
  forall r, r <> owner ->
    exists perms, assoc (role_name r) Permissions.PERMISSIONS = Some perms.
Proof.
  intros [] H; [contradiction|eexists; reflexivity..].
Qed.

Lemma hasPermission_granted :
  forall u perms p st,
    assoc (role_name (User.role u)) Permissions.PERMISSIONS = Some perms ->
    (fst (Permissions.hasPermission p (Some u) st) = Go tt
     <-> PermissionSets.granted perms p = true).
Proof.
  intros u perms p st Hperms.
  unfold Permissions.hasPermission, PermissionSets.granted. rewrite Hperms.
  destruct (assoc p perms) as [[|]|]; cbn; split; intros H;
    try reflexivity; discriminate H.
Qed.

(** For a user whose role has an entry in the table, [hasAllPermissions]
    lets the request through exactly when [hasPermission] would for each
    listed permission, and [hasAnyPermission] exactly when it would for one
    of them; so an empty list passes the first and is refused by the
    second. *)
Theorem permission_sets_agree_with_hasPermission :
  forall u st permissions,
    User.role u <> owner ->
    (fst (PermissionSets.hasAllPermissions permissions (Some u) st) = Go tt
     <-> forall p, In p permissions ->
                   fst (Permissions.hasPermission p (Some u) st) = Go tt)
    /\ (fst (PermissionSets.hasAnyPermission permissions (Some u) st) = Go tt
        <-> exists p, In p permissions
                      /\ fst (Permissions.hasPermission p (Some u) st) = Go tt).
Proof.
  intros u st permissions Hrole.
  destruct (table_role _ Hrole) as [perms Hperms].
  unfold PermissionSets.hasAllPermissions, PermissionSets.hasAnyPermission.
  rewrite Hperms. split.
  - destruct (forallb (PermissionSets.granted perms) permissions) eqn:Hall; cbn.
    + split; [intros _|reflexivity].
      intros p Hin. apply (hasPermission_granted u perms p st Hperms).
      rewrite forallb_forall in Hall. apply Hall. exact Hin.
    + split; [intros H; discriminate H|].
      intros H. exfalso.
      assert (Htrue : forallb (PermissionSets.granted perms) permissions = true).
      { apply forallb_forall. intros p Hin.
        apply (hasPermission_granted u perms p st Hperms). apply H. exact Hin. }
      congruence.
  - destruct (existsb (PermissionSets.granted perms) permissions) eqn:Hany; cbn.
    + split; [intros _|reflexivity].
      apply existsb_exists in Hany. destruct Hany as [p [Hin Hp]].
      exists p. split; [exact Hin|].
      apply (hasPermission_granted u perms p st Hperms). exact Hp.
    + split; [intros H; discriminate H|].
      intros [p [Hin Hp]]. exfalso.
      assert (Htrue : existsb (PermissionSets.granted perms) permissions = true).
      { apply existsb_exists. exists p. split; [exact Hin|].
        apply (hasPermission_granted u perms p st Hperms). exact Hp. }
      congruence.
Qed.

Lemma permission_sets_agree_with_hasPermission_witness :
  fst (PermissionSets.hasAllPermissions [] (Some Sample.vera) (mkSt Sample.db0 []))
  = Go tt
  /\ fst (PermissionSets.hasAnyPermission ["modifySignals"; "viewMap"]
            (Some Sample.vera) (mkSt Sample.db0 []))
     = Go tt.
Proof.
  split.
  - apply (proj1 (permission_sets_agree_with_hasPermission Sample.vera
                    (mkSt Sample.db0 []) [] ltac:(discriminate))).
    intros p [].
  - apply (proj2 (permission_sets_agree_with_hasPermission Sample.vera
                    (mkSt Sample.db0 []) ["modifySignals"; "viewMap"]
                    ltac:(discriminate))).
    exists "viewMap". split; [right; left; reflexivity|reflexivity].
Defined.




(* ================================================================== *)
(** * Further properties of the refresh tokens *)

Lemma isValid_later :
  forall now now' r,
    RefreshToken.isValid now r = false ->
    now <= now' ->
    RefreshToken.isValid now' r = false.
Proof.
  intros now now' r H Hle. unfold RefreshToken.isValid, RefreshToken.isExpired in *.
  destruct (RefreshToken.isActive r); [|reflexivity].
  destruct (RefreshToken.revokedAt r); [apply andb_false_r|].
  cbn in H |- *. rewrite andb_true_r in *.
  apply negb_false_iff in H. apply Z.leb_le in H.
  apply negb_false_iff. apply Z.leb_le. lia.
Qed.

Lemma lapsed_insert :
  forall now t l r,
    lapsed now t l ->
    ~ In (RefreshToken._id r) (map RefreshToken._id l) ->
    lapsed now t (l ++ [r]).
Proof.
  intros now t l r [Hnd [r0 [Hfind Hr0]]] Hfresh. split.
  - rewrite map_app. cbn.
    apply NoDup_app; [exact Hnd | repeat constructor; intros [] |].
    intros k Hk [<-|[]]. exact (Hfresh Hk).
  - exists r0. split; [|exact Hr0]. apply find_app_left. exact Hfind.
Qed.

Lemma lapsed_save :
  forall now t t' l r0 r',
    lapsed now t l ->
    find (tokenIs t') l = Some r0 ->
    RefreshToken._id r' = RefreshToken._id r0 ->
    RefreshToken.token r' = RefreshToken.token r0 ->
    RefreshToken.isValid now r' = false ->
    lapsed now t (replace_first
                    (fun x => (RefreshToken._id x =? RefreshToken._id r')%nat) r' l).
Proof.
  intros now t t' l r0 r' [Hnd [r [Hfind Hr]]] Hfind' Hid Htok Hinv. split.
  - rewrite (replace_first_keys RefreshToken.t RefreshToken._id). exact Hnd.
  - destruct (tokenIs t r0) eqn:Hhit.
    + exists r'. split; [|exact Hinv].
      apply (find_replace_first_hit RefreshToken.t RefreshToken._id _ r0); auto.
      * pose proof (find_some _ _ Hfind') as [Hin Ht'].
        unfold tokenIs in Hhit, Ht'.
        apply String.eqb_eq in Hhit, Ht'.
        assert (E : t' = t) by congruence. rewrite <- E. exact Hfind'.
      * unfold tokenIs in *. rewrite Htok. exact Hhit.
    + exists r. split; [|exact Hr].
      rewrite (find_replace_first_miss RefreshToken.t RefreshToken._id _ r0); auto.
      * apply find_some in Hfind'. tauto.
      * unfold tokenIs in *. rewrite Htok. exact Hhit.
Qed.

Lemma lapsed_revokeAll :
  forall now t l n ip userId,
    lapsed now t l ->
    lapsed now t (map (fun r => if RefreshTokens.matches userId r
                                then RefreshToken.revoked n ip r else r) l).
Proof.
  intros now t l n ip userId [Hnd [r [Hfind Hr]]]. split.
  - rewrite map_map.
    erewrite map_ext; [exact Hnd|].
    intros x. cbn. destruct (RefreshTokens.matches userId x); reflexivity.
  - rewrite find_map_same.
    + rewrite Hfind. cbn. eexists. split; [reflexivity|].
      destruct (RefreshTokens.matches userId r); [reflexivity|exact Hr].
    + intros x. unfold tokenIs.
      destruct (RefreshTokens.matches userId x); reflexivity.
Qed.

Ltac lapsed_leaf :=
  cbn [db users refreshTokens fst snd];
  repeat first
    [ assumption
    | apply lapsed_revokeAll
    | apply lapsed_insert;
      [ | rewrite ?(replace_first_keys RefreshToken.t RefreshToken._id);
          apply ObjectId_fresh ]
    | eapply lapsed_save; [ | eassumption | reflexivity | reflexivity | reflexivity ] ].

Lemma handle_keeps_lapsed :
  forall (P : Primitives) now t env rq fs d,
    lapsed now t (refreshTokens d) ->
    lapsed now t (refreshTokens (snd (exec (handle env rq) fs d))).
Proof.
  intros P now t env rq fs d Hlapsed.
  destruct rq; cbn [handle]; unfold_handlers; unfold_monad.
  all: repeat (split_match; cbn [db users refreshTokens fst snd]; try assumption).
  all: lapsed_leaf.
Qed.

Lemma later_keeps_lapsed :
  forall (P : Primitives) now t d d',
    later d d' -> lapsed now t (refreshTokens d) -> lapsed now t (refreshTokens d').
Proof.
  intros P now t d d' Hlater.
  induction Hlater as [d|d d' env fs rq _ IH|d d' e p fs _ IH|d d' us _ IH];
    intros Hlapsed.
  - exact Hlapsed.
  - apply handle_keeps_lapsed. apply IH. exact Hlapsed.
  - rewrite boot_keeps_tokens. cbn [db]. apply IH. exact Hlapsed.
  - cbn [refreshTokens]. apply IH. exact Hlapsed.
Qed.

Lemma lapsed_refresh_401 :
  forall (P : Primitives) now0 t env fs d body,
    lapsed now0 t (refreshTokens d) ->
    now0 <= now env ->
    t <> "" ->
    field body "refreshToken" = Some t ->
    exec (AuthControllerV2.refreshToken env body) fs d
    = (Next (mkErr "Refresh token is expired or revoked" 401), d).
Proof.
  intros P now0 t env fs d body [_ [r [Hfind Hr]]] Hle Hne Hfield.
  unfold AuthControllerV2.refreshToken. rewrite Hfield.
  rewrite (nonempty_truthy _ Hne). unfold_monad.
  unfold tokenIs in Hfind. rewrite Hfind.
  rewrite (isValid_later _ _ _ Hr Hle). reflexivity.
Qed.

(** A refresh token whose record is not valid now (inactive, revoked or
    expired) is never accepted again: after any number of requests and
    start-ups, at any time from now on, [refresh] answers it with 401 and
    writes nothing. *)
Theorem invalid_token_stays_refused :
  forall (P : Primitives) now0 t r d,
    NoDup (map RefreshToken._id (refreshTokens d)) ->
    t <> "" ->
    find (tokenIs t) (refreshTokens d) = Some r ->
    RefreshToken.isValid now0 r = false ->
    forall d', later d d' ->
    forall env fs body,
      now0 <= now env ->
      field body "refreshToken" = Some t ->
      exec (AuthControllerV2.refreshToken env body) fs d'
      = (Next (mkErr "Refresh token is expired or revoked" 401), d').
Proof.
  intros P now0 t r d Hnd Hne Hfind Hinv d' Hlater env fs body Hle Hfield.
  apply (lapsed_refresh_401 P now0 t env fs d' body); auto.
  apply (later_keeps_lapsed P now0 t d d' Hlater).
  split; [exact Hnd|]. exists r. split; assumption.
Qed.

Lemma invalid_token_stays_refused_witness :
  exec (AuthControllerV2.refreshToken (P := Sample.primitives)
          (mkEnv 1000000 "10.0.0.3" (fun _ => Byte.x00))
          [("refreshToken", "t-root")]) []
    (snd (exec (handle (P := Sample.primitives) Sample.env0 (LogoutAll Sample.vera))
            [] Sample.db0))
  = (Next (mkErr "Refresh token is expired or revoked" 401),
     snd (exec (handle (P := Sample.primitives) Sample.env0 (LogoutAll Sample.vera))
            [] Sample.db0)).
Proof.
  apply (invalid_token_stays_refused Sample.primitives 900000 "t-root"
           (Sample.session 1 "t-root" 1) Sample.db0).
  - cbn. repeat constructor; cbn; intuition discriminate.
  - discriminate.
  - reflexivity.
  - reflexivity.
  - apply later_request. apply later_now.
  - cbn. discriminate.
  - reflexivity.
Defined.

Lemma find_filter_keep :
  forall (A : Type) (p q : A -> bool) (l : list A) (a : A),
    find p l = Some a -> q a = true -> find p (filter q l) = Some a.
Proof.
  intros A p q l a. induction l as [|x l IH]; intros Hfind Hq; [discriminate|].
  cbn in Hfind |- *. destruct (p x) eqn:Hp.
  - inversion Hfind; subst x. rewrite Hq. cbn. rewrite Hp. reflexivity.
  - destruct (q x); cbn; [rewrite Hp|]; apply IH; assumption.
Qed.

Lemma filter_partition_length :
  forall (A : Type) (p : A -> bool) (l : list A),
    (List.length (filter p l) + List.length (filter (fun x => negb (p x)) l)
     = List.length l)%nat.
Proof.
  intros A p l. induction l as [|x l IH]; [reflexivity|].
  cbn. destruct (p x); cbn; lia.
Qed.

(** [cleanupExpired] deletes the records that expired strictly before
    now and nothing else: the users are untouched; a record that has not
    expired before now is found under its token as before, revoked or not;
    every record left expires now or later; the count returned is the
    number of records deleted.  A record expiring exactly now is kept,
    although [isValid] already holds it expired. *)
Theorem cleanupExpired_deletes_only_the_expired :
  forall now0 d fs,
    users (db (snd (Housekeeping.cleanupExpired now0 (mkSt d fs)))) = users d
    /\ (forall t r,
           find (tokenIs t) (refreshTokens d) = Some r ->
           now0 <= RefreshToken.expiresAt r ->
           find (tokenIs t)
             (refreshTokens (db (snd (Housekeeping.cleanupExpired now0 (mkSt d fs)))))
           = Some r)
    /\ (forall r,
           RefreshToken.expiresAt r = now0 ->
           Housekeeping.stale now0 r = false /\ RefreshToken.isValid now0 r = false)
    /\ (hd false fs = false ->
        (forall r,
            In r (refreshTokens (db (snd (Housekeeping.cleanupExpired now0 (mkSt d fs)))))
            -> now0 <= RefreshToken.expiresAt r /\ In r (refreshTokens d))
        /\ exists n,
            fst (Housekeeping.cleanupExpired now0 (mkSt d fs)) = Go n
            /\ (n + List.length
                      (refreshTokens
                         (db (snd (Housekeeping.cleanupExpired now0 (mkSt d fs))))))%nat
               = List.length (refreshTokens d)).
Proof.
  intros now0 d fs. unfold Housekeeping.cleanupExpired. unfold_monad.
  split; [|split; [|split]].
  - destruct fs as [|[|] fs]; reflexivity.
  - intros t r Hfind Hle.
    assert (Hkeep : negb (Housekeeping.stale now0 r) = true).
    { unfold Housekeeping.stale. apply negb_true_iff. apply Z.ltb_ge. exact Hle. }
    destruct fs as [|[|] fs]; cbn [fst snd db refreshTokens];
      try exact Hfind; apply find_filter_keep; assumption.
  - intros r Hr. split.
    + unfold Housekeeping.stale. rewrite Hr. apply Z.ltb_irrefl.
    + unfold RefreshToken.isValid, RefreshToken.isExpired.
      rewrite Hr, Z.leb_refl. cbn. rewrite andb_false_r. reflexivity.
  - intros Hfs. destruct fs as [|[|] fs]; try discriminate Hfs;
      cbn [fst snd db refreshTokens].
    all: split;
      [ intros r Hin; apply filter_In in Hin; destruct Hin as [Hin Hk];
        split; [|exact Hin];
        unfold Housekeeping.stale in Hk; apply negb_true_iff in Hk;
        apply Z.ltb_ge in Hk; exact Hk
      | eexists; split; [reflexivity|apply filter_partition_length] ].
Qed.

Lemma cleanupExpired_deletes_only_the_expired_witness :
  find (tokenIs "t-vera")
    (refreshTokens (db (snd (Housekeeping.cleanupExpired 900000 (mkSt Sample.db0 [])))))
  = Some (Sample.session 2 "t-vera" 2).
Proof.
  apply (proj1 (proj2 (cleanupExpired_deletes_only_the_expired 900000 Sample.db0 []))).
  - reflexivity.
  - cbn. discriminate.
Defined.

(* ================================================================== *)
(** * Further properties of login and registration *)

Lemma find_replace_same_key :
  forall (A : Type) (key : A -> nat) (a a' : A) (l : list A),
    find (fun x => (key x =? key a')%nat) l = Some a ->
    find (fun x => (key x =? key a')%nat)
      (replace_first (fun x => (key x =? key a')%nat) a' l) = Some a'.
Proof.
  intros A key a a' l. induction l as [|x l IH]; intros H; [discriminate|].
  cbn in H |- *. destruct (key x =? key a')%nat eqn:E.
  - cbn. rewrite Nat.eqb_refl. reflexivity.
  - cbn. rewrite E. apply IH. exact H.
Qed.






Lemma find_key_of_member :
  forall (A : Type) (key : A -> nat) (a : A) (l : list A),
    In a l -> exists b, find (fun x => (key x =? key a)%nat) l = Some b.
Proof.
  intros A key a l. induction l as [|x l IH]; intros Hin; [destruct Hin|].
  cbn. destruct (key x =? key a)%nat eqn:E; [eexists; reflexivity|].
  destruct Hin as [->|Hin]; [rewrite Nat.eqb_refl in E; discriminate E|].
  exact (IH Hin).
Qed.

Lemma saved_user_is_found :
  forall (u u' : User.t) (l : list User.t),
    In u l ->
    User._id u' = User._id u ->
    find (userIs (User._id u))
      (replace_first (fun x => (User._id x =? User._id u')%nat) u' l) = Some u'.
Proof.
  intros u u' l Hin Hid. unfold userIs. rewrite <- Hid.
  destruct (find_key_of_member User.t User._id u l Hin) as [b Hb].
  rewrite <- Hid in Hb.
  exact (find_replace_same_key User.t User._id b u' l Hb).
Qed.








Lemma find_app_none :
  forall (A : Type) (p : A -> bool) (l l' : list A),
    find p l = None -> find p (l ++ l') = find p l'.
Proof.
  intros A p l l'. induction l as [|x l IH]; intros H; [reflexivity|].
  cbn in H |- *. destruct (p x); [discriminate H|]. exact (IH H).
Qed.






(* ================================================================== *)
(** * Further properties of logout and of the password handlers *)

Lemma revoked_is_found :
  forall t l r n ip,
    NoDup (map RefreshToken._id l) ->
    find (tokenIs t) l = Some r ->
    find (tokenIs t)
      (replace_first
         (fun x => (RefreshToken._id x
                    =? RefreshToken._id (RefreshToken.revoked n ip r))%nat)
         (RefreshToken.revoked n ip r) l)
    = Some (RefreshToken.revoked n ip r).
Proof.
  intros t l r n ip Hnd Hfind.
  apply (find_replace_first_hit RefreshToken.t RefreshToken._id _ r); auto.
  apply find_some in Hfind. exact (proj2 Hfind).
Qed.

(** [logout] never fails on the token it is given: without a token, with
    an empty one or with one that is not on record it answers 200 and
    changes nothing, whatever the database would do with a write. *)
Theorem logout_without_session :
  forall (P : Primitives) env fs d body,
    (field body "refreshToken" = None
     \/ field body "refreshToken" = Some ""
     \/ exists t, field body "refreshToken" = Some t
                  /\ find (tokenIs t) (refreshTokens d) = None) ->
    exec (AuthControllerV2.logout env body) fs d
    = (Sent 200 (JObj [ ("success", JBool true);
                        ("message", JStr "Logged out successfully") ]), d).
Proof.
  intros P env fs d body H. unfold AuthControllerV2.logout.
  destruct H as [H|[H|[t [H Hfind]]]]; rewrite H; try reflexivity.
  destruct (truthy (Some t)); unfold_monad; [|reflexivity].
  unfold tokenIs in Hfind. rewrite Hfind. reflexivity.
Qed.

Lemma logout_without_session_witness :
  exec (AuthControllerV2.logout Sample.env0
          [("refreshToken", "no-such-token")]) [true] Sample.db0
  = (Sent 200 (JObj [ ("success", JBool true);
                      ("message", JStr "Logged out successfully") ]), Sample.db0).
Proof.
  apply (logout_without_session Sample.primitives Sample.env0 [true] Sample.db0
           [("refreshToken", "no-such-token")]).
  right. right. exists "no-such-token". split; reflexivity.
Defined.

(** [logout] with a token on record, the write being taken: the answer is
    200; the record is saved revoked at this time and by this address,
    also when it had been revoked before (the earlier time and address
    are overwritten); nothing else moves; and from then on [refresh]
    refuses the token with 401, after any further requests. *)
Theorem logout_ends_the_session :
  forall (P : Primitives) env fs d body t r,
    NoDup (map RefreshToken._id (refreshTokens d)) ->
    field body "refreshToken" = Some t ->
    t <> "" ->
    find (tokenIs t) (refreshTokens d) = Some r ->
    hd false fs = false ->
    fst (exec (AuthControllerV2.logout env body) fs d)
    = Sent 200 (JObj [ ("success", JBool true);
                       ("message", JStr "Logged out successfully") ])
    /\ users (snd (exec (AuthControllerV2.logout env body) fs d)) = users d
    /\ find (tokenIs t) (refreshTokens (snd (exec (AuthControllerV2.logout env body) fs d)))
       = Some (RefreshToken.revoked (now env) (ip env) r)
    /\ (forall d',
           later (snd (exec (AuthControllerV2.logout env body) fs d)) d' ->
           forall env' fs' body',
             field body' "refreshToken" = Some t ->
             exec (AuthControllerV2.refreshToken env' body') fs' d'
             = (Next (mkErr "Refresh token is expired or revoked" 401), d')).
Proof.
  intros P env fs d body t r Hnd Hfield Hne Hfind Hfs.
  pose proof (revoked_is_found t _ r (now env) (ip env) Hnd Hfind) as Hrev.
  assert (Hrun :
            exec (AuthControllerV2.logout env body) fs d
            = (Sent 200 (JObj [ ("success", JBool true);
                                ("message", JStr "Logged out successfully") ]),
               mkDb (users d)
                 (replace_first
                    (fun x => (RefreshToken._id x
                               =? RefreshToken._id
                                    (RefreshToken.revoked (now env) (ip env) r))%nat)
                    (RefreshToken.revoked (now env) (ip env) r) (refreshTokens d)))).
  { unfold AuthControllerV2.logout. rewrite Hfield, (nonempty_truthy _ Hne).
    unfold_monad. unfold tokenIs in Hfind. rewrite Hfind. unfold_monad.
    destruct fs as [|[|] fs]; try discriminate Hfs; reflexivity. }
  rewrite Hrun. cbn [fst snd users refreshTokens].
  split; [reflexivity|split; [reflexivity|split; [exact Hrev|]]].
  intros d' Hlater env' fs' body' Hfield'.
  apply (spent_refresh_401 P t env' fs' d' body'); auto.
  apply (later_keeps_spent P t _ d' Hlater). cbn [refreshTokens]. split.
  - rewrite (replace_first_keys RefreshToken.t RefreshToken._id). exact Hnd.
  - eexists. split; [exact Hrev|reflexivity].
Qed.

Lemma logout_ends_the_session_witness :
  find (tokenIs "t-old")
    (refreshTokens
       (snd (exec (AuthControllerV2.logout Sample.env0
                     [("refreshToken", "t-old")]) [] Sample.db0)))
  = Some (RefreshToken.revoked 1000 "10.0.0.1" Sample.rotated_session).
Proof.
  assert (Hnd : NoDup (map RefreshToken._id (refreshTokens Sample.db0))).
  { cbn. repeat constructor; cbn; intuition discriminate. }
  apply (proj1 (proj2 (proj2
           (logout_ends_the_session Sample.primitives Sample.env0 [] Sample.db0
              [("refreshToken", "t-old")] "t-old" Sample.rotated_session
              Hnd eq_refl ltac:(discriminate) eq_refl eq_refl)))).
Defined.

Lemma revokeAll_deactivates :
  forall n ip userId l r,
    In r (map (fun x => if RefreshTokens.matches userId x
                        then RefreshToken.revoked n ip x else x) l) ->
    RefreshToken.userId r = userId ->
    RefreshToken.isActive r = false.
Proof.
  intros n ip userId l r Hin Hid. apply in_map_iff in Hin.
  destruct Hin as [x [Hx _]].
  destruct (RefreshTokens.matches userId x) eqn:Hm.
  - subst r. reflexivity.
  - subst r. unfold RefreshTokens.matches in Hm.
    apply Nat.eqb_eq in Hid. rewrite Hid in Hm. exact Hm.
Qed.

Lemma revokeAll_spends :
  forall t l r n ip userId,
    NoDup (map RefreshToken._id l) ->
    find (tokenIs t) l = Some r ->
    RefreshToken.userId r = userId ->
    spent t (map (fun x => if RefreshTokens.matches userId x
                           then RefreshToken.revoked n ip x else x) l).
Proof.
  intros t l r n ip userId Hnd Hfind Hid. split.
  - rewrite map_map. erewrite map_ext; [exact Hnd|].
    intros x. cbn. destruct (RefreshTokens.matches userId x); reflexivity.
  - rewrite find_map_same.
    + rewrite Hfind. cbn. eexists. split; [reflexivity|].
      unfold RefreshTokens.matches. rewrite Hid, Nat.eqb_refl. cbn.
      destruct (RefreshToken.isActive r) eqn:E; [reflexivity|exact E].
    + intros x. unfold tokenIs.
      destruct (RefreshTokens.matches userId x); reflexivity.
Qed.

(** [logoutAll], the write being taken, ends every session of the
    requester: no record of that user is active afterwards, the answer
    counts the records that were active, the users are untouched, and
    [refresh] refuses every token of that user from then on. *)
Theorem logoutAll_ends_every_session :
  forall (P : Primitives) env fs d reqUser,
    hd false fs = false ->
    fst (exec (AuthControllerV2.logoutAll env reqUser) fs d)
    = Sent 200
        (JObj [ ("success", JBool true);
                ("message",
                 JStr ("Logged out from "
                       ++ NilZero.string_of_uint
                            (Nat.to_uint
                               (List.length
                                  (filter (RefreshTokens.matches (User._id reqUser))
                                     (refreshTokens d))))
                       ++ " device(s)")) ])
    /\ users (snd (exec (AuthControllerV2.logoutAll env reqUser) fs d)) = users d
    /\ (forall r,
           In r (refreshTokens (snd (exec (AuthControllerV2.logoutAll env reqUser) fs d))) ->
           RefreshToken.userId r = User._id reqUser ->
           RefreshToken.isActive r = false)
    /\ (forall t r,
           NoDup (map RefreshToken._id (refreshTokens d)) ->
           t <> "" ->
           find (tokenIs t) (refreshTokens d) = Some r ->
           RefreshToken.userId r = User._id reqUser ->
           forall d',
             later (snd (exec (AuthControllerV2.logoutAll env reqUser) fs d)) d' ->
             forall env' fs' body',
               field body' "refreshToken" = Some t ->
               exec (AuthControllerV2.refreshToken env' body') fs' d'
               = (Next (mkErr "Refresh token is expired or revoked" 401), d')).
Proof.
  intros P env fs d reqUser Hfs.
  assert (Hrun :
            exec (AuthControllerV2.logoutAll env reqUser) fs d
            = (Sent 200
                 (JObj [ ("success", JBool true);
                         ("message",
                          JStr ("Logged out from "
                                ++ NilZero.string_of_uint
                                     (Nat.to_uint
                                        (List.length
                                           (filter
                                              (RefreshTokens.matches (User._id reqUser))
                                              (refreshTokens d))))
                                ++ " device(s)")) ]),
               mkDb (users d)
                 (map (fun x => if RefreshTokens.matches (User._id reqUser) x
                                then RefreshToken.revoked (now env) (ip env) x else x)
                    (refreshTokens d)))).
  { unfold AuthControllerV2.logoutAll. unfold_monad.
    destruct fs as [|[|] fs]; try discriminate Hfs; reflexivity. }
  rewrite Hrun. cbn [fst snd users refreshTokens].
  split; [reflexivity|split; [reflexivity|split]].
  - intros r Hin Hid. exact (revokeAll_deactivates _ _ _ _ r Hin Hid).
  - intros t r Hnd Hne Hfind Hid d' Hlater env' fs' body' Hfield'.
    apply (spent_refresh_401 P t env' fs' d' body'); auto.
    apply (later_keeps_spent P t _ d' Hlater). cbn [refreshTokens].
    apply (revokeAll_spends t _ r); assumption.
Qed.

Lemma logoutAll_ends_every_session_witness :
  exec (AuthControllerV2.refreshToken (P := Sample.primitives) Sample.env1
          [("refreshToken", "t-vera")]) []
    (snd (exec (AuthControllerV2.logoutAll Sample.env0
                  Sample.vera) [] Sample.db0))
  = (Next (mkErr "Refresh token is expired or revoked" 401),
     snd (exec (AuthControllerV2.logoutAll Sample.env0
                  Sample.vera) [] Sample.db0)).
Proof.
  assert (Hnd : NoDup (map RefreshToken._id (refreshTokens Sample.db0))).
  { cbn. repeat constructor; cbn; intuition discriminate. }
  apply (proj2 (proj2 (proj2
           (logoutAll_ends_every_session Sample.primitives Sample.env0 [] Sample.db0
              Sample.vera eq_refl)))
           "t-vera" (Sample.session 2 "t-vera" 2) Hnd ltac:(discriminate)
           eq_refl eq_refl _ (later_now _) Sample.env1 []
           [("refreshToken", "t-vera")] eq_refl).
Defined.

(** [changePassword] with both passwords given, for a requester on
    record.  A wrong current password is answered 401 and nothing is
    written.  With the right one and every write taken, the hash of the
    new password is stored and no session of the user stays active.  When
    the password is saved and the revocation is then refused, the handler
    fails with the new password stored and every session as it was. *)
Theorem changePassword_outcomes :
  forall (P : Primitives) env fs d reqUser body cur new u,
    field body "currentPassword" = Some cur -> cur <> "" ->
    field body "newPassword" = Some new -> new <> "" ->
    find (userIs (User._id reqUser)) (users d) = Some u ->
    (Users.matchPassword u cur = false ->
     exec (AuthControllerV2.changePassword env reqUser body) fs d
     = (Next (mkErr "Current password is incorrect" 401), d))
    /\ (Users.matchPassword u cur = true ->
        writes_accepted fs = true ->
        fst (exec (AuthControllerV2.changePassword env reqUser body) fs d)
        = Sent 200
            (JObj [ ("success", JBool true);
                    ("message",
                     JStr "Password changed successfully. Please login again.") ])
        /\ find (userIs (User._id reqUser))
             (users (snd (exec (AuthControllerV2.changePassword env reqUser body) fs d)))
           = Some (User.set_password (bcrypt_hash new) u)
        /\ (forall r,
               In r (refreshTokens
                       (snd (exec (AuthControllerV2.changePassword env reqUser body) fs d)))
               -> RefreshToken.userId r = User._id reqUser
               -> RefreshToken.isActive r = false))
    /\ (Users.matchPassword u cur = true ->
        hd false fs = false ->
        hd false (tl fs) = true ->
        (exists error,
            fst (exec (AuthControllerV2.changePassword env reqUser body) fs d)
            = Threw error)
        /\ find (userIs (User._id reqUser))
             (users (snd (exec (AuthControllerV2.changePassword env reqUser body) fs d)))
           = Some (User.set_password (bcrypt_hash new) u)
        /\ refreshTokens
             (snd (exec (AuthControllerV2.changePassword env reqUser body) fs d))
           = refreshTokens d).
Proof.
  intros P env fs d reqUser body cur new u Hcur Hncur Hnew Hnnew Hfind.
  pose proof (find_userIs_id _ _ _ Hfind) as Hid.
  assert (Hsaved :
            find (userIs (User._id reqUser))
              (replace_first
                 (fun x => (User._id x
                            =? User._id (User.set_password (bcrypt_hash new) u))%nat)
                 (User.set_password (bcrypt_hash new) u) (users d))
            = Some (User.set_password (bcrypt_hash new) u)).
  { rewrite <- Hid. apply saved_user_is_found; [|reflexivity].
    apply find_some in Hfind. exact (proj1 Hfind). }
  unfold AuthControllerV2.changePassword. rewrite Hcur, Hnew.
  rewrite (nonempty_truthy _ Hncur), (nonempty_truthy _ Hnnew). unfold_monad.
  unfold userIs in Hfind. rewrite Hfind. unfold_monad.
  split; [|split].
  - intros Hpw. rewrite Hpw. reflexivity.
  - intros Hpw Hfs. rewrite Hpw. unfold_monad.
    destruct fs as [|[|] [|[|] fs]]; try discriminate Hfs;
      cbn [faults db users refreshTokens fst snd User._id User.set_password].
    all: split; [reflexivity|split; [exact Hsaved|]].
    all: intros r Hin Hr; rewrite <- Hid in Hr;
      exact (revokeAll_deactivates _ _ _ _ r Hin Hr).
  - intros Hpw Hfs Hfs2. rewrite Hpw. unfold_monad.
    destruct fs as [|[|] [|[|] fs]]; try discriminate Hfs; try discriminate Hfs2.
    cbn [faults db users refreshTokens fst snd].
    split; [eexists; reflexivity|split; [exact Hsaved|reflexivity]].
Qed.

Lemma changePassword_outcomes_witness :
  exec (AuthControllerV2.changePassword (P := Sample.primitives) Sample.env0 Sample.vera
          [("currentPassword", "guess"); ("newPassword", "brandnewpass")]) []
    Sample.db0
  = (Next (mkErr "Current password is incorrect" 401), Sample.db0).
Proof.
  apply (proj1 (changePassword_outcomes Sample.primitives Sample.env0 [] Sample.db0
                  Sample.vera
                  [("currentPassword", "guess"); ("newPassword", "brandnewpass")]
                  "guess" "brandnewpass" Sample.vera
                  eq_refl ltac:(discriminate) eq_refl ltac:(discriminate) eq_refl)).
  reflexivity.
Defined.

Lemma replace_first_In :
  forall (A : Type) (p : A -> bool) (a a' : A) (l : list A),
    In a l -> p a = true -> In a' (replace_first p a' l).
Proof.
  intros A p a a' l. induction l as [|x l IH]; intros Hin Hp; [destruct Hin|].
  cbn. destruct (p x) eqn:Hx; [left; reflexivity|].
  destruct Hin as [->|Hin]; [congruence|]. right. exact (IH Hin Hp).
Qed.

Lemma replace_first_members :
  forall (A : Type) (p : A -> bool) (a' x : A) (l : list A),
    In x (replace_first p a' l) -> x = a' \/ In x l.
Proof.
  intros A p a' x l. induction l as [|y l IH]; intros Hin; [destruct Hin|].
  cbn in Hin. destruct (p y).
  - destruct Hin as [<-|Hin]; [left; reflexivity|right; right; exact Hin].
  - destruct Hin as [<-|Hin]; [right; left; reflexivity|].
    destruct (IH Hin) as [H|H]; [left; exact H|right; right; exact H].
Qed.

Lemma find_member :
  forall (A : Type) (p : A -> bool) (a : A) (l : list A),
    In a l -> p a = true -> exists b, find p l = Some b.
Proof.
  intros A p a l. induction l as [|x l IH]; intros Hin Hp; [destruct Hin|].
  cbn. destruct (p x) eqn:Hx; [eexists; reflexivity|].
  destruct Hin as [->|Hin]; [congruence|]. exact (IH Hin Hp).
Qed.

Lemma find_all_false :
  forall (A : Type) (p : A -> bool) (l : list A),
    (forall x, In x l -> p x = false) -> find p l = None.
Proof.
  intros A p l. induction l as [|x l IH]; intros H; [reflexivity|].
  cbn. rewrite (H x (or_introl eq_refl)). apply IH.
  intros y Hy. apply H. right. exact Hy.
Qed.

(** The reset token that [forgotPassword] hands out is good for ten
    minutes: presented to [resetPassword] before that, it is accepted,
    the matching user gets the hash of the new password, loses the reset
    token and has no active session left; presented at ten minutes or
    later, it is refused with 400 and nothing is written (no user holding
    that token from before). *)
Theorem reset_token_is_good_for_ten_minutes :
  forall (P : Primitives) env fs d body e u env' fs' body' np,
    field body "email" = Some e -> e <> "" ->
    find (emailIs (toLowerCase e)) (users d) = Some u ->
    hd false fs = false ->
    field body' "resetToken" = Some (toHex (randomBytes 32 (entropy env))) ->
    field body' "newPassword" = Some np -> np <> "" ->
    (now env' < now env + 600000 ->
     writes_accepted fs' = true ->
     fst (exec (AuthControllerV2.resetPassword env' body') fs'
            (snd (exec (AuthControllerV2.forgotPassword env body) fs d)))
     = Sent 200
         (JObj [ ("success", JBool true);
                 ("message",
                  JStr "Password reset successful. Please login with your new password.") ])
     /\ exists v,
         find (userIs (User._id v))
           (users (snd (exec (AuthControllerV2.resetPassword env' body') fs'
                          (snd (exec (AuthControllerV2.forgotPassword env body) fs d)))))
         = Some (User.set_reset None None (User.set_password (bcrypt_hash np) v))
         /\ forall r,
             In r (refreshTokens
                     (snd (exec (AuthControllerV2.resetPassword env' body') fs'
                             (snd (exec (AuthControllerV2.forgotPassword env body) fs d)))))
             -> RefreshToken.userId r = User._id v
             -> RefreshToken.isActive r = false)
    /\ (now env + 600000 <= now env' ->
        (forall x, In x (users d) ->
                   Users.resetMatches
                     (sha256_hex (toHex (randomBytes 32 (entropy env)))) (now env') x
                   = false) ->
        exec (AuthControllerV2.resetPassword env' body') fs'
          (snd (exec (AuthControllerV2.forgotPassword env body) fs d))
        = (Next (mkErr "Invalid or expired reset token" 400),
           snd (exec (AuthControllerV2.forgotPassword env body) fs d))).
Proof.
  intros P env fs d body e u env' fs' body' np He Hne Hfind Hfs Htok Hnp Hnnp.
  set (tok := toHex (randomBytes 32 (entropy env))) in *.
  set (u' := User.set_reset (Some (sha256_hex tok)) (Some (now env + 10 * 60 * 1000)) u).
  assert (Hforgot :
            snd (exec (AuthControllerV2.forgotPassword env body) fs d)
            = mkDb (replace_first (fun x => (User._id x =? User._id u')%nat) u' (users d))
                   (refreshTokens d)).
  { unfold AuthControllerV2.forgotPassword. rewrite He, (nonempty_truthy _ Hne).
    unfold_monad. unfold emailIs in Hfind. rewrite Hfind. unfold_monad.
    destruct fs as [|[|] fs]; try discriminate Hfs; reflexivity. }
  rewrite Hforgot. clear Hforgot.
  assert (Htokne : tok <> "") by apply toHex_nonempty.
  unfold AuthControllerV2.resetPassword. rewrite Htok, Hnp.
  rewrite (nonempty_truthy _ Htokne), (nonempty_truthy _ Hnnp). unfold_monad.
  split.
  - intros Hexp Hfs'.
    assert (Hin : In u' (replace_first (fun x => (User._id x =? User._id u')%nat) u'
                           (users d))).
    { apply (replace_first_In User.t _ u).
      - apply find_some in Hfind. exact (proj1 Hfind).
      - apply Nat.eqb_refl. }
    assert (Hmatch : Users.resetMatches (sha256_hex tok) (now env') u' = true).
    { unfold Users.resetMatches, u'. cbn [User.resetPasswordToken User.resetPasswordExpire
                                            User.set_reset].
      rewrite String.eqb_refl. cbn [andb]. apply Z.ltb_lt. lia. }
    destruct (find_member User.t _ u' _ Hin Hmatch) as [v Hv].
    rewrite Hv. unfold_monad.
    assert (Hsaved :
              find (userIs (User._id v))
                (replace_first
                   (fun x =>
                      (User._id x
                       =? User._id (User.set_reset None None
                                      (User.set_password (bcrypt_hash np) v)))%nat)
                   (User.set_reset None None (User.set_password (bcrypt_hash np) v))
                   (replace_first (fun x => (User._id x =? User._id u')%nat) u' (users d)))
              = Some (User.set_reset None None (User.set_password (bcrypt_hash np) v))).
    { apply saved_user_is_found; [|reflexivity].
      apply find_some in Hv. exact (proj1 Hv). }
    destruct fs' as [|[|] [|[|] fs']]; try discriminate Hfs';
      cbn [faults db users refreshTokens fst snd User._id User.set_password
             User.set_reset].
    all: split; [reflexivity|exists v; split; [exact Hsaved|]].
    all: intros r Hr Hid; exact (revokeAll_deactivates _ _ _ _ r Hr Hid).
  - intros Hexp Hold.
    rewrite find_all_false; [reflexivity|].
    intros x Hx. apply replace_first_members in Hx. destruct Hx as [->|Hx].
    + unfold Users.resetMatches, u'.
      cbn [User.resetPasswordToken User.resetPasswordExpire User.set_reset].
      rewrite String.eqb_refl. cbn [andb]. apply Z.ltb_ge. lia.
    + exact (Hold x Hx).
Qed.

Lemma reset_token_is_good_for_ten_minutes_witness :
  fst (exec (AuthControllerV2.resetPassword (P := Sample.primitives) Sample.env1
               [("resetToken", toHex (randomBytes 32 (entropy Sample.env0)));
                ("newPassword", "brandnewpass")]) []
         (snd (exec (AuthControllerV2.forgotPassword (P := Sample.primitives) Sample.env0
                       [("email", "v@x.com")]) [] Sample.db0)))
  = Sent 200
      (JObj [ ("success", JBool true);
              ("message",
               JStr "Password reset successful. Please login with your new password.") ]).
Proof.
  apply (proj1 (reset_token_is_good_for_ten_minutes Sample.primitives Sample.env0 []
                  Sample.db0 [("email", "v@x.com")] "v@x.com" Sample.vera Sample.env1 []
                  [("resetToken", toHex (randomBytes 32 (entropy Sample.env0)));
                   ("newPassword", "brandnewpass")] "brandnewpass"
                  eq_refl ltac:(discriminate) eq_refl eq_refl eq_refl eq_refl
                  ltac:(discriminate))).
  - reflexivity.
  - reflexivity.
Defined.

(* ================================================================== *)
(** * Further properties of the administration handlers *)

Lemma find_replace_first_other :
  forall (A : Type) (key : A -> nat) (k : nat) (a' : A) (l : list A),
    key a' <> k ->
    find (fun x => (key x =? k)%nat)
      (replace_first (fun x => (key x =? key a')%nat) a' l)
    = find (fun x => (key x =? k)%nat) l.
Proof.
  intros A key k a' l Hk. induction l as [|x l IH]; [reflexivity|].
  cbn. destruct (Nat.eqb_spec (key x) (key a')) as [E|E].
  - cbn. destruct (Nat.eqb_spec (key a') k); [contradiction|].
    destruct (Nat.eqb_spec (key x) k); [congruence|reflexivity].
  - cbn. destruct (key x =? k)%nat; [reflexivity|exact IH].
Qed.

Lemma find_replace_first_first :
  forall (A : Type) (p q : A -> bool) (u u' : A) (l : list A),
    find q l = Some u -> p u = true -> q u' = true ->
    find q (replace_first p u' l) = Some u'.
Proof.
  intros A p q u u' l. induction l as [|x l IH]; intros Hq Hp Hq'; [discriminate|].
  cbn in Hq |- *. destruct (p x) eqn:Hpx.
  - cbn. rewrite Hq'. reflexivity.
  - cbn. destruct (q x) eqn:Hqx.
    + inversion Hq; subst x. congruence.
    + exact (IH Hq Hp Hq').
Qed.

Lemma map_replace_first :
  forall (A B : Type) (p : A -> bool) (f : A -> B) (u u' : A) (l : list A),
    find p l = Some u -> f u' = f u ->
    map f (replace_first p u' l) = map f l.
Proof.
  intros A B p f u u' l. induction l as [|x l IH]; intros Hfind Hf; [reflexivity|].
  cbn in Hfind |- *. destruct (p x).
  - inversion Hfind; subst x. cbn. rewrite Hf. reflexivity.
  - cbn. rewrite (IH Hfind Hf). reflexivity.
Qed.

(** [requireRole] on a header "Bearer <token>" whose token verifies. *)
Lemma requireRole_bearer :
  forall (P : Primitives) roles token now0 p st,
    no_blank token = true ->
    token <> "" ->
    jwt_verify now0 token = inr p ->
    Auth.requireRole roles (bearer token) now0 st
    = match find (userIs (jwt_id p)) (users (db st)) with
      | None => (Halt (Next (mkErr "User not found" 404)), st)
      | Some u =>
          if negb (User.isActive u)
          then (Halt (Next (mkErr "User account is deactivated" 403)), st)
          else if negb (includes roles (role_name (User.role u)))
               then (Halt (Next (mkErr ("User role '" ++ role_name (User.role u)
                                        ++ "' is not authorized to access this route")
                                   403)), st)
               else (Go u, st)
      end.
Proof.
  intros P roles token now0 p st Hnb Hne Hv. unfold Auth.requireRole.
  rewrite (bearerToken_bearer token Hnb), (nonempty_truthy _ Hne). cbn [negb].
  rewrite Hv. unfold_monad. unfold userIs.
  destruct (find (fun x => (User._id x =? jwt_id p)%nat) (users (db st))) as [u|];
    [|reflexivity].
  destruct (negb (User.isActive u)); [reflexivity|].
  destruct (negb (includes roles (role_name (User.role u)))); reflexivity.
Qed.

(** [refreshToken] refuses a valid token whose user is gone or inactive,
    and writes nothing. *)
Lemma refresh_needs_an_active_user :
  forall (P : Primitives) env fs d body tok r,
    field body "refreshToken" = Some tok ->
    tok <> "" ->
    find (tokenIs tok) (refreshTokens d) = Some r ->
    RefreshToken.isValid (now env) r = true ->
    match find (userIs (RefreshToken.userId r)) (users d) with
    | Some u => User.isActive u = false
    | None => True
    end ->
    exec (AuthControllerV2.refreshToken env body) fs d
    = (Next (mkErr "User not found or inactive" 401), d).
Proof.
  intros P env fs d body tok r Hf Hne Hr Hvalid Hu.
  unfold AuthControllerV2.refreshToken. rewrite Hf, (nonempty_truthy _ Hne).
  unfold_monad. unfold tokenIs in Hr. rewrite Hr. unfold_monad. rewrite Hvalid.
  unfold_monad. unfold userIs in Hu.
  destruct (find (fun u => (User._id u =? RefreshToken.userId r)%nat) (users d))
    as [u|]; [|reflexivity].
  unfold_monad. rewrite Hu. reflexivity.
Qed.

(** Deactivating an account through [activateUser] with [isActive: false]
    locks it out at once although none of its sessions is revoked: its
    access tokens are answered 403 by [requireRole], its refresh tokens
    401 by [refreshToken], and [login] 403 before the password is looked
    at. *)
Theorem deactivated_account_is_locked_out :
  forall (P : Primitives) fs d userId u,
    find (userIs userId) (users d) = Some u ->
    hd false fs = false ->
    fst (exec (AdminController.activateUser userId (Some false)) fs d)
    = Sent 200
        (JObj [ ("success", JBool true);
                ("message", JStr "User deactivated successfully");
                ("data",
                 JObj [ ("user",
                         JObj (AdminController.userView (User.set_isActive false u))) ]) ])
    /\ refreshTokens (snd (exec (AdminController.activateUser userId (Some false)) fs d))
       = refreshTokens d
    /\ (forall roles token now0 p fs',
           no_blank token = true ->
           token <> "" ->
           jwt_verify now0 token = inr p ->
           jwt_id p = userId ->
           fst (Auth.requireRole roles (bearer token) now0
                  (mkSt (snd (exec (AdminController.activateUser userId (Some false)) fs d))
                     fs'))
           = Halt (Next (mkErr "User account is deactivated" 403)))
    /\ (forall env' fs' body tok r,
           field body "refreshToken" = Some tok ->
           tok <> "" ->
           find (tokenIs tok) (refreshTokens d) = Some r ->
           RefreshToken.userId r = userId ->
           RefreshToken.isValid (now env') r = true ->
           exec (AuthControllerV2.refreshToken env' body) fs'
             (snd (exec (AdminController.activateUser userId (Some false)) fs d))
           = (Next (mkErr "User not found or inactive" 401),
              snd (exec (AdminController.activateUser userId (Some false)) fs d)))
    /\ (forall env' fs' body e p,
           field body "email" = Some e ->
           e <> "" ->
           field body "password" = Some p ->
           p <> "" ->
           find (emailIs (toLowerCase e)) (users d) = Some u ->
           exec (AuthControllerV2.login env' body) fs'
             (snd (exec (AdminController.activateUser userId (Some false)) fs d))
           = (Next (mkErr "Account is deactivated. Please contact administrator" 403),
              snd (exec (AdminController.activateUser userId (Some false)) fs d))).
Proof.
  intros P fs d userId u Hfind Hfs.
  pose proof (find_userIs_id _ _ _ Hfind) as Hid.
  assert (Hrun :
            exec (AdminController.activateUser userId (Some false)) fs d
            = (Sent 200
                 (JObj [ ("success", JBool true);
                         ("message", JStr "User deactivated successfully");
                         ("data",
                          JObj [ ("user",
                                  JObj (AdminController.userView
                                          (User.set_isActive false u))) ]) ]),
               mkDb (replace_first
                       (fun x => (User._id x =? User._id (User.set_isActive false u))%nat)
                       (User.set_isActive false u) (users d))
                    (refreshTokens d))).
  { unfold AdminController.activateUser. unfold_monad.
    unfold userIs in Hfind. rewrite Hfind.
    destruct fs as [|[|] fs]; try discriminate Hfs; reflexivity. }
  rewrite Hrun. cbn [fst snd refreshTokens].
  assert (Hsaved :
            find (userIs userId)
              (replace_first
                 (fun x => (User._id x =? User._id (User.set_isActive false u))%nat)
                 (User.set_isActive false u) (users d))
            = Some (User.set_isActive false u)).
  { rewrite <- Hid. apply saved_user_is_found; [|reflexivity].
    apply find_some in Hfind. exact (proj1 Hfind). }
  split; [reflexivity|split; [reflexivity|split; [|split]]].
  - intros roles token now0 p fs' Hnb Hne Hv Hp.
    rewrite (requireRole_bearer P roles token now0 p _ Hnb Hne Hv).
    cbn [db users]. rewrite Hp, Hsaved. reflexivity.
  - intros env' fs' body tok r Hf Hne Hr Hu Hvalid.
    apply (refresh_needs_an_active_user P env' fs' _ body tok r Hf Hne);
      [exact Hr|exact Hvalid|].
    cbn [users]. rewrite Hu, Hsaved. reflexivity.
  - intros env' fs' body e p He Hne Hp Hnp Hmail.
    unfold AuthControllerV2.login. rewrite He, Hp.
    rewrite (nonempty_truthy _ Hne), (nonempty_truthy _ Hnp). unfold_monad.
    unfold emailIs in Hmail.
    rewrite (find_replace_first_first User.t _ _ u (User.set_isActive false u) (users d)
               Hmail (Nat.eqb_refl _)).
    + reflexivity.
    + apply find_some in Hmail. exact (proj2 Hmail).
Qed.

Lemma deactivated_account_is_locked_out_witness :
  exec (AuthControllerV2.login (P := Sample.primitives) Sample.env1
          [("email", "v@x.com"); ("password", "verapass")]) []
    (snd (exec (AdminController.activateUser 2 (Some false)) [] Sample.db0))
  = (Next (mkErr "Account is deactivated. Please contact administrator" 403),
     snd (exec (AdminController.activateUser 2 (Some false)) [] Sample.db0)).
Proof.
  destruct (deactivated_account_is_locked_out Sample.primitives [] Sample.db0 2
              Sample.vera eq_refl eq_refl) as [_ [_ [_ [_ H]]]].
  apply (H Sample.env1 [] [("email", "v@x.com"); ("password", "verapass")]
           "v@x.com" "verapass" eq_refl ltac:(discriminate) eq_refl
           ltac:(discriminate) eq_refl).
Defined.

(** Deleting an account leaves its sessions in the store, and none of
    them is of use: its access tokens are answered 404 by [requireRole],
    its refresh tokens 401 by [refreshToken], and [activateUser] cannot
    bring it back. *)
Theorem deleted_account_is_locked_out :
  forall (P : Primitives) fs d reqUser userId u,
    NoDup (map User._id (users d)) ->
    find (userIs userId) (users d) = Some u ->
    is_owner (User.role u) = false ->
    User._id reqUser <> userId ->
    hd false fs = false ->
    refreshTokens (snd (exec (AdminController.deleteUser reqUser userId) fs d))
    = refreshTokens d
    /\ (forall roles token now0 p fs',
           no_blank token = true ->
           token <> "" ->
           jwt_verify now0 token = inr p ->
           jwt_id p = userId ->
           fst (Auth.requireRole roles (bearer token) now0
                  (mkSt (snd (exec (AdminController.deleteUser reqUser userId) fs d)) fs'))
           = Halt (Next (mkErr "User not found" 404)))
    /\ (forall env' fs' body tok r,
           field body "refreshToken" = Some tok ->
           tok <> "" ->
           find (tokenIs tok) (refreshTokens d) = Some r ->
           RefreshToken.userId r = userId ->
           RefreshToken.isValid (now env') r = true ->
           exec (AuthControllerV2.refreshToken env' body) fs'
             (snd (exec (AdminController.deleteUser reqUser userId) fs d))
           = (Next (mkErr "User not found or inactive" 401),
              snd (exec (AdminController.deleteUser reqUser userId) fs d)))
    /\ (forall fs' isActive,
           exec (AdminController.activateUser userId isActive) fs'
             (snd (exec (AdminController.deleteUser reqUser userId) fs d))
           = (Next (mkErr "User not found" 404),
              snd (exec (AdminController.deleteUser reqUser userId) fs d))).
Proof.
  intros P fs d reqUser userId u Hnd Hfind Hrole Hself Hfs.
  pose proof (find_userIs_id _ _ _ Hfind) as Hid.
  assert (Hrun :
            snd (exec (AdminController.deleteUser reqUser userId) fs d)
            = mkDb (remove_first (fun x => (User._id x =? userId)%nat) (users d))
                   (refreshTokens d)).
  { unfold AdminController.deleteUser. unfold_monad.
    unfold userIs in Hfind. rewrite Hfind, Hrole, Hid.
    assert (E : (userId =? User._id reqUser)%nat = false)
      by (apply Nat.eqb_neq; intros E; apply Hself; symmetry; exact E).
    rewrite E.
    destruct fs as [|[|] fs]; try discriminate Hfs; reflexivity. }
  rewrite Hrun. cbn [refreshTokens].
  assert (Hgone :
            find (userIs userId)
              (remove_first (fun x => (User._id x =? userId)%nat) (users d)) = None).
  { exact (proj1 (remove_first_by_key User.t User._id userId u (users d) Hnd Hfind)). }
  split; [reflexivity|split; [|split]].
  - intros roles token now0 p fs' Hnb Hne Hv Hp.
    rewrite (requireRole_bearer P roles token now0 p _ Hnb Hne Hv).
    cbn [db users]. rewrite Hp, Hgone. reflexivity.
  - intros env' fs' body tok r Hf Hne Hr Hu Hvalid.
    apply (refresh_needs_an_active_user P env' fs' _ body tok r Hf Hne);
      [exact Hr|exact Hvalid|].
    cbn [users]. rewrite Hu, Hgone. exact I.
  - intros fs' isActive. unfold AdminController.activateUser. unfold_monad.
    unfold userIs in Hgone. rewrite Hgone. reflexivity.
Qed.

Lemma deleted_account_is_locked_out_witness :
  exec (AuthControllerV2.refreshToken (P := Sample.primitives) Sample.env1
          [("refreshToken", "t-vera")]) []
    (snd (exec (AdminController.deleteUser Sample.root 2) [] Sample.db0))
  = (Next (mkErr "User not found or inactive" 401),
     snd (exec (AdminController.deleteUser Sample.root 2) [] Sample.db0)).
Proof.
  assert (Hnd : NoDup (map User._id (users Sample.db0))).
  { cbn. repeat constructor; cbn; intuition discriminate. }
  destruct (deleted_account_is_locked_out Sample.primitives [] Sample.db0 Sample.root 2
              Sample.vera Hnd eq_refl eq_refl ltac:(discriminate) eq_refl)
    as [_ [_ [H _]]].
  apply (H Sample.env1 [] [("refreshToken", "t-vera")] "t-vera"
           (Sample.session 2 "t-vera" 2) eq_refl ltac:(discriminate) eq_refl eq_refl
           eq_refl).
Defined.

(** A role change binds the access tokens already issued: [requireRole]
    decides on the role on record, whatever role the token carries.  An
    accepted [changeUserRole] changes the role of the target and nothing
    else, and from then on a token of the target passes [requireRole]
    exactly for the role lists that hold the new role. *)
Theorem role_change_binds_issued_tokens :
  forall (P : Primitives) fs d userId body r newRole u,
    field body "role" = Some r ->
    role_of_string r = Some newRole ->
    newRole <> owner ->
    find (userIs userId) (users d) = Some u ->
    is_owner (User.role u) = false ->
    hd false fs = false ->
    fst (exec (AdminController.changeUserRole userId body) fs d)
    = Sent 200
        (JObj [ ("success", JBool true);
                ("message", JStr "Role updated successfully");
                ("data",
                 JObj [ ("user",
                         JObj (AdminController.userView (User.set_role newRole u))) ]) ])
    /\ find (userIs userId)
         (users (snd (exec (AdminController.changeUserRole userId body) fs d)))
       = Some (User.set_role newRole u)
    /\ (forall k,
           k <> userId ->
           find (userIs k)
             (users (snd (exec (AdminController.changeUserRole userId body) fs d)))
           = find (userIs k) (users d))
    /\ refreshTokens (snd (exec (AdminController.changeUserRole userId body) fs d))
       = refreshTokens d
    /\ (forall roles token now0 p fs',
           User.isActive u = true ->
           no_blank token = true ->
           token <> "" ->
           jwt_verify now0 token = inr p ->
           jwt_id p = userId ->
           fst (Auth.requireRole roles (bearer token) now0
                  (mkSt (snd (exec (AdminController.changeUserRole userId body) fs d)) fs'))
           = if includes roles r
             then Go (User.set_role newRole u)
             else Halt (Next (mkErr ("User role '" ++ r
                                     ++ "' is not authorized to access this route") 403))).
Proof.
  intros P fs d userId body r newRole u Hbody Hros Hnew Hfind Hrole Hfs.
  pose proof (find_userIs_id _ _ _ Hfind) as Hid.
  pose proof (role_of_string_sound _ _ Hros) as Hname.
  assert (Hinc : includes AdminController.assignableRoles r = true)
    by (subst r; destruct newRole; [contradiction|reflexivity..]).
  assert (Hne : r <> "") by (subst r; destruct newRole; discriminate).
  assert (Hrun :
            exec (AdminController.changeUserRole userId body) fs d
            = (Sent 200
                 (JObj [ ("success", JBool true);
                         ("message", JStr "Role updated successfully");
                         ("data",
                          JObj [ ("user",
                                  JObj (AdminController.userView
                                          (User.set_role newRole u))) ]) ]),
               mkDb (replace_first
                       (fun x => (User._id x =? User._id (User.set_role newRole u))%nat)
                       (User.set_role newRole u) (users d))
                    (refreshTokens d))).
  { unfold AdminController.changeUserRole. rewrite Hbody, (nonempty_truthy _ Hne), Hinc.
    unfold_monad. unfold userIs in Hfind. rewrite Hfind, Hrole, Hros.
    destruct (negb (r =? "owner")%string); unfold_monad;
      rewrite ?Bool.andb_false_r;
      destruct fs as [|[|] fs]; try discriminate Hfs; reflexivity. }
  rewrite Hrun. cbn [fst snd refreshTokens users].
  assert (Hsaved :
            find (userIs userId)
              (replace_first
                 (fun x => (User._id x =? User._id (User.set_role newRole u))%nat)
                 (User.set_role newRole u) (users d))
            = Some (User.set_role newRole u)).
  { rewrite <- Hid. apply saved_user_is_found; [|reflexivity].
    apply find_some in Hfind. exact (proj1 Hfind). }
  split; [reflexivity|split; [exact Hsaved|split; [|split; [reflexivity|]]]].
  - intros k Hk. unfold userIs.
    apply (find_replace_first_other User.t User._id k (User.set_role newRole u)).
    cbn [User._id User.set_role]. rewrite Hid. intros E. apply Hk. symmetry. exact E.
  - intros roles token now0 p fs' Hact Hnb Hnet Hv Hp.
    rewrite (requireRole_bearer P roles token now0 p _ Hnb Hnet Hv).
    cbn [db users]. rewrite Hp, Hsaved.
    cbn [User.isActive User.role User.set_role]. rewrite Hact, Hname. cbn [negb].
    destruct (includes roles r); reflexivity.
Qed.

Lemma role_change_binds_issued_tokens_witness :
  find (userIs 2)
    (users (snd (exec (AdminController.changeUserRole 2 [("role", "operator")]) []
                   Sample.db0)))
  = Some (User.set_role operator Sample.vera).
Proof.
  destruct (role_change_binds_issued_tokens Sample.primitives [] Sample.db0 2
              [("role", "operator")] "operator" operator Sample.vera
              eq_refl eq_refl ltac:(discriminate) eq_refl eq_refl eq_refl)
    as [_ [H _]].
  exact H.
Defined.



(* ================================================================== *)
(** * Further properties of the profile update and of the start-up routine *)

(** [updateProfile] changes a name and an avatar and nothing else.
    Whatever the body holds and whether the request succeeds or fails,
    the ids, emails, password hashes, roles and active flags of the user
    collection are as before, and so are the refresh tokens.  When the
    requester is on record and the write is taken, the record found for
    the requester is the old one with the name and the avatar of the
    body, a member that is absent leaving the old value. *)
Theorem updateProfile_changes_name_and_avatar_only :
  forall reqUser body fs d,
    map User._id (users (snd (exec (Profile.updateProfile reqUser body) fs d)))
    = map User._id (users d)
    /\ map User.email (users (snd (exec (Profile.updateProfile reqUser body) fs d)))
       = map User.email (users d)
    /\ map User.password (users (snd (exec (Profile.updateProfile reqUser body) fs d)))
       = map User.password (users d)
    /\ map User.role (users (snd (exec (Profile.updateProfile reqUser body) fs d)))
       = map User.role (users d)
    /\ map User.isActive (users (snd (exec (Profile.updateProfile reqUser body) fs d)))
       = map User.isActive (users d)
    /\ refreshTokens (snd (exec (Profile.updateProfile reqUser body) fs d))
       = refreshTokens d
    /\ (forall u,
           find (userIs (User._id reqUser)) (users d) = Some u ->
           hd false fs = false ->
           find (userIs (User._id reqUser))
             (users (snd (exec (Profile.updateProfile reqUser body) fs d)))
           = Some (Profile.updated (field body "name") (field body "avatar") u)).
Proof.
  intros reqUser body fs d.
  unfold Profile.updateProfile, Profile.findByIdAndUpdate. unfold_monad.
  assert (Hframe :
            forall (B : Type) (f : User.t -> B) u,
              find (fun x => (User._id x =? User._id reqUser)%nat) (users d) = Some u ->
              f (Profile.updated (field body "name") (field body "avatar") u) = f u ->
              map f (replace_first (fun x => (User._id x =? User._id reqUser)%nat)
                       (Profile.updated (field body "name") (field body "avatar") u)
                       (users d))
              = map f (users d)).
  { intros B f u Hfind Hf. exact (map_replace_first _ _ _ f u _ _ Hfind Hf). }
  assert (Hsaved :
            forall u,
              find (fun x => (User._id x =? User._id reqUser)%nat) (users d) = Some u ->
              find (userIs (User._id reqUser))
                (replace_first (fun x => (User._id x =? User._id reqUser)%nat)
                   (Profile.updated (field body "name") (field body "avatar") u)
                   (users d))
              = Some (Profile.updated (field body "name") (field body "avatar") u)).
  { intros u Hfind.
    apply (find_replace_first_first User.t _ _ u); [exact Hfind| |].
    - apply find_some in Hfind. exact (proj2 Hfind).
    - unfold userIs. cbn [User._id Profile.updated].
      apply find_some in Hfind. exact (proj2 Hfind). }
  destruct fs as [|[|] fs]; cbn [faults db users refreshTokens fst snd];
    destruct (find (fun x => (User._id x =? User._id reqUser)%nat) (users d))
      as [u|] eqn:Hfind;
    cbn [faults db users refreshTokens fst snd].
  all: repeat (split; [first [reflexivity|apply (Hframe _ _ u eq_refl); reflexivity]|]).
  all: intros v Hv Hfs; unfold userIs in Hv; rewrite Hfind in Hv;
    try discriminate Hv; try discriminate Hfs.
  all: injection Hv as Hv; rewrite <- Hv; exact (Hsaved u eq_refl).
Qed.

Lemma updateProfile_changes_name_and_avatar_only_witness :
  find (userIs 2)
    (users (snd (exec (Profile.updateProfile Sample.vera
                         [("name", "Vera B."); ("role", "owner")]) [] Sample.db0)))
  = Some (Profile.updated (Some "Vera B.") None Sample.vera).
Proof.
  destruct (updateProfile_changes_name_and_avatar_only Sample.vera
              [("name", "Vera B."); ("role", "owner")] [] Sample.db0)
    as [_ [_ [_ [_ [_ [_ H]]]]]].
  exact (H Sample.vera eq_refl eq_refl).
Defined.




(* ================================================================== *)
(** * Properties of the cache *)

Lemma Map_set_hit :
  forall k k' x y m,
    (k' =? k)%string = true ->
    Cache.Map_set k x ((k', y) :: m) = (k, x) :: m.
Proof.
  intros k k' x y m H. unfold Cache.Map_set. cbn [existsb replace_first].
  unfold Cache.keyIs. cbn [fst]. rewrite H. reflexivity.
Qed.

Lemma Map_set_miss :
  forall k k' x y m,
    (k' =? k)%string = false ->
    Cache.Map_set k x ((k', y) :: m) = (k', y) :: Cache.Map_set k x m.
Proof.
  intros k k' x y m H. unfold Cache.Map_set. cbn [existsb replace_first].
  unfold Cache.keyIs. cbn [fst]. rewrite H. cbn [orb].
  destruct (existsb (fun e => (fst e =? k)%string) m); reflexivity.
Qed.

Lemma assoc_Map_set_same :
  forall k x (m : Cache.t), assoc k (Cache.Map_set k x m) = Some x.
Proof.
  intros k x m. induction m as [|[k' y] m IH].
  - cbn. rewrite String.eqb_refl. reflexivity.
  - destruct (k' =? k)%string eqn:E.
    + rewrite (Map_set_hit _ _ _ _ _ E). cbn. rewrite String.eqb_refl. reflexivity.
    + rewrite (Map_set_miss _ _ _ _ _ E). cbn. rewrite E. exact IH.
Qed.

Lemma assoc_Map_set_other :
  forall k k' x (m : Cache.t),
    k' <> k -> assoc k' (Cache.Map_set k x m) = assoc k' m.
Proof.
  intros k k' x m Hk. apply String.eqb_neq in Hk. induction m as [|[k0 y] m IH].
  - cbn. rewrite String.eqb_sym, Hk. reflexivity.
  - destruct (k0 =? k)%string eqn:E.
    + rewrite (Map_set_hit _ _ _ _ _ E). apply String.eqb_eq in E. subst k0.
      cbn. rewrite String.eqb_sym, Hk. reflexivity.
    + rewrite (Map_set_miss _ _ _ _ _ E). cbn. rewrite IH. reflexivity.
Qed.

Lemma assoc_absent :
  forall k (m : Cache.t), ~ In k (map fst m) -> assoc k m = None.
Proof.
  intros k m. induction m as [|[k' y] m IH]; intros H; [reflexivity|].
  cbn in H |- *. destruct (String.eqb_spec k' k) as [E|E].
  - exfalso. apply H. left. exact E.
  - apply IH. intros Hin. apply H. right. exact Hin.
Qed.

Lemma assoc_present :
  forall k x (m : Cache.t), assoc k m = Some x -> In k (map fst m).
Proof.
  intros k x m. induction m as [|[k' y] m IH]; intros H; [discriminate H|].
  cbn in H |- *. destruct (String.eqb_spec k' k) as [E|E].
  - left. exact E.
  - right. exact (IH H).
Qed.

Lemma keys_Map_set :
  forall k x (m : Cache.t),
    map fst (Cache.Map_set k x m)
    = if existsb (Cache.keyIs k) m then map fst m else (map fst m ++ [k])%list.
Proof.
  intros k x m. induction m as [|[k' y] m IH]; [reflexivity|].
  destruct (k' =? k)%string eqn:E.
  - rewrite (Map_set_hit _ _ _ _ _ E). cbn [existsb]. unfold Cache.keyIs at 1.
    cbn [fst]. rewrite E. cbn. apply String.eqb_eq in E. rewrite E. reflexivity.
  - rewrite (Map_set_miss _ _ _ _ _ E). cbn [existsb]. unfold Cache.keyIs at 1.
    cbn [fst map]. rewrite E, IH. cbn [orb].
    destruct (existsb (Cache.keyIs k) m); reflexivity.
Qed.

Lemma NoDup_snoc :
  forall (A : Type) (a : A) (l : list A),
    NoDup l -> ~ In a l -> NoDup (l ++ [a]).
Proof.
  intros A a l Hnd. induction Hnd as [|x l Hx Hnd IH]; intros Ha.
  - cbn. constructor; [intros []|constructor].
  - cbn. constructor.
    + intros Hin. apply in_app_or in Hin. destruct Hin as [Hin|[E|[]]].
      * exact (Hx Hin).
      * apply Ha. left. symmetry. exact E.
    + apply IH. intros Hin. apply Ha. right. exact Hin.
Qed.

Lemma wf_Map_set :
  forall k x (m : Cache.t), Cache.wf m -> Cache.wf (Cache.Map_set k x m).
Proof.
  intros k x m Hwf. unfold Cache.wf in *. rewrite keys_Map_set.
  destruct (existsb (Cache.keyIs k) m) eqn:E; [exact Hwf|].
  apply NoDup_snoc; [exact Hwf|].
  intros Hin. apply in_map_iff in Hin. destruct Hin as [e [He Hin]].
  assert (Hex : existsb (Cache.keyIs k) m = true).
  { apply existsb_exists. exists e. split; [exact Hin|].
    unfold Cache.keyIs. rewrite He. apply String.eqb_refl. }
  congruence.
Qed.

Lemma keys_Map_delete :
  forall k (m : Cache.t) k',
    In k' (map fst (Cache.Map_delete k m)) -> In k' (map fst m).
Proof.
  intros k m k'. induction m as [|[k0 y] m IH]; intros H; [exact H|].
  unfold Cache.Map_delete in *. cbn in H |- *.
  unfold Cache.keyIs in H at 1. cbn [fst] in H.
  destruct (k0 =? k)%string.
  - right. exact H.
  - cbn in H. destruct H as [H|H]; [left; exact H|right; exact (IH H)].
Qed.

Lemma wf_Map_delete :
  forall k (m : Cache.t), Cache.wf m -> Cache.wf (Cache.Map_delete k m).
Proof.
  intros k m. unfold Cache.wf. induction m as [|[k0 y] m IH]; intros Hwf; [exact Hwf|].
  cbn [map fst] in Hwf. inversion Hwf as [|a l Hnotin Hnd]; subst.
  unfold Cache.Map_delete in *. cbn [remove_first].
  unfold Cache.keyIs at 1. cbn [fst].
  destruct (k0 =? k)%string; [exact Hnd|].
  cbn [map fst]. constructor; [|exact (IH Hnd)].
  intros Hin. apply Hnotin. exact (keys_Map_delete k m k0 Hin).
Qed.

Lemma assoc_Map_delete_same :
  forall k (m : Cache.t), Cache.wf m -> assoc k (Cache.Map_delete k m) = None.
Proof.
  intros k m. unfold Cache.wf. induction m as [|[k0 y] m IH]; intros Hwf; [reflexivity|].
  cbn [map fst] in Hwf. inversion Hwf as [|a l Hnotin Hnd]; subst.
  unfold Cache.Map_delete in *. cbn [remove_first].
  unfold Cache.keyIs at 1. cbn [fst].
  destruct (String.eqb_spec k0 k) as [E|E].
  - subst k0. apply assoc_absent. exact Hnotin.
  - cbn [assoc]. apply String.eqb_neq in E. rewrite E. exact (IH Hnd).
Qed.

Lemma assoc_Map_delete_other :
  forall k k' (m : Cache.t),
    k' <> k -> assoc k' (Cache.Map_delete k m) = assoc k' m.
Proof.
  intros k k' m Hk. induction m as [|[k0 y] m IH]; [reflexivity|].
  unfold Cache.Map_delete in *. cbn [remove_first].
  unfold Cache.keyIs at 1. cbn [fst].
  destruct (String.eqb_spec k0 k) as [E|E].
  - subst k0. cbn [assoc]. apply String.eqb_neq in Hk.
    rewrite String.eqb_sym, Hk. reflexivity.
  - cbn [assoc]. rewrite IH. reflexivity.
Qed.

(** A read of a key just written, within its time to live. *)
Lemma get_after_set :
  forall c t0 t1 key v ttl,
    t1 <= t0 + Cache.seconds ttl * 1000 ->
    Cache.get t1 key (Cache.set t0 key v ttl c) = (v, Cache.set t0 key v ttl c).
Proof.
  intros c t0 t1 key v ttl Hlive. unfold Cache.get, Cache.set.
  rewrite assoc_Map_set_same. cbn [Cache.expiresAt Cache.value].
  assert (E : (t0 + Cache.seconds ttl * 1000 <? t1) = false) by (apply Z.ltb_ge; lia).
  rewrite E. reflexivity.
Qed.

(** An entry is served for its time to live and not a millisecond
    longer: a read up to the expiry instant returns the value written and
    leaves the cache as it is; a later read returns [null] and drops the
    entry.  Writing a key leaves every other key as it was, and [has]
    reports a stored [null] as absent. *)
Theorem cache_entry_lives_for_its_ttl :
  forall c t0 t1 key v ttl,
    Cache.wf c ->
    Cache.wf (Cache.set t0 key v ttl c)
    /\ (forall k, k <> key -> assoc k (Cache.set t0 key v ttl c) = assoc k c)
    /\ (t1 <= t0 + Cache.seconds ttl * 1000 ->
        Cache.get t1 key (Cache.set t0 key v ttl c) = (v, Cache.set t0 key v ttl c)
        /\ fst (Cache.has t1 key (Cache.set t0 key v ttl c)) = negb (Cache.isNull v))
    /\ (t0 + Cache.seconds ttl * 1000 < t1 ->
        fst (Cache.get t1 key (Cache.set t0 key v ttl c)) = Cache.Null
        /\ assoc key (snd (Cache.get t1 key (Cache.set t0 key v ttl c))) = None
        /\ Cache.wf (snd (Cache.get t1 key (Cache.set t0 key v ttl c)))
        /\ forall k,
            k <> key ->
            assoc k (snd (Cache.get t1 key (Cache.set t0 key v ttl c))) = assoc k c).
Proof.
  intros c t0 t1 key v ttl Hwf.
  assert (Hwf' : Cache.wf (Cache.set t0 key v ttl c)) by (apply wf_Map_set; exact Hwf).
  split; [exact Hwf'|split; [|split]].
  - intros k Hk. apply assoc_Map_set_other. exact Hk.
  - intros Hlive. split; [apply get_after_set; exact Hlive|].
    unfold Cache.has. rewrite (get_after_set c t0 t1 key v ttl Hlive). reflexivity.
  - intros Hdead.
    assert (E : (t0 + Cache.seconds ttl * 1000 <? t1) = true) by (apply Z.ltb_lt; lia).
    assert (Hget : Cache.get t1 key (Cache.set t0 key v ttl c)
                   = (Cache.Null, Cache.Map_delete key (Cache.set t0 key v ttl c))).
    { unfold Cache.get.
      assert (Ha : assoc key (Cache.set t0 key v ttl c)
                   = Some (Cache.mkItem v (t0 + Cache.seconds ttl * 1000)))
        by (unfold Cache.set; apply assoc_Map_set_same).
      rewrite Ha. cbn [Cache.expiresAt]. rewrite E. reflexivity. }
    rewrite Hget. cbn [fst snd].
    split; [reflexivity|split; [|split]].
    + apply assoc_Map_delete_same. exact Hwf'.
    + apply wf_Map_delete. exact Hwf'.
    + intros k Hk. rewrite (assoc_Map_delete_other key k _ Hk).
      apply assoc_Map_set_other. exact Hk.
Qed.

Lemma cache_entry_lives_for_its_ttl_witness :
  Cache.get 11000 "dashboard:overview"
    (Cache.set 1000 "dashboard:overview" (Cache.Data (JNum 7)) (Some 10)
       [("dashboard:stats", Cache.mkItem Cache.Null 500)])
  = (Cache.Data (JNum 7),
     Cache.set 1000 "dashboard:overview" (Cache.Data (JNum 7)) (Some 10)
       [("dashboard:stats", Cache.mkItem Cache.Null 500)]).
Proof.
  assert (Hwf : Cache.wf [("dashboard:stats", Cache.mkItem Cache.Null 500)]).
  { unfold Cache.wf. cbn. constructor; [intros []|constructor]. }
  destruct (cache_entry_lives_for_its_ttl _ 1000 11000 "dashboard:overview"
              (Cache.Data (JNum 7)) (Some 10) Hwf) as [_ [_ [H _]]].
  apply (proj1 (H ltac:(cbn; lia))).
Defined.

Lemma Map_delete_middle :
  forall k x (pre l : Cache.t),
    ~ In k (map fst pre) ->
    Cache.Map_delete k (pre ++ (k, x) :: l)%list = (pre ++ l)%list.
Proof.
  intros k x pre l. induction pre as [|[k0 y] pre IH]; intros Hk.
  - unfold Cache.Map_delete. cbn [app remove_first]. unfold Cache.keyIs at 1.
    cbn [fst]. rewrite String.eqb_refl. reflexivity.
  - unfold Cache.Map_delete in *. cbn [app remove_first]. unfold Cache.keyIs at 1.
    cbn [fst]. cbn [map fst] in Hk.
    destruct (String.eqb_spec k0 k) as [E|E].
    + exfalso. apply Hk. left. exact E.
    + rewrite IH; [reflexivity|]. intros Hin. apply Hk. right. exact Hin.
Qed.

Lemma cleaning_is_a_filter :
  forall now0 (l pre : Cache.t),
    Cache.wf (pre ++ l)%list ->
    fold_left
      (fun m e => if Cache.expiresAt (snd e) <? now0
                  then Cache.Map_delete (fst e) m else m)
      l (pre ++ l)%list
    = (pre ++ filter (fun e => negb (Cache.expiresAt (snd e) <? now0)) l)%list.
Proof.
  intros now0 l. induction l as [|[k x] l IH]; intros pre Hwf; [reflexivity|].
  cbn [fold_left filter fst snd].
  destruct (Cache.expiresAt x <? now0) eqn:E; cbn [negb].
  - assert (Hk : ~ In k (map fst pre)).
    { unfold Cache.wf in Hwf. rewrite map_app in Hwf. cbn [map fst] in Hwf.
      apply NoDup_remove_2 in Hwf. intros Hin. apply Hwf. apply in_or_app.
      left. exact Hin. }
    rewrite (Map_delete_middle k x pre l Hk). apply IH.
    unfold Cache.wf in *. rewrite map_app in *. cbn [map fst] in Hwf.
    exact (NoDup_remove_1 _ _ _ Hwf).
  - change (pre ++ (k, x) :: l)%list with (pre ++ [(k, x)] ++ l)%list.
    rewrite app_assoc. rewrite IH.
    + rewrite <- app_assoc. reflexivity.
    + rewrite <- app_assoc. exact Hwf.
Qed.

Lemma assoc_filter :
  forall (p : Cache.Item -> bool) k (m : Cache.t),
    Cache.wf m ->
    assoc k (filter (fun e => p (snd e)) m)
    = match assoc k m with
      | Some x => if p x then Some x else None
      | None => None
      end.
Proof.
  intros p k m. unfold Cache.wf. induction m as [|[k0 y] m IH]; intros Hwf; [reflexivity|].
  cbn [map fst] in Hwf. inversion Hwf as [|a l Hnotin Hnd]; subst.
  cbn [filter snd assoc]. destruct (String.eqb_spec k0 k) as [E|E].
  - subst k0. destruct (p y).
    + cbn [assoc]. rewrite String.eqb_refl. reflexivity.
    + apply assoc_absent. intros Hin. apply Hnotin.
      apply in_map_iff in Hin. destruct Hin as [e [He Hin]].
      apply filter_In in Hin. apply in_map_iff. exists e. tauto.
  - destruct (p y).
    + cbn [assoc]. apply String.eqb_neq in E. rewrite E. exact (IH Hnd).
    + exact (IH Hnd).
Qed.

Lemma wf_filter :
  forall (p : string * Cache.Item -> bool) (m : Cache.t),
    Cache.wf m -> Cache.wf (filter p m).
Proof.
  intros p m. unfold Cache.wf. induction m as [|e m IH]; intros Hwf; [exact Hwf|].
  cbn [map] in Hwf. inversion Hwf as [|a l Hnotin Hnd]; subst.
  cbn [filter]. destruct (p e); [|exact (IH Hnd)].
  cbn [map]. constructor; [|exact (IH Hnd)].
  intros Hin. apply Hnotin. apply in_map_iff in Hin. destruct Hin as [e' [He Hin]].
  apply filter_In in Hin. apply in_map_iff. exists e'. tauto.
Qed.

Lemma filter_is_no_longer :
  forall (A : Type) (p : A -> bool) (l : list A),
    (List.length (filter p l) <= List.length l)%nat.
Proof.
  intros A p l. induction l as [|x l IH]; [apply Nat.le_refl|].
  cbn. destruct (p x); cbn; lia.
Qed.

(** The periodic cleaning is invisible to readers: it removes exactly the
    entries that have expired, so a read at the time of the cleaning or
    later returns what it would have returned without it.  What is left is
    unexpired, and there is no more of it than before. *)
Theorem cleanExpired_is_invisible_to_readers :
  forall c t0 t1 key,
    Cache.wf c ->
    t0 <= t1 ->
    Cache.cleanExpired t0 c
    = filter (fun e => negb (Cache.expiresAt (snd e) <? t0)) c
    /\ Cache.wf (Cache.cleanExpired t0 c)
    /\ fst (Cache.get t1 key (Cache.cleanExpired t0 c)) = fst (Cache.get t1 key c)
    /\ (forall item,
           assoc key (Cache.cleanExpired t0 c) = Some item ->
           t0 <= Cache.expiresAt item)
    /\ (Cache.size (Cache.cleanExpired t0 c) <= Cache.size c)%nat.
Proof.
  intros c t0 t1 key Hwf Hle.
  assert (Hclean : Cache.cleanExpired t0 c
                   = filter (fun e => negb (Cache.expiresAt (snd e) <? t0)) c).
  { exact (cleaning_is_a_filter t0 c [] Hwf). }
  assert (Hassoc :
            assoc key (Cache.cleanExpired t0 c)
            = match assoc key c with
              | Some x => if negb (Cache.expiresAt x <? t0) then Some x else None
              | None => None
              end).
  { rewrite Hclean.
    exact (assoc_filter (fun x => negb (Cache.expiresAt x <? t0)) key c Hwf). }
  split; [exact Hclean|split; [|split; [|split]]].
  - rewrite Hclean. apply wf_filter. exact Hwf.
  - unfold Cache.get. rewrite Hassoc.
    destruct (assoc key c) as [x|]; [|reflexivity].
    destruct (Cache.expiresAt x <? t0) eqn:E; cbn [negb];
      [|destruct (Cache.expiresAt x <? t1); reflexivity].
    apply Z.ltb_lt in E.
    assert (E' : (Cache.expiresAt x <? t1) = true) by (apply Z.ltb_lt; lia).
    rewrite E'. reflexivity.
  - intros item Hitem. rewrite Hassoc in Hitem.
    destruct (assoc key c) as [x|]; [|discriminate Hitem].
    destruct (Cache.expiresAt x <? t0) eqn:E; cbn [negb] in Hitem;
      [discriminate Hitem|].
    inversion Hitem; subst x. apply Z.ltb_ge in E. exact E.
  - rewrite Hclean. apply filter_is_no_longer.
Qed.

Lemma cleanExpired_is_invisible_to_readers_witness :
  Cache.cleanExpired 1000
    [("a", Cache.mkItem Cache.Null 500); ("b", Cache.mkItem Cache.Undefined 1000);
     ("c", Cache.mkItem (Cache.Data (JBool true)) 999)]
  = [("b", Cache.mkItem Cache.Undefined 1000)].
Proof.
  assert (Hwf : Cache.wf
                  [("a", Cache.mkItem Cache.Null 500);
                   ("b", Cache.mkItem Cache.Undefined 1000);
                   ("c", Cache.mkItem (Cache.Data (JBool true)) 999)]).
  { unfold Cache.wf. cbn. repeat constructor; cbn; intuition discriminate. }
  exact (proj1 (cleanExpired_is_invisible_to_readers _ 1000 1000 "b" Hwf
                  ltac:(lia))).
Defined.

(** [getOrSet] runs the producer only on a miss, and a [null] result is
    stored without ever being served.  On a hit the producer is not run
    and the cache is as before.  On a miss the result of the producer is
    stored and returned, or its rejection passed on with nothing stored;
    within the time to live a second call returns a stored result that is
    not [null] without running its producer, and runs it again when the
    stored result is [null]. *)
Theorem getOrSet_serves_what_is_not_null :
  forall (W : Type) c t0 t1 t2 t3 key (fn fn' : W -> option Cache.Value * W)
         ttl ttl' w w' w2 v,
    (fst (Cache.get t0 key c) <> Cache.Null ->
     Cache.getOrSet t0 t1 key fn ttl c w = (Some (fst (Cache.get t0 key c)), c, w))
    /\ (fst (Cache.get t0 key c) = Cache.Null ->
        fn w = (None, w') ->
        Cache.getOrSet t0 t1 key fn ttl c w = (None, snd (Cache.get t0 key c), w'))
    /\ (fst (Cache.get t0 key c) = Cache.Null ->
        fn w = (Some v, w') ->
        t2 <= t1 + Cache.seconds ttl * 1000 ->
        Cache.getOrSet t0 t1 key fn ttl c w
        = (Some v, Cache.set t1 key v ttl (snd (Cache.get t0 key c)), w')
        /\ (v <> Cache.Null ->
            Cache.getOrSet t2 t3 key fn' ttl'
              (Cache.set t1 key v ttl (snd (Cache.get t0 key c))) w2
            = (Some v, Cache.set t1 key v ttl (snd (Cache.get t0 key c)), w2))
        /\ (v = Cache.Null ->
            Cache.getOrSet t2 t3 key fn' ttl'
              (Cache.set t1 key v ttl (snd (Cache.get t0 key c))) w2
            = match fn' w2 with
              | (Some v', w3) =>
                  (Some v',
                   Cache.set t3 key v' ttl'
                     (Cache.set t1 key v ttl (snd (Cache.get t0 key c))), w3)
              | (None, w3) =>
                  (None, Cache.set t1 key v ttl (snd (Cache.get t0 key c)), w3)
              end)).
Proof.
  intros W c t0 t1 t2 t3 key fn fn' ttl ttl' w w' w2 v.
  split; [|split].
  - intros Hhit. unfold Cache.getOrSet.
    assert (Hsame : snd (Cache.get t0 key c) = c).
    { unfold Cache.get in *. destruct (assoc key c) as [x|]; [|reflexivity].
      destruct (Cache.expiresAt x <? t0); [|reflexivity].
      exfalso. apply Hhit. reflexivity. }
    rewrite Hsame.
    destruct (fst (Cache.get t0 key c)); [contradiction|reflexivity..].
  - intros Hmiss Hfn. unfold Cache.getOrSet. rewrite Hmiss, Hfn. reflexivity.
  - intros Hmiss Hfn Hlive. split; [|split].
    + unfold Cache.getOrSet. rewrite Hmiss, Hfn. reflexivity.
    + intros Hv. unfold Cache.getOrSet at 1.
      rewrite (get_after_set _ t1 t2 key v ttl Hlive). cbn [fst snd].
      destruct v; [contradiction|reflexivity..].
    + intros Hv. unfold Cache.getOrSet at 1.
      rewrite (get_after_set _ t1 t2 key v ttl Hlive). cbn [fst snd].
      rewrite Hv. reflexivity.
Qed.

Lemma getOrSet_serves_what_is_not_null_witness :
  Cache.getOrSet (W := nat) 2000 2001 "dashboard:stats"
    (fun n => (Some (Cache.Data (JNum 2)), S n)) None
    (Cache.set 1001 "dashboard:stats" Cache.Null (Some 5)
       (snd (Cache.get 1000 "dashboard:stats" []))) 1%nat
  = (Some (Cache.Data (JNum 2)),
     Cache.set 2001 "dashboard:stats" (Cache.Data (JNum 2)) None
       (Cache.set 1001 "dashboard:stats" Cache.Null (Some 5)
          (snd (Cache.get 1000 "dashboard:stats" []))), 2%nat).
Proof.
  destruct (getOrSet_serves_what_is_not_null nat [] 1000 1001 2000 2001
              "dashboard:stats" (fun n => (Some Cache.Null, S n))
              (fun n => (Some (Cache.Data (JNum 2)), S n)) (Some 5) None
              0%nat 1%nat 1%nat Cache.Null) as [_ [_ H]].
  destruct (H eq_refl eq_refl ltac:(cbn; lia)) as [_ [_ H']].
  exact (H' eq_refl).
Defined.
